(** * Roster reconciliation scripts: a shallow embedding and its properties

    The development follows the scripts of the repository:
    - [UpdateStudentProfiles] (updateStudentProfiles.js): the frequency
      index, [findMatches], [processMatchForRecord] and the final sort;
    - [VerifyUserProfiles] (verifyUserProfiles.js, the verification script):
      the two verification passes over sub_code;
    - [UserProfile] (verifyUserProfiles.js, Part 4 of the user-profile
      script): the sub_code resolver and the sort by user;
    - [Workload] (verifyUserProfiles.js, Part 1 of the user-profile
      script): the rows made from the sheets of the workload book;
    - [StudentProfile] (verifyUserProfiles.js, the student-profile script):
      [main] with the deferred store.

    Data model.  A spreadsheet cell is a JavaScript value: text or a number.
    Text is a [string] of ASCII characters (case mapping and white space are
    those of ASCII); a number in a cell is an integer that JavaScript prints
    in full, and what [Number] makes of text is a [JS.number], the double
    JavaScript computes.
    A row is the list of its (column, cell) pairs in [Object.keys] order.
    Plain objects used as dictionaries are finite maps of their own
    properties, looked up through [JS.obj_get], which also sees the members
    every object inherits from [Object.prototype].  Console output is left
    out. *)

From Stdlib Require Import String Ascii ZArith List Lia Sorted Permutation DecimalString.
From stdpp Require Import gmap strings.
Import ListNotations.
Open Scope string_scope.

(** ** JavaScript values and string primitives *)
Module JS.

Inductive value : Type :=
| VUndefined
| VNull
| VStr (s : string)
| VNum (n : Z)
| VInherited (name : string).

(** ToBoolean. *)
Definition truthy (v : value) : bool :=
  match v with
  | VUndefined | VNull => false
  | VStr s => negb (s =? "")
  | VNum n => negb (n =? 0)%Z
  | VInherited _ => true
  end.

(** [a || b] *)
Definition or_else (a b : value) : value := if truthy a then a else b.

Definition string_of_Z (n : Z) : string := NilZero.string_of_int (Z.to_int n).
Definition string_of_N (n : N) : string := NilZero.string_of_uint (N.to_uint n).

(** The names every plain object inherits from [Object.prototype]. *)
Definition inherited_names : list string :=
  [ "constructor"; "__defineGetter__"; "__defineSetter__"; "hasOwnProperty";
    "__lookupGetter__"; "__lookupSetter__"; "isPrototypeOf";
    "propertyIsEnumerable"; "toString"; "valueOf"; "__proto__";
    "toLocaleString" ].

Definition inherited_name (k : string) : bool :=
  existsb (String.eqb k) inherited_names.

(** [String(v)], [v.toString()] and template interpolation. *)
Definition to_string (v : value) : string :=
  match v with
  | VUndefined => "undefined"
  | VNull => "null"
  | VStr s => s
  | VNum n => string_of_Z n
  | VInherited name =>
      if name =? "__proto__" then "[object Object]"
      else "function " ++ (if name =? "constructor" then "Object" else name)
             ++ "() { [native code] }"
  end.

(** [a === b] on the values that occur. *)
Definition strict_eq (a b : value) : bool :=
  match a, b with
  | VUndefined, VUndefined => true
  | VNull, VNull => true
  | VStr s, VStr t => s =? t
  | VNum n, VNum m => (n =? m)%Z
  | VInherited s, VInherited t => s =? t
  | _, _ => false
  end.

(** *** Characters *)
Definition is_ws (c : ascii) : bool :=
  match N_of_ascii c with
  | 9 | 10 | 11 | 12 | 13 | 32 => true
  | _ => false
  end%N.

Definition is_digit (c : ascii) : bool :=
  ((48 <=? N_of_ascii c) && (N_of_ascii c <=? 57))%N.

Definition is_upper (c : ascii) : bool :=
  ((65 <=? N_of_ascii c) && (N_of_ascii c <=? 90))%N.

Definition is_lower (c : ascii) : bool :=
  ((97 <=? N_of_ascii c) && (N_of_ascii c <=? 122))%N.

(** Line terminators, which [.] of a regular expression does not match. *)
Definition is_line_terminator (c : ascii) : bool :=
  match N_of_ascii c with
  | 10 | 13 => true
  | _ => false
  end%N.

Definition upper_char (c : ascii) : ascii :=
  if is_lower c then ascii_of_N (N_of_ascii c - 32) else c.

Definition lower_char (c : ascii) : ascii :=
  if is_upper c then ascii_of_N (N_of_ascii c + 32) else c.

(** *** Strings *)
Fixpoint map_string (f : ascii -> ascii) (s : string) : string :=
  match s with
  | EmptyString => EmptyString
  | String c r => String (f c) (map_string f r)
  end.

Definition toUpperCase : string -> string := map_string upper_char.
Definition toLowerCase : string -> string := map_string lower_char.

Fixpoint trimStart (s : string) : string :=
  match s with
  | EmptyString => EmptyString
  | String c r => if is_ws c then trimStart r else s
  end.

Fixpoint trimEnd (s : string) : string :=
  match s with
  | EmptyString => EmptyString
  | String c r =>
      let r' := trimEnd r in
      if is_ws c && (r' =? "") then EmptyString else String c r'
  end.

Definition trim (s : string) : string := trimEnd (trimStart s).

(** [p] is a prefix of [s]. *)
Fixpoint is_prefix (p s : string) : bool :=
  match p, s with
  | EmptyString, _ => true
  | String _ _, EmptyString => false
  | String a p', String b s' => Ascii.eqb a b && is_prefix p' s'
  end.

(** [s.includes(sub)] *)
Fixpoint includes (s sub : string) : bool :=
  is_prefix sub s ||
  match s with
  | EmptyString => false
  | String _ r => includes r sub
  end.

(** [a < b] on text: the order of the code units. *)
Fixpoint string_ltb (a b : string) : bool :=
  match a, b with
  | _, EmptyString => false
  | EmptyString, String _ _ => true
  | String x a', String y b' =>
      (N_of_ascii x <? N_of_ascii y)%N
      || ((N_of_ascii x =? N_of_ascii y)%N && string_ltb a' b')
  end.

(** [s.startsWith(p)] *)
Definition startsWith (s p : string) : bool := is_prefix p s.

(** [s.charAt(0)] *)
Definition charAt0 (s : string) : string :=
  match s with
  | EmptyString => EmptyString
  | String c _ => String c EmptyString
  end.

(** [s.replace(/-/g, "")] and, generally, deleting the characters [p] holds of. *)
Fixpoint delete_chars (p : ascii -> bool) (s : string) : string :=
  match s with
  | EmptyString => EmptyString
  | String c r => if p c then delete_chars p r else String c (delete_chars p r)
  end.

Definition is_hyphen (c : ascii) : bool := (N_of_ascii c =? 45)%N.

(** [s.split(sep)] for a one-character separator. *)
Fixpoint split_char (sep : ascii) (s : string) : list string :=
  match s with
  | EmptyString => [EmptyString]
  | String c r =>
      if Ascii.eqb c sep then EmptyString :: split_char sep r
      else match split_char sep r with
           | h :: t => String c h :: t
           | [] => [String c EmptyString]
           end
  end.

(** [s.split(/\s+/)]: the pieces between maximal runs of white space; [cur]
    is the piece being read and [in_run] tells that a run is being skipped. *)
Fixpoint split_ws_from (cur : string) (in_run : bool) (s : string) : list string :=
  match s with
  | EmptyString => [cur]
  | String c r =>
      if is_ws c then
        if in_run then split_ws_from EmptyString true r
        else cur :: split_ws_from EmptyString true r
      else split_ws_from (cur ++ String c EmptyString) false r
  end.

Definition split_ws (s : string) : list string := split_ws_from EmptyString false s.

(** The digits [/^\d+/] would match (possibly none) and what follows them. *)
Fixpoint leading_digits (s : string) : string :=
  match s with
  | EmptyString => EmptyString
  | String c r => if is_digit c then String c (leading_digits r) else EmptyString
  end.

Fixpoint drop_leading_digits (s : string) : string :=
  match s with
  | EmptyString => EmptyString
  | String c r => if is_digit c then drop_leading_digits r else s
  end.

(** The number a run of decimal digits denotes. *)
Fixpoint digits_value_from (acc : Z) (s : string) : Z :=
  match s with
  | EmptyString => acc
  | String c r => digits_value_from (10 * acc + (Z.of_N (N_of_ascii c) - 48)) r
  end.

Definition digits_value (s : string) : Z := digits_value_from 0 s.

(** [parseInt(s, 10)]: white space, an optional sign, then digits; [None] is NaN. *)
Definition parseInt (s : string) : option Z :=
  let t := trimStart s in
  let '(neg, body) :=
    match t with
    | String "-" r => (true, r)
    | String "+" r => (false, r)
    | _ => (false, t)
    end in
  let ds := leading_digits body in
  if ds =? "" then None
  else Some (if neg : bool then (- digits_value ds)%Z else digits_value ds).

(** How many characters [/\d/g] finds. *)
Fixpoint count_digits (s : string) : nat :=
  match s with
  | EmptyString => 0
  | String c r => (if is_digit c then 1 else 0) + count_digits r
  end.

(** *** Numbers *)

(** What [Number(...)] gives: an integer of absolute value at most 2^53,
    which is printed in full; another finite double, of absolute value
    [m * 2^e] with [m] the mantissa, [0 < m <= 2^53 - 1]; an infinity; or
    NaN.  The sign of zero is not kept: neither [>] nor [String] sees it. *)
Inductive number : Type :=
| NumInt (n : Z)
| NumDouble (neg : bool) (m e : Z)
| NumInf (neg : bool)
| NumNaN.

(** [p / q >= 2^e], for positive [p] and [q]. *)
Definition ge_pow2 (p q e : Z) : bool :=
  (if 0 <=? e then q * 2 ^ e <=? p else q <=? p * 2 ^ (- e))%Z.

(** The integer [e] with [2^e <= p / q < 2^(e+1)], for positive [p] and [q]. *)
Definition floor_log2 (p q : Z) : Z :=
  let e0 := (Z.log2 p - Z.log2 q)%Z in
  if ge_pow2 p q e0 then e0 else (e0 - 1)%Z.

(** [a / b] rounded to the nearest integer, a tie to the even one. *)
Definition round_half_even (a b : Z) : Z :=
  let m := (a / b)%Z in
  match (2 * (a mod b) ?= b)%Z with
  | Lt => m
  | Gt => (m + 1)%Z
  | Eq => if Z.even m then m else (m + 1)%Z
  end.

(** The double nearest to [p / q], for positive [p] and [q]: its mantissa
    and exponent, the mantissa 0 when the quotient rounds to zero; [None] is
    the overflow to Infinity. *)
Definition nearest_double (p q : Z) : option (Z * Z) :=
  let u := Z.max (floor_log2 p q - 52) (-1074) in
  let m := if (0 <=? u)%Z then round_half_even p (q * 2 ^ u)
           else round_half_even (p * 2 ^ (- u)) q in
  let '(m, u) := if (m =? 2 ^ 53)%Z then (2 ^ 52, u + 1)%Z else (m, u) in
  if (971 <? u)%Z then None else Some (m, u).

(** The number of sign [neg] and absolute value [p / q]. *)
Definition number_of_ratio (neg : bool) (p q : Z) : number :=
  if (p =? 0)%Z then NumInt 0
  else
    match nearest_double p q with
    | None => NumInf neg
    | Some (m, u) =>
        let sign (v : Z) := if neg then (- v)%Z else v in
        if (m =? 0)%Z then NumInt 0
        else if (0 <=? u)%Z then
          if (m * 2 ^ u <=? 2 ^ 53)%Z then NumInt (sign (m * 2 ^ u)%Z)
          else NumDouble neg m u
        else if (m mod 2 ^ (- u) =? 0)%Z then NumInt (sign (m / 2 ^ (- u))%Z)
        else NumDouble neg m u
    end.

(** The value of the digits [s] in base [radix], or [None] when a character
    is no digit of that base. *)
Definition digit_of (c : ascii) : option Z :=
  let n := Z.of_N (N_of_ascii c) in
  if ((48 <=? n) && (n <=? 57))%Z then Some (n - 48)%Z
  else if ((97 <=? n) && (n <=? 102))%Z then Some (n - 87)%Z
  else if ((65 <=? n) && (n <=? 70))%Z then Some (n - 55)%Z
  else None.

Fixpoint radix_value_from (radix acc : Z) (s : string) : option Z :=
  match s with
  | EmptyString => Some acc
  | String c r =>
      match digit_of c with
      | Some d => if (d <? radix)%Z then radix_value_from radix (radix * acc + d)%Z r else None
      | None => None
      end
  end.

(** [0x], [0o] and [0b] literals. *)
Definition non_decimal (t : string) : option Z :=
  match t with
  | String "0" (String x r) =>
      let radix :=
        if Ascii.eqb x "x" || Ascii.eqb x "X" then Some 16%Z
        else if Ascii.eqb x "o" || Ascii.eqb x "O" then Some 8%Z
        else if Ascii.eqb x "b" || Ascii.eqb x "B" then Some 2%Z
        else None in
      match radix with
      | Some b => if r =? "" then None else radix_value_from b 0 r
      | None => None
      end
  | _ => None
  end.

(** An optional sign. *)
Definition take_sign (t : string) : bool * string :=
  match t with
  | String "-" r => (true, r)
  | String "+" r => (false, r)
  | _ => (false, t)
  end.

(** The exponent part, [e] or [E] and a signed integer; an empty text is
    the exponent 0. *)
Definition exponent_part (t : string) : option Z :=
  match t with
  | EmptyString => Some 0%Z
  | String x r =>
      if Ascii.eqb x "e" || Ascii.eqb x "E" then
        let '(neg, ds) := take_sign r in
        if negb (ds =? "") && (leading_digits ds =? ds)
        then Some (if neg : bool then (- digits_value ds)%Z else digits_value ds)
        else None
      else None
  end.

(** An unsigned decimal literal: its digits, read as an integer, and the
    power of ten that scales them. *)
Definition decimal_literal (t : string) : option (Z * Z) :=
  let int := leading_digits t in
  let rest := drop_leading_digits t in
  let '(frac, tail, dot) :=
    match rest with
    | String "." r => (leading_digits r, drop_leading_digits r, true)
    | _ => (EmptyString, rest, false)
    end in
  if (int =? "") && (frac =? "") then None
  else
    match exponent_part tail with
    | Some e => Some (digits_value (int ++ frac), (e - Z.of_nat (String.length frac))%Z)
    | None => None
    end.

(** [Number(s)] for text. *)
Definition string_to_number (s : string) : number :=
  let t := trim s in
  if t =? "" then NumInt 0
  else
    match non_decimal t with
    | Some v => number_of_ratio false v 1
    | None =>
        let '(neg, body) := take_sign t in
        if body =? "Infinity" then NumInf neg
        else
          match decimal_literal body with
          | Some (d, e) =>
              if (0 <=? e)%Z then number_of_ratio neg (d * 10 ^ e) 1
              else number_of_ratio neg d (10 ^ (- e))
          | None => NumNaN
          end
    end.

(** [x > z] *)
Definition number_gtb (x : number) (z : Z) : bool :=
  match x with
  | NumInt n => (z <? n)%Z
  | NumDouble neg m e =>
      let v := if neg then (- m)%Z else m in
      if (0 <=? e)%Z then (z <? v * 2 ^ e)%Z else (z * 2 ^ (- e) <? v)%Z
  | NumInf neg => negb neg
  | NumNaN => false
  end.

(** The least [j], from [j] on, with [d <= n * 10^j]. *)
Fixpoint first_scale (fuel : nat) (j n d : Z) : Z :=
  match fuel with
  | O => j
  | S fuel' => if (d <=? n * 10 ^ j)%Z then j else first_scale fuel' (j + 1)%Z n d
  end.

(** The integer [t] with [10^(t-1) <= n / d < 10^t], for a double [n / d]. *)
Definition decimal_exponent (n d : Z) : Z :=
  if (d <=? n)%Z then Z.of_nat (String.length (string_of_Z (n / d)))
  else (1 - first_scale 400 1 n d)%Z.

(** [c * 10^j] against [b * 2^e]. *)
Definition compare_scaled (c j b e : Z) : comparison :=
  (c * 10 ^ Z.max j 0 * 2 ^ Z.max (- e) 0 ?= b * 2 ^ Z.max e 0 * 10 ^ Z.max (- j) 0)%Z.

(** [c * 10^j] rounds to the double [m * 2^u]: it lies between the middles
    of the gaps to the neighbouring doubles, a middle counting when [m] is
    even. *)
Definition rounds_to (m u c j : Z) : bool :=
  let low := (4 * m - (if (m =? 2 ^ 52) && (-1074 <? u) then 1 else 2))%Z in
  let high := (4 * m + 2)%Z in
  match compare_scaled c j low (u - 2), compare_scaled c j high (u - 2) with
  | Gt, Lt => true
  | Eq, Lt | Gt, Eq => Z.even m
  | _, _ => false
  end.

(** The shortest decimal that rounds to [m * 2^u], tried with [k] digits
    and more: its digits as an integer and the power of ten that scales
    them.  Of two decimals of the same length the nearer is taken, the even
    one when they are as near. *)
Fixpoint shortest_from (fuel : nat) (k : Z) (m u t : Z) : Z * Z :=
  let j := (t - k)%Z in
  let n := (m * 2 ^ Z.max u 0 * 10 ^ Z.max (- j) 0)%Z in
  let d := (2 ^ Z.max (- u) 0 * 10 ^ Z.max j 0)%Z in
  let lo := (n / d)%Z in
  let hi := (lo + 1)%Z in
  let nearer :=
    match (2 * n ?= (2 * lo + 1) * d)%Z with
    | Lt => lo
    | Gt => hi
    | Eq => if Z.even lo then lo else hi
    end in
  match fuel with
  | O => (nearer, j)
  | S fuel' =>
      match rounds_to m u lo j, rounds_to m u hi j with
      | true, true => (nearer, j)
      | true, false => (lo, j)
      | false, true => (hi, j)
      | false, false => shortest_from fuel' (k + 1)%Z m u t
      end
  end.

(** Dropping the zeros a decimal ends with. *)
Fixpoint strip_zeros (fuel : nat) (c j : Z) : Z * Z :=
  match fuel with
  | O => (c, j)
  | S fuel' =>
      if (c mod 10 =? 0)%Z && negb (c =? 0)%Z then strip_zeros fuel' (c / 10)%Z (j + 1)%Z
      else (c, j)
  end.

Fixpoint zeros (n : nat) : string :=
  match n with
  | O => EmptyString
  | S n' => String "0" (zeros n')
  end.

(** [String(x)] for a positive finite double [m * 2^u]. *)
Definition double_to_string (m u : Z) : string :=
  let t := decimal_exponent (m * 2 ^ Z.max u 0) (2 ^ Z.max (- u) 0) in
  let '(c, j) := shortest_from 16 1 m u t in
  let '(s, j) := strip_zeros 400 c j in
  let digits := string_of_Z s in
  let k := Z.of_nat (String.length digits) in
  let n := (k + j)%Z in
  if ((k <=? n) && (n <=? 21))%Z then digits ++ zeros (Z.to_nat (n - k))
  else if ((0 <? n) && (n <=? 21))%Z then
    substring 0 (Z.to_nat n) digits ++ "." ++ substring (Z.to_nat n) (Z.to_nat (k - n)) digits
  else if ((-6 <? n) && (n <=? 0))%Z then "0." ++ zeros (Z.to_nat (- n)) ++ digits
  else
    let e := (n - 1)%Z in
    let exponent := (if (e <? 0)%Z then "-" else "+") ++ string_of_Z (Z.abs e) in
    if (k =? 1)%Z then digits ++ "e" ++ exponent
    else substring 0 1 digits ++ "." ++ substring 1 (Z.to_nat (k - 1)) digits
         ++ "e" ++ exponent.

(** [String(x)] *)
Definition number_to_string (x : number) : string :=
  match x with
  | NumInt n => string_of_Z n
  | NumDouble neg m e => (if neg then "-" else "") ++ double_to_string m e
  | NumInf neg => if neg then "-Infinity" else "Infinity"
  | NumNaN => "NaN"
  end.

(** Removing one pair of enclosing parentheses, as the resolver's [replace]
    does: the text must open with a left and close with a right parenthesis,
    with no line terminator in between. *)
Fixpoint ends_with_paren (s : string) : option string :=
  match s with
  | EmptyString => None
  | String c EmptyString => if Ascii.eqb c ")" then Some EmptyString else None
  | String c r =>
      match ends_with_paren r with
      | Some body => Some (String c body)
      | None => None
      end
  end.

Fixpoint no_line_terminator (s : string) : bool :=
  match s with
  | EmptyString => true
  | String c r => negb (is_line_terminator c) && no_line_terminator r
  end.

Definition strip_parens (s : string) : string :=
  match s with
  | String "(" r =>
      match ends_with_paren r with
      | Some body => if no_line_terminator body then body else s
      | None => s
      end
  | _ => s
  end.

(** *** Rows and plain objects *)

(** A row of [sheet_to_json]: its columns in order. *)
Definition row : Type := list (string * value).

Fixpoint row_get (r : row) (col : string) : value :=
  match r with
  | [] => VUndefined
  | (k, v) :: r' => if k =? col then v else row_get r' col
  end.

Definition row_has (r : row) (col : string) : bool :=
  existsb (fun kv => fst kv =? col) r.

(** [r[col] = v]: the column keeps its place, a new one is added last. *)
Fixpoint row_set (r : row) (col : string) (v : value) : row :=
  match r with
  | [] => [(col, v)]
  | (k, w) :: r' => if k =? col then (k, v) :: r' else (k, w) :: row_set r' col v
  end.

(** [o[k]] on a plain object whose own properties are [own]. *)
Definition obj_get (own : gmap string value) (k : string) : value :=
  match own !! k with
  | Some v => v
  | None => if inherited_name k then VInherited k else VUndefined
  end.

(** [o[k] = v] for a primitive [v]: the [__proto__] setter ignores it. *)
Definition obj_set (own : gmap string value) (k : string) (v : value) : gmap string value :=
  if k =? "__proto__" then own else <[k := v]> own.

(** [Object.hasOwnProperty.call(o, k)] *)
Definition has_own (own : gmap string value) (k : string) : bool :=
  match own !! k with Some _ => true | None => false end.

(** A literal table [{ k1: v1, ... }] of strings. *)
Definition literal (kvs : list (string * string)) : gmap string value :=
  list_to_map (map (fun kv => (fst kv, VStr (snd kv))) kvs).

(** *** Array.prototype.sort
    A stable sort; [le a b] stands for "the comparator does not put [b]
    before [a]".  Any stable sort returns the same array for a consistent
    comparator, so insertion from the right is used. *)
Section Sort.
Context {A : Type} (le : A -> A -> bool).

Fixpoint insert_sorted (x : A) (l : list A) : list A :=
  match l with
  | [] => [x]
  | y :: l' => if le x y then x :: l else y :: insert_sorted x l'
  end.

Definition sort (l : list A) : list A := fold_right insert_sorted [] l.
End Sort.

(** A comparator that may throw ([None]): the same insertion, stopping at
    the first failed call. *)
Section SortThrowing.
Context {A : Type} (le : A -> A -> option bool).

Fixpoint insert_sorted_m (x : A) (l : list A) : option (list A) :=
  match l with
  | [] => Some [x]
  | y :: l' =>
      match le x y with
      | None => None
      | Some true => Some (x :: l)
      | Some false =>
          match insert_sorted_m x l' with
          | Some r => Some (y :: r)
          | None => None
          end
      end
  end.

Fixpoint sort_m (l : list A) : option (list A) :=
  match l with
  | [] => Some []
  | x :: l' =>
      match sort_m l' with
      | Some r => insert_sorted_m x r
      | None => None
      end
  end.
End SortThrowing.

(** *** The nine-column output record *)
Record OutputRecord : Type := {
  tsss_id : value;
  a_year : string;
  terms : string;
  sub_code : value;
  subject_code : value;
  taking : string;
  self_taking : string;
  grouping : string;
  grouping_real : string
}.

(** The record as a row, for [json_to_sheet] and for rows pushed among
    sheet rows. *)
Definition row_of_record (r : OutputRecord) : row :=
  [ ("tsss_id", tsss_id r); ("a_year", VStr (a_year r)); ("terms", VStr (terms r));
    ("sub_code", sub_code r); ("subject_code", subject_code r);
    ("taking", VStr (taking r)); ("self_taking", VStr (self_taking r));
    ("grouping", VStr (grouping r)); ("grouping_real", VStr (grouping_real r)) ].

End JS.

(** ** updateStudentProfiles.js *)
Module UpdateStudentProfiles.
Import JS.

(** What a run of the script comes to: a result, a [TypeError], or a write
    to [Object.prototype] itself, past which the run is not followed. *)
Inductive run (A : Type) : Type :=
| Done (a : A)
| Throws
| PrototypeWritten.
Arguments Done {A} a.
Arguments Throws {A}.
Arguments PrototypeWritten {A}.

Record entry : Type := { count : N; subCodes : list string }.

(** The own properties of [frequencyMap], in the order they were created. *)
Definition frequencyMap : Type := list (string * entry).

Fixpoint fm_get (fm : frequencyMap) (k : string) : option entry :=
  match fm with
  | [] => None
  | (k', e) :: fm' => if k' =? k then Some e else fm_get fm' k
  end.

Fixpoint fm_alter (f : entry -> entry) (k : string) (fm : frequencyMap) : frequencyMap :=
  match fm with
  | [] => []
  | (k', e) :: fm' => if k' =? k then (k', f e) :: fm' else (k', e) :: fm_alter f k fm'
  end.

(** The key a cell is entered under: [rawValue] trimmed, then without its
    hyphens; [None] when the trimmed text is empty. *)
Definition cell_key (cell : string) : option string :=
  let rawValue := trim cell in
  if rawValue =? "" then None
  else Some (if includes rawValue "-" then delete_chars is_hyphen rawValue else rawValue).

(** [v.toString()], which throws on [undefined] and [null]. *)
Definition toString_method (v : value) : option string :=
  match v with
  | VUndefined | VNull => None
  | _ => Some (to_string v)
  end.

(** The body of the inner [forEach] for one column of [row]. *)
Definition add_cell (r : row) (fm : frequencyMap) (columnName : string) : run frequencyMap :=
  match toString_method (row_get r columnName) with
  | None => Throws
  | Some text =>
      match cell_key text with
      | None => Done fm
      | Some cellValue =>
          (* the sub_code to record, if the row carries one *)
          let recorded : option (option string) :=
            if row_has r "sub_code" then
              match toString_method (row_get r "sub_code") with
              | None => None
              | Some sc => Some (if trim sc =? "" then None else Some (trim sc))
              end
            else Some None in
          let bump fm1 :=
            let fm2 := fm_alter (fun e => {| count := count e + 1; subCodes := subCodes e |})
                         cellValue fm1 in
            match recorded with
            | None => Throws
            | Some None => Done fm2
            | Some (Some sc) =>
                Done (fm_alter
                        (fun e => {| count := count e; subCodes := (subCodes e ++ [sc])%list |})
                        cellValue fm2)
            end in
          match fm_get fm cellValue with
          | Some _ => bump fm
          | None =>
              if inherited_name cellValue then
                (* the inherited member is truthy: no entry is created, the
                   count lands on that member, which has no subCodes *)
                match recorded with
                | None | Some (Some _) => Throws
                | Some None =>
                    if cellValue =? "__proto__" then PrototypeWritten else Done fm
                end
              else bump (fm ++ [(cellValue, {| count := 0; subCodes := [] |})])%list
          end
      end
  end.

Fixpoint add_cells (r : row) (fm : frequencyMap) (cols : list string) : run frequencyMap :=
  match cols with
  | [] => Done fm
  | c :: cols' =>
      match add_cell r fm c with
      | Done fm' => add_cells r fm' cols'
      | Throws => Throws
      | PrototypeWritten => PrototypeWritten
      end
  end.

(** [userJsonData.forEach(...)] from the empty index. *)
Fixpoint build_from (fm : frequencyMap) (userJsonData : list row) : run frequencyMap :=
  match userJsonData with
  | [] => Done fm
  | r :: rest =>
      match add_cells r fm (map fst r) with
      | Done fm' => build_from fm' rest
      | Throws => Throws
      | PrototypeWritten => PrototypeWritten
      end
  end.

Definition build (userJsonData : list row) : run frequencyMap := build_from [] userJsonData.

(** *** The order of [for (const key in frequencyMap)]
    Keys that are array indices come first, by ascending value; the others
    follow in creation order. *)
Fixpoint all_digits (s : string) : bool :=
  match s with
  | EmptyString => true
  | String c r => is_digit c && all_digits r
  end.

Definition array_index (k : string) : option Z :=
  match k with
  | EmptyString => None
  | String c r =>
      if all_digits k && ((k =? "0") || negb (Ascii.eqb c "0"))
         && (digits_value k <=? 4294967294)%Z
      then Some (digits_value k) else None
  end.

Definition is_index (kv : string * entry) : bool :=
  match array_index (fst kv) with Some _ => true | None => false end.

Definition index_le (a b : string * entry) : bool :=
  match array_index (fst a), array_index (fst b) with
  | Some i, Some j => (i <=? j)%Z
  | _, _ => true
  end.

Definition for_in (fm : frequencyMap) : list (string * entry) :=
  (sort index_le (List.filter is_index fm)
   ++ List.filter (fun kv => negb (is_index kv)) fm)%list.

(** *** findMatches *)
Record matchObj : Type := {
  m_count : N;
  m_matches : list string;
  m_subCodes : list string
}.

(** [Set.prototype.add] on a set kept in insertion order. *)
Definition set_add (s : list string) (x : string) : list string :=
  if existsb (String.eqb x) s then s else (s ++ [x])%list.

Definition match_line (key : string) (e : entry) : string :=
  key ++ " (" ++ string_of_N (count e) ++ ")".

Definition query_key (substring : string) : string :=
  if includes substring "-" then delete_chars is_hyphen substring else substring.

(** The body of the [for ... in] loop: the running count, the lines and the
    set of collected sub-codes after visiting one key. *)
Definition scan_step (normalizedSubstring : string)
    (acc : N * list string * list string) (kv : string * entry)
  : N * list string * list string :=
  let '(cnt, matches, collectedSubCodes) := acc in
  let '(key, e) := kv in
  if includes key normalizedSubstring then
    ((cnt + count e)%N, (matches ++ [match_line key e])%list,
     fold_left set_add (subCodes e) collectedSubCodes)
  else acc.

Definition findMatches (fm : frequencyMap) (substring : string) : matchObj :=
  let normalizedSubstring := query_key substring in
  let '(cnt, matches, collectedSubCodes) :=
    fold_left (scan_step normalizedSubstring) (for_in fm) (0%N, [], []) in
  {| m_count := cnt; m_matches := matches; m_subCodes := collectedSubCodes |}.

(** *** The sub_code to subject_code table *)
Definition cell_text (v : value) : string :=
  if truthy v then trim (to_string v) else "".

Definition subSubjectMapping (tableData : list row) : gmap string value :=
  fold_left
    (fun m r =>
       let subCode := cell_text (row_get r "sub_code") in
       let subjectCode := cell_text (row_get r "subject_code") in
       if negb (subCode =? "") && negb (subjectCode =? "")
       then obj_set m subCode (VStr subjectCode) else m)
    tableData ∅.

Definition convertSubCode (subCode : string) : string :=
  if subCode =? "DCHIS1" then "DCI11"
  else if subCode =? "DCHIS3" then "DCI31"
  else subCode.

(** *** Records for the class list *)
Definition processMatchForRecord (mapping : gmap string value) (tsssid : value)
    (m : matchObj) : option OutputRecord :=
  match m_subCodes m, m_matches m with
  | sc0 :: _, m0 :: _ =>
      if (0 <? m_count m)%N then
        let grouping := trim (hd "" (split_char "(" m0)) in
        let originalSub := trim sc0 in
        let sub_code := convertSubCode originalSub in
        let subject_code := or_else (obj_get mapping sub_code) (VStr "") in
        if negb (sub_code =? "") && truthy subject_code then
          Some {| tsss_id := tsssid; a_year := "2025/2026"; terms := "Term 1";
                  sub_code := VStr sub_code; subject_code := subject_code;
                  taking := "TRUE"; self_taking := "FALSE";
                  grouping := grouping; grouping_real := grouping |}
        else None
      else None
  | _, _ => None
  end.

Definition opt_list {A : Type} (o : option A) : list A :=
  match o with Some a => [a] | None => [] end.

(** The body of [classData.forEach]: the records one class-list row appends. *)
Definition class_row_records (fm : frequencyMap) (mapping : gmap string value)
    (r : row) : list OutputRecord :=
  if negb (truthy (row_get r "X1")) && negb (truthy (row_get r "X2"))
     && negb (truthy (row_get r "X3")) then []
  else
    let tsssid := or_else (row_get r "TSSSID") (VStr "") in
    let form := or_else (row_get r "Form") (VStr "") in
    let x1 := or_else (row_get r "X1") (VStr "") in
    let x2 := or_else (row_get r "X2") (VStr "") in
    let x3 := or_else (row_get r "X3") (VStr "") in
    let formX1 := to_string form ++ to_string x1 in
    let formX2 := to_string form ++ to_string x2 in
    let formX3 := to_string form ++ to_string x3 in
    let matchX1 := findMatches fm formX1 in
    let matchX2 := findMatches fm formX2 in
    let matchX3 := findMatches fm formX3 in
    (opt_list (processMatchForRecord mapping tsssid matchX1)
     ++ opt_list (processMatchForRecord mapping tsssid matchX2)
     ++ opt_list (processMatchForRecord mapping tsssid matchX3))%list.

Definition appendedRecords (fm : frequencyMap) (mapping : gmap string value)
    (classData : list row) : list OutputRecord :=
  flat_map (class_row_records fm mapping) classData.

(** *** The final sort by grouping *)

(** [a.grouping ? a.grouping.toLowerCase() : ""]; a truthy value that is
    not text has no [toLowerCase]. *)
Definition grouping_key (r : row) : option string :=
  let g := row_get r "grouping" in
  if truthy g then
    match g with
    | VStr s => Some (toLowerCase s)
    | _ => None
    end
  else Some "".

(** [None]: the comparator throws; [Some true]: it does not answer 1. *)
Definition grouping_le (a b : row) : option bool :=
  match grouping_key a, grouping_key b with
  | Some groupingA, Some groupingB =>
      Some (if string_ltb groupingA groupingB then true
            else if string_ltb groupingB groupingA then false
            else true)
  | _, _ => None
  end.

(** What is written to the updated student profile. *)
Definition sorted_studentData (studentData : list row) (appended : list OutputRecord)
  : option (list row) :=
  sort_m grouping_le (studentData ++ map row_of_record appended)%list.

(** The whole script, from the four sheets to the sheet written. *)
Definition script (userJsonData tableData classData studentData : list row)
  : run (list row) :=
  match build userJsonData with
  | Done fm =>
      match sorted_studentData studentData
              (appendedRecords fm (subSubjectMapping tableData) classData) with
      | Some out => Done out
      | None => Throws
      end
  | Throws => Throws
  | PrototypeWritten => PrototypeWritten
  end.

End UpdateStudentProfiles.

(** ** verifyUserProfiles.js: the verification script *)
Module VerifyUserProfiles.
Import JS.

Definition firstLevelSubCodeMapping : gmap string value :=
  literal [ ("DENG1", "ENN1"); ("DMA11", "MATH"); ("REGS", "DREST");
            ("DPED11", "PHED"); ("DCLI21", "COLI"); ("CHN1", "DCHIN1");
            ("DPHY11", "PHY1"); ("DVIA11", "VIAR"); ("DMUSI1", "MUSI");
            ("DGEO11", "GEOG") ].

Definition secondLevelSubCodeMapping : gmap string value :=
  literal [ ("DMA11", "DMATH1"); ("DPED11", "DPHEDS"); ("DPED3", "DPED31");
            ("DPED2", "DPED21"); ("DCHS3A", "DC3A1"); ("DCHS3B", "DC3B1");
            ("DCHIS2", "DCI21"); ("DCHIN", "DCHIN1"); ("DVIAR2", "DVIA21");
            ("DVIAR3", "DVIA31") ].

(** The digits at the start of the trimmed class cell, as a number;
    [None] is the source's [null]. *)
Definition extractClassNumber (classStr : value) : option Z :=
  let digits := leading_digits (trim (to_string classStr)) in
  if digits =? "" then None else parseInt digits.

(** The sub_code a verification reads from a row. *)
Definition read_sub_code (r : row) : string :=
  trim (to_string (or_else (row_get r "sub_code") (VStr ""))).

(** The override attempt shared by both invalid branches. *)
Definition first_level_override (r : row) (subCode : string) : row :=
  let replacement := obj_get firstLevelSubCodeMapping (toUpperCase subCode) in
  if truthy replacement then row_set r "sub_code" replacement else r.

(** Returns [isRowInvalid] and the row as the call leaves it. *)
Definition firstLevelVerification (r : row) : bool * row :=
  let classCellValue := row_get r "class" in
  let subCode := read_sub_code r in
  match extractClassNumber classCellValue with
  | None => (true, first_level_override r subCode)
  | Some classNumber =>
      let isValid :=
        if (classNumber <=? 3)%Z
        then negb (startsWith subCode "D" || startsWith subCode "d")
        else startsWith subCode "D" || startsWith subCode "d" in
      if negb isValid then (true, first_level_override r subCode)
      else (false, r)
  end.

Definition secondLevelVerification (r : row) : row :=
  let subCode := read_sub_code r in
  let replacement := obj_get secondLevelSubCodeMapping (toUpperCase subCode) in
  if truthy replacement then row_set r "sub_code" replacement else r.

(** The first [data.forEach]: the rows as left, and [firstLevelInvalidCount]. *)
Definition first_pass (data : list row) : list row * nat :=
  fold_left
    (fun (acc : list row * nat) r =>
       let '(rows, firstLevelInvalidCount) := acc in
       let '(invalid, r') := firstLevelVerification r in
       ((rows ++ [r'])%list,
        if invalid then S firstLevelInvalidCount else firstLevelInvalidCount))
    data ([], 0).

(** The second [data.forEach]. *)
Definition second_pass (data : list row) : list row :=
  fold_left (fun rows r => (rows ++ [secondLevelVerification r])%list) data [].

(** The script: the rows written and the count printed. *)
Definition script (data : list row) : list row * nat :=
  let '(data1, firstLevelInvalidCount) := first_pass data in
  (second_pass data1, firstLevelInvalidCount).

End VerifyUserProfiles.

(** ** verifyUserProfiles.js: Part 4 of the user-profile script *)
Module UserProfile.
Import JS.

(** The reference sheet read cell by cell: row 0 and the rows below it;
    [None] is a cell the sheet does not have. *)
Record sheet : Type := {
  header : list (option value);
  body : list (list (option value))
}.

(** [sheet[ref] ? sheet[ref].v : ''] *)
Definition cell_v (c : option value) : value :=
  match c with Some v => v | None => VStr "" end.

Definition cell_at (r : list (option value)) (c : nat) : value :=
  cell_v (nth c r None).

Definition is_sub_code_heading (val : value) : bool :=
  match val with
  | VStr s => toLowerCase (trim s) =? "sub_code"
  | _ => false
  end.

(** The first header column named sub_code; [None] is the source's -1. *)
Fixpoint find_heading (c : nat) (hs : list (option value)) : option nat :=
  match hs with
  | [] => None
  | h :: hs' => if is_sub_code_heading (cell_v h) then Some c else find_heading (S c) hs'
  end.

Definition subCodeColIndex (t : sheet) : option nat := find_heading 0 (header t).

Definition dseMapping : gmap string value :=
  literal [ ("DSE-PE1", "DPED1"); ("DSE-PE2", "DPED2"); ("DSE-PE3", "DPED3");
            ("DSE-VA1", "DVIAR1"); ("DSE-VA2", "DVIAR2"); ("DSE-VA3", "DVIAR3") ].

(** [groupingVal.split(' ').filter((p) => p.trim() !== '')] *)
Definition parts_of (groupingVal : string) : list string :=
  List.filter (fun p => negb (trim p =? "")) (split_char " " groupingVal).

(** The candidate before the renames. *)
Definition extracted (groupingVal : string) : string :=
  match parts_of groupingVal with
  | [_; p1; _] => p1
  | [p0; _] => trim (drop_leading_digits p0)
  | _ => ""
  end.

Definition rename (from to code : string) : string :=
  if code =? from then to else code.

(** [newSubjectCode] as the override chain sees it. *)
Definition newSubjectCode (groupingVal : string) : string :=
  let c := strip_parens (extracted groupingVal) in
  let c := rename "MATHS" "MATH" c in
  let c := rename "RSE" "REGS" c in
  let c := rename "L&S" "LISO" c in
  let c := rename "VA" "VIAR" c in
  rename "PTH" "PUTO" c.

(** The scan of column B; the answer is [(foundMatch, matchedSubCodeVal)]. *)
Fixpoint scan_table (col : option nat) (code : string) (rows : list (list (option value)))
  : bool * value :=
  match rows with
  | [] => (false, VStr "")
  | r :: rows' =>
      let bVal := cell_at r 1 in
      let taken := match col with
                   | Some c => cell_at r c
                   | None => VStr ""
                   end in
      if strict_eq bVal (VStr code) then (true, taken)
      else match bVal with
           | VStr b => if includes b code then (true, taken) else scan_table col code rows'
           | _ => scan_table col code rows'
           end
  end.

(** Step 4.2 for one grouping: [(foundMatch, matchedSubCodeVal)]. *)
Definition resolve (t : sheet) (groupingVal : string) : bool * value :=
  let code := newSubjectCode groupingVal in
  if includes (toUpperCase groupingVal) "DSE" && truthy (obj_get dseMapping code)
  then (true, obj_get dseMapping code)
  else if code =? "M2" then (true, VStr "DMA21")
  else if negb (code =? "") then
    if includes code "CHIST1" then (true, VStr "DCI11")
    else if includes code "CHIST2" then (true, VStr "DCI21")
    else if includes code "CHIST3A" then (true, VStr "DC3A1")
    else if includes code "CHIST3B" then (true, VStr "DC3B1")
    else if includes code "CHIST3" then (true, VStr "DCI31")
    else if code =? "CHI" then (true, VStr "CHN1")
    else if code =? "IS" then (true, VStr "INSC")
    else scan_table (subCodeColIndex t) code (body t)
  else (false, VStr "").

Definition matchedSubCodeVal (t : sheet) (groupingVal : string) : value :=
  snd (resolve t groupingVal).

(** The body of [userProfileData.forEach]; [None] when the grouping cell is
    a number, which has no [split]. *)
Definition resolve_row (t : sheet) (r : row) : option row :=
  match or_else (row_get r "grouping") (VStr "") with
  | VStr groupingVal => Some (row_set r "sub_code" (matchedSubCodeVal t groupingVal))
  | _ => None
  end.

Fixpoint resolve_rows (t : sheet) (userProfileData : list row) : option (list row) :=
  match userProfileData with
  | [] => Some []
  | r :: rest =>
      match resolve_row t r with
      | Some r' =>
          match resolve_rows t rest with
          | Some rest' => Some (r' :: rest')
          | None => None
          end
      | None => None
      end
  end.

(** Step 4.4; the collation of [localeCompare] belongs to the host. *)
Section Sorting.
Variable localeCompare : string -> string -> Z.

Definition user_key (r : row) : string := toUpperCase (to_string (row_get r "user")).

Definition user_le (a b : row) : bool :=
  (localeCompare (user_key a) (user_key b) <=? 0)%Z.

(** What Part 4 writes back to the user-profile sheet. *)
Definition part4 (t : sheet) (userProfileData : list row) : option (list row) :=
  match resolve_rows t userProfileData with
  | Some rows => Some (sort user_le rows)
  | None => None
  end.
End Sorting.

End UserProfile.

(** ** verifyUserProfiles.js: Part 1 of the user-profile script *)
Module Workload.
Import JS.

(** [/[A-Z]/.test(s)], [/\d/.test(s)]: some character of [s] satisfies [p]. *)
Fixpoint some_char (p : ascii -> bool) (s : string) : bool :=
  match s with
  | EmptyString => false
  | String c r => p c || some_char p r
  end.

Fixpoint every_char (p : ascii -> bool) (s : string) : bool :=
  match s with
  | EmptyString => true
  | String c r => p c && every_char p r
  end.

(** Uppercase letters only, at least one, and no underscore. *)
Definition isValidSheetName (sheetName : string) : bool :=
  if includes sheetName "_" then false
  else negb (sheetName =? "") && every_char is_upper sheetName.

Definition isValidConcatenation (str : string) : bool :=
  let trimmed := trim str in
  if trimmed =? "" then false
  else if negb (some_char is_upper trimmed) then false
  else if negb (some_char is_digit trimmed) then false
  else if includes trimmed "---" then false
  else if includes trimmed "ACE" then false
  else if includes trimmed "READING" then false
  else true.

(** [s.replace(/\s+/g, ' ')] *)
Fixpoint collapse_from (in_run : bool) (s : string) : string :=
  match s with
  | EmptyString => EmptyString
  | String c r =>
      if is_ws c then
        if in_run then collapse_from true r else String " " (collapse_from true r)
      else String c (collapse_from false r)
  end.

Definition collapse (s : string) : string := collapse_from false s.

(** [s.substring(s.indexOf(' ') + 1)]; [None] when [s] has no space. *)
Fixpoint after_first_space (s : string) : option string :=
  match s with
  | EmptyString => None
  | String c r => if Ascii.eqb c " " then Some r else after_first_space r
  end.

Definition staff_code_of (concatenated : string) : string :=
  let staff_code :=
    match after_first_space concatenated with
    | Some rest => trim rest
    | None => ""
    end in
  match after_first_space staff_code with
  | Some rest => trim rest
  | None => staff_code
  end.

(** A row of user_profile.xlsx. *)
Definition profile_row (staff_code concatenated : string) : row :=
  [ ("user", VStr staff_code); ("sub_code", VStr ""); ("class", VStr concatenated);
    ("grouping", VStr concatenated); ("grouping_real", VStr concatenated) ].

(** The leading number of the first token, or the token when it has none. *)
Definition firstNumber (p0 : string) : string :=
  if leading_digits p0 =? "" then p0 else leading_digits p0.

(** The extra row of the MATHS sheet; [None] is the TypeError of
    [parts[0].match] on an empty [parts]. *)
Definition extraConcatenated (parts : list string) : option string :=
  match parts with
  | [] => None
  | p0 :: _ => Some (firstNumber p0 ++ " (M2) " ++ String.concat " " (skipn 2 parts))
  end.

(** The rows one data row of the sheet [sheetName] gives, from its cells in
    columns 4, 5 and 7. *)
Definition rows_of (sheetName : string) (valCol4 valCol5 valCol7 : value)
  : option (list row) :=
  let cleanValCol4 := collapse (to_string valCol4) in
  let cleanValCol5 := collapse (to_string valCol5) in
  let concatenated := trim (cleanValCol4 ++ " " ++ cleanValCol5) in
  if isValidConcatenation concatenated then
    let staff_code := staff_code_of concatenated in
    let parts := UserProfile.parts_of concatenated in
    if (sheetName =? "MATHS") && includes (trim (to_string valCol7)) "C+M2" then
      match extraConcatenated parts with
      | Some extra =>
          Some [profile_row staff_code concatenated; profile_row staff_code extra]
      | None => None
      end
    else Some [profile_row staff_code concatenated]
  else Some [].

(** A loop whose body pushes rows or throws. *)
Fixpoint collect {A : Type} (body : A -> option (list row)) (l : list A)
  : option (list row) :=
  match l with
  | [] => Some []
  | a :: l' =>
      match body a with
      | None => None
      | Some rows =>
          match collect body l' with
          | None => None
          | Some rest => Some (rows ++ rest)%list
          end
      end
  end.

(** The range of a sheet, as [decode_range] reads it off ['!ref']: the
    first and the last row and column, counted from 0. *)
Record range : Type := { s_r : nat; s_c : nat; e_r : nat; e_c : nat }.

(** A sheet of the workload book: its name, its ['!ref'] when it has one
    (a sheet without cells has none), and its cells by row and column. *)
Record sheet : Type := {
  name : string;
  ref : option range;
  cells : list (list (option value))
}.

(** [sheet[cellRef] ? sheet[cellRef].v : ''] for the cell in row [r] and
    column [c]. *)
Definition cell_of (s : sheet) (r c : nat) : value :=
  UserProfile.cell_at (nth r (cells s) []) c.

(** The rows from [headerRowIndex + 1], which is 3, to [range.e.r]. *)
Definition data_rows (rg : range) : list nat := seq 3 (S (e_r rg) - 3).

(** The rows of one sheet; [None] is the TypeError of [decode_range] on a
    sheet without ['!ref'], or that of a row. *)
Definition sheet_rows (s : sheet) : option (list row) :=
  if isValidSheetName (name s) then
    match ref s with
    | None => None
    | Some rg =>
        collect
          (fun r => rows_of (name s) (cell_of s r 3) (cell_of s r 4) (cell_of s r 6))
          (data_rows rg)
    end
  else Some [].

(** [outputRows], written to user_profile.xlsx; [None] when a sheet throws,
    and then nothing is written. *)
Definition outputRows (book : list sheet) : option (list row) :=
  collect sheet_rows book.

End Workload.

(** ** verifyUserProfiles.js: the student-profile script *)
Module StudentProfile.
Import JS.

Definition isEligibleClass (classStr : value) : bool :=
  match classStr with
  | VStr text =>
      let words := split_ws (trim text) in
      if negb (length words =? 3)%nat then false
      else
        let firstComponent := hd "" words in
        let numericMatch := leading_digits firstComponent in
        if numericMatch =? "" then false
        else match parseInt numericMatch with
             | Some numericValue => (1 <=? numericValue)%Z && (numericValue <=? 6)%Z
             | None => false
             end
  | _ => false
  end.

(** [tokens[i] || ""] *)
Definition token (tokens : list string) (i : nat) : string := nth i tokens "".

Definition extractFormClass (classStr : value) : string :=
  match classStr with
  | VStr text => token (split_ws (trim text)) 0
  | _ => ""
  end.

(** An entry of the deferred store. *)
Record info : Type := {
  i_group : string;
  i_subject : string;
  i_teacher : string;
  i_sub_code : value
}.

(** [missingInfoMap]: the buckets in the order their keys were first set. *)
Definition store : Type := list (string * list info).

Fixpoint store_has (m : store) (group : string) : bool :=
  match m with
  | [] => false
  | (g, _) :: m' => (g =? group) || store_has m' group
  end.

(** [m.get(group).push(e)] *)
Fixpoint store_push (m : store) (group : string) (e : info) : store :=
  match m with
  | [] => []
  | (g, entries) :: m' =>
      if g =? group then (g, (entries ++ [e])%list) :: m'
      else (g, entries) :: store_push m' group e
  end.

Definition store_add (m : store) (group : string) (e : info) : store :=
  let m1 := if negb (store_has m group) then (m ++ [(group, [])])%list else m in
  store_push m1 group e.

Fixpoint search_entries (entries : list info) (subject : string) (teacher : value)
  : option info :=
  match entries with
  | [] => None
  | e :: entries' =>
      if (i_subject e =? subject) && strict_eq (VStr (i_teacher e)) teacher then Some e
      else search_entries entries' subject teacher
  end.

Fixpoint searchMissingInfo (missingInfoMap : store) (form cls : value)
    (subject : string) (teacher : value) : option info :=
  let formStr := to_string form in
  match missingInfoMap with
  | [] => None
  | (group, entries) :: rest =>
      if (charAt0 group =? formStr) && includes group (to_string cls) then
        match search_entries entries subject teacher with
        | Some e => Some e
        | None => searchMissingInfo rest form cls subject teacher
        end
      else searchMissingInfo rest form cls subject teacher
  end.

(** [subCodeMap], built from the reference table. *)
Definition subCodeMap (tableData : list row) : gmap string value :=
  fold_left
    (fun m r => obj_set m (to_string (row_get r "sub_code")) (row_get r "subject_code"))
    tableData ∅.

(** [hasOwnProperty.call(subCodeMap, k) ? subCodeMap[k] : null] *)
Definition subject_code_of (m : gmap string value) (k : value) : value :=
  if has_own m (to_string k) then obj_get m (to_string k) else VNull.

Record unprocessed : Type := { rowNumber : nat; reason : string }.

(** What [main] builds up. *)
Record state : Type := {
  outputRows : list OutputRecord;
  unprocessedRows : list unprocessed;
  missingInfoMap : store
}.

Definition push_output (st : state) (rs : list OutputRecord) : state :=
  {| outputRows := (outputRows st ++ rs)%list;
     unprocessedRows := unprocessedRows st;
     missingInfoMap := missingInfoMap st |}.

Definition push_unprocessed (st : state) (u : unprocessed) : state :=
  {| outputRows := outputRows st;
     unprocessedRows := (unprocessedRows st ++ [u])%list;
     missingInfoMap := missingInfoMap st |}.

Definition set_store (st : state) (m : store) : state :=
  {| outputRows := outputRows st;
     unprocessedRows := unprocessedRows st;
     missingInfoMap := m |}.

Definition record (tsssid sub subject : value) (g : string) : OutputRecord :=
  {| tsss_id := tsssid; a_year := "2025/2026"; terms := "Term 1";
     sub_code := sub; subject_code := subject;
     taking := "TRUE"; self_taking := "FALSE";
     grouping := g; grouping_real := g |}.

(** [parseInt(r["Class no"], 10) || 0] *)
Definition class_no (r : row) : Z :=
  match parseInt (to_string (row_get r "Class no")) with
  | Some n => n
  | None => 0%Z
  end.

(** The comparator [numA - numB] does not put [b] first. *)
Definition class_no_le (a b : row) : bool := (class_no a - class_no b <=? 0)%Z.

Definition matchingClassRows (classListData : list row) (formClassToken : string)
  : list row :=
  List.filter
    (fun item =>
       (trim (to_string (row_get item "Form")) ++ trim (to_string (row_get item "Class")))
       =? formClassToken)
    classListData.

(** The body of [userData.forEach] for the row at [index]. *)
Definition process_user_row (classListData : list row) (codes : gmap string value)
    (st : state) (index : nat) (r : row) : state :=
  let rowNumber := (index + 2)%nat in
  let class := row_get r "class" in
  if negb (isEligibleClass class) then
    push_unprocessed st
      {| rowNumber := rowNumber;
         reason := "Ineligible class format. Expected exactly 3 tokens with the first token's numeric part between 1 and 6. Value found: '"
                   ++ to_string class ++ "'" |}
  else
    let formClassToken := extractFormClass class in
    let matching := matchingClassRows classListData formClassToken in
    match matching with
    | [] =>
        let tokens := split_ws (trim (to_string class)) in
        let group := token tokens 0 in
        let subject := token tokens 1 in
        let teacher := token tokens 2 in
        let sub_code := row_get r "sub_code" in
        let st1 :=
          set_store st
            (store_add (missingInfoMap st) group
               {| i_group := group; i_subject := subject; i_teacher := teacher;
                  i_sub_code := sub_code |}) in
        push_unprocessed st1
          {| rowNumber := rowNumber;
             reason := "Eligible row but no matching class found in class list for token: '"
                       ++ formClassToken ++ "'. Subject: '" ++ subject
                       ++ "', Teacher: '" ++ teacher ++ "'" |}
    | _ :: _ =>
        let subject_code := subject_code_of codes (row_get r "sub_code") in
        let sorted := sort class_no_le matching in
        push_output st
          (map (fun matchRow =>
                  record (row_get matchRow "TSSSID") (row_get r "sub_code") subject_code
                         (to_string class))
               sorted)
    end.

Fixpoint process_user_rows (classListData : list row) (codes : gmap string value)
    (st : state) (index : nat) (userData : list row) : state :=
  match userData with
  | [] => st
  | r :: rest =>
      process_user_rows classListData codes
        (process_user_row classListData codes st index r) (S index) rest
  end.

(** The body of a recovery pass for [subject], whose teacher is read from
    the class-list column of the same name. *)
Definition recover_row (subject : string) (codes : gmap string value)
    (st : state) (r : row) : state :=
  match searchMissingInfo (missingInfoMap st) (row_get r "Form") (row_get r "Class")
          subject (row_get r subject) with
  | Some missingEntry =>
      let combinedGrouping :=
        i_group missingEntry ++ " " ++ i_subject missingEntry ++ " " ++ i_teacher missingEntry in
      let subject_code := subject_code_of codes (i_sub_code missingEntry) in
      push_output st
        [record (row_get r "TSSSID") (i_sub_code missingEntry) subject_code combinedGrouping]
  | None => st
  end.

Definition recovery_pass (subject : string) (codes : gmap string value)
    (st : state) (classListData : list row) : state :=
  fold_left (recover_row subject codes) classListData st.

(** New Section 1: the stored entries with one digit in the group and
    subject "(M2)". *)
Definition missingSpecific (m : store) : list info :=
  flat_map
    (fun bucket =>
       List.filter
         (fun e => (count_digits (i_group e) =? 1)%nat && (i_subject e =? "(M2)"))
         (snd bucket))
    m.

(** [Number(v)] for a cell. *)
Definition to_number (v : value) : number :=
  match v with
  | VNum n => NumInt n
  | VNull => NumInt 0
  | VStr s => string_to_number s
  | VUndefined | VInherited _ => NumNaN
  end.

(** New Section 2, for one class-list row. *)
Definition m2_row (specific : list info) (st : state) (r : row) : state :=
  let formNumber := to_number (row_get r "Form") in
  if number_gtb formNumber 3 && truthy (row_get r "M1&2")
     && includes (to_string (row_get r "M1&2")) "M2" then
    match List.find (fun e => startsWith (i_group e) (number_to_string formNumber))
            specific with
    | Some found =>
        push_output st
          [record (row_get r "TSSSID") (VStr "DMA21") (VStr "DMATH2")
                  (number_to_string formNumber ++ " (M2) " ++ i_teacher found)]
    | None => st
    end
  else st.

Definition initial : state :=
  {| outputRows := []; unprocessedRows := []; missingInfoMap := [] |}.

(** [main]: the records written, in the order written, and the log of
    unprocessed rows. *)
Definition main (userData tableData classListData : list row)
  : list OutputRecord * list unprocessed :=
  let codes := subCodeMap tableData in
  let st := process_user_rows classListData codes initial 0 userData in
  let st := recovery_pass "CHI" codes st classListData in
  let st := recovery_pass "MATHS" codes st classListData in
  let st := recovery_pass "RSE" codes st classListData in
  let st := recovery_pass "ENG" codes st classListData in
  let specific := missingSpecific (missingInfoMap st) in
  let st := fold_left (m2_row specific) classListData st in
  (outputRows st, unprocessedRows st).

End StudentProfile.

(** * Vocabulary of the statements *)
Module Spec.
Import JS.

(** The keys of the index that contain [q], in scan order. *)
Definition hits (fm : UpdateStudentProfiles.frequencyMap) (q : string)
  : list (string * UpdateStudentProfiles.entry) :=
  List.filter (fun kv => includes (fst kv) q) (UpdateStudentProfiles.for_in fm).

Definition total_count (l : list (string * UpdateStudentProfiles.entry)) : N :=
  fold_right (fun kv n => (UpdateStudentProfiles.count (snd kv) + n)%N) 0%N l.

(** The normalization as the specification words it: trim, one space for
    each run of white space, then no hyphens. *)
Fixpoint collapse_from (in_run : bool) (s : string) : string :=
  match s with
  | EmptyString => EmptyString
  | String c r =>
      if is_ws c then
        if in_run then collapse_from true r else String " " (collapse_from true r)
      else String c (collapse_from false r)
  end.

Definition normalize (raw : string) : string :=
  let t := collapse_from false (trim raw) in
  if includes t "-" then delete_chars is_hyphen t else t.

(** The count an index holds for a key, 0 when it has none. *)
Definition count_of (fm : UpdateStudentProfiles.frequencyMap) (k : string) : N :=
  match UpdateStudentProfiles.fm_get fm k with
  | Some e => UpdateStudentProfiles.count e
  | None => 0%N
  end.

(** The records an eligible user row gives rise to, one for each of the
    class-list rows [sorted]. *)
Definition emitted_for (codes : gmap string value) (r : row) (sorted : list row)
  : list OutputRecord :=
  map (fun matchRow =>
         {| tsss_id := row_get matchRow "TSSSID";
            a_year := "2025/2026"; terms := "Term 1";
            sub_code := row_get r "sub_code";
            subject_code := StudentProfile.subject_code_of codes (row_get r "sub_code");
            taking := "TRUE"; self_taking := "FALSE";
            grouping := to_string (row_get r "class");
            grouping_real := to_string (row_get r "class") |})
      sorted.

(** What a recovery pass for [subject] adds for the class-list row [r], the
    store being [m]. *)
Definition recovered (subject : string) (codes : gmap string value)
    (m : StudentProfile.store) (r : row) : list OutputRecord :=
  match StudentProfile.searchMissingInfo m (row_get r "Form") (row_get r "Class")
          subject (row_get r subject) with
  | Some e =>
      [ {| tsss_id := row_get r "TSSSID";
           a_year := "2025/2026"; terms := "Term 1";
           sub_code := StudentProfile.i_sub_code e;
           subject_code := StudentProfile.subject_code_of codes (StudentProfile.i_sub_code e);
           taking := "TRUE"; self_taking := "FALSE";
           grouping := StudentProfile.i_group e ++ " " ++ StudentProfile.i_subject e
                       ++ " " ++ StudentProfile.i_teacher e;
           grouping_real := StudentProfile.i_group e ++ " " ++ StudentProfile.i_subject e
                            ++ " " ++ StudentProfile.i_teacher e |} ]
  | None => []
  end.

(** The records [main] emits for one user row. *)
Definition user_row_records (classListData : list row) (codes : gmap string value)
    (r : row) : list OutputRecord :=
  if StudentProfile.isEligibleClass (row_get r "class") then
    emitted_for codes r
      (sort StudentProfile.class_no_le
         (StudentProfile.matchingClassRows classListData
            (StudentProfile.extractFormClass (row_get r "class"))))
  else [].

(** [l] is in ascending order of the text [key] gives, compared without
    regard to case: no element comes after one with a greater key. *)
Definition ascending_on {A : Type} (key : A -> string) (l : list A) : Prop :=
  StronglySorted
    (fun a b => string_ltb (toLowerCase (key b)) (toLowerCase (key a)) = false) l.

(** The grouping text of a row of the student profile, empty when the cell
    is. *)
Definition grouping_text (r : row) : string :=
  if truthy (row_get r "grouping") then to_string (row_get r "grouping") else "".

(** The grouping cell is text, or empty. *)
Definition grouping_is_text (r : row) : Prop :=
  UpdateStudentProfiles.grouping_key r <> None.

(** The comparator [le], which may throw, answers that [b] need not come
    before [a]. *)
Definition not_after {A : Type} (le : A -> A -> option bool) (a b : A) : Prop :=
  le a b = Some true.

(** The text has a lowercase letter. *)
Fixpoint has_lower (s : string) : bool :=
  match s with
  | EmptyString => false
  | String c r => is_lower c || has_lower r
  end.

(** [m.get(group)], empty when the store has no such bucket. *)
Fixpoint store_get (m : StudentProfile.store) (group : string) : list StudentProfile.info :=
  match m with
  | [] => []
  | (g, entries) :: m' => if g =? group then entries else store_get m' group
  end.

(** The fields every output record has in common. *)
Definition fixed_fields (rec : OutputRecord) : Prop :=
  a_year rec = "2025/2026" /\ terms rec = "Term 1"
  /\ taking rec = "TRUE" /\ self_taking rec = "FALSE"
  /\ grouping_real rec = grouping rec.

(** The user row finds its class: [main] emits records for it. *)
Definition finds_class (classListData : list row) (r : row) : bool :=
  StudentProfile.isEligibleClass (row_get r "class")
  && match StudentProfile.matchingClassRows classListData
             (StudentProfile.extractFormClass (row_get r "class")) with
     | [] => false
     | _ :: _ => true
     end.

(** The sheet row numbers of the user rows, counted from [index], that do
    not find their class. *)
Fixpoint rows_left_out (classListData : list row) (index : nat) (userData : list row)
  : list nat :=
  match userData with
  | [] => []
  | r :: rest =>
      (if finds_class classListData r then [] else [index + 2])
      ++ rows_left_out classListData (S index) rest
  end.

(** Column B of a reference row is text that contains [code]. *)
Definition names_code (code : string) (r : list (option value)) : bool :=
  match UserProfile.cell_at r 1 with
  | VStr b => includes b code
  | _ => false
  end.

(** What the frequency index keeps true of every entry: it was counted at
    least once, holds no more sub-codes than its count, and its key has no
    hyphen and names no member of [Object.prototype]. *)
Definition entry_ok (kv : string * UpdateStudentProfiles.entry) : Prop :=
  (1 <= UpdateStudentProfiles.count (snd kv))%N
  /\ (N.of_nat (length (UpdateStudentProfiles.subCodes (snd kv)))
      <= UpdateStudentProfiles.count (snd kv))%N
  /\ includes (fst kv) "-" = false
  /\ inherited_name (fst kv) = false.

Definition index_ok (fm : UpdateStudentProfiles.frequencyMap) : Prop :=
  List.NoDup (map fst fm) /\ Forall entry_ok fm.

(** The text before the first [c] of [s], all of [s] when it has none. *)
Definition before (c : ascii) (s : string) : string := hd "" (split_char c s).

(** A row read from a sheet: every cell is text or a number. *)
Definition is_cell (v : value) : bool :=
  match v with VStr _ | VNum _ => true | _ => false end.

Definition sheet_row (r : row) : Prop := Forall (fun kv => is_cell (snd kv) = true) r.

(** The entry [main] stores for a user row it defers: the first three
    tokens of the class and the sub_code of the row. *)
Definition deferred_entry (r : row) : StudentProfile.info :=
  let tokens := split_ws (trim (to_string (row_get r "class"))) in
  {| StudentProfile.i_group := StudentProfile.token tokens 0;
     StudentProfile.i_subject := StudentProfile.token tokens 1;
     StudentProfile.i_teacher := StudentProfile.token tokens 2;
     StudentProfile.i_sub_code := row_get r "sub_code" |}.

(** The user row is deferred: its class is eligible and no class-list row
    matches it. *)
Definition is_deferred (classListData : list row) (r : row) : bool :=
  StudentProfile.isEligibleClass (row_get r "class") && negb (finds_class classListData r).

(** The store once the user rows are read: the entries of the deferred
    rows, added in the order of the rows. *)
Definition deferred_store (classListData userData : list row) : StudentProfile.store :=
  fold_left
    (fun m r =>
       if is_deferred classListData r
       then StudentProfile.store_add m (StudentProfile.i_group (deferred_entry r))
              (deferred_entry r)
       else m)
    userData [].

(** What the M2 pass adds for the class-list row [r], [specific] being the
    stored entries it searches. *)
Definition m2_records (specific : list StudentProfile.info) (r : row) : list OutputRecord :=
  let formNumber := StudentProfile.to_number (row_get r "Form") in
  if number_gtb formNumber 3 && truthy (row_get r "M1&2")
     && includes (to_string (row_get r "M1&2")) "M2" then
    match List.find
            (fun e => startsWith (StudentProfile.i_group e) (number_to_string formNumber))
            specific with
    | Some found =>
        [ {| tsss_id := row_get r "TSSSID";
             a_year := "2025/2026"; terms := "Term 1";
             sub_code := VStr "DMA21"; subject_code := VStr "DMATH2";
             taking := "TRUE"; self_taking := "FALSE";
             grouping := number_to_string formNumber ++ " (M2) "
                         ++ StudentProfile.i_teacher found;
             grouping_real := number_to_string formNumber ++ " (M2) "
                              ++ StudentProfile.i_teacher found |} ]
    | None => []
    end
  else [].

(** The records of [main], in the order written: those of the user rows,
    then those of the recovery passes for CHI, MATHS, RSE and ENG, each in
    the order of the class list, then those of the M2 pass. *)
Definition main_records (userData tableData classListData : list row) : list OutputRecord :=
  let codes := StudentProfile.subCodeMap tableData in
  let m := deferred_store classListData userData in
  (flat_map (user_row_records classListData codes) userData
   ++ flat_map (recovered "CHI" codes m) classListData
   ++ flat_map (recovered "MATHS" codes m) classListData
   ++ flat_map (recovered "RSE" codes m) classListData
   ++ flat_map (recovered "ENG" codes m) classListData
   ++ flat_map (m2_records (StudentProfile.missingSpecific m)) classListData)%list.

(** [n] spaces. *)
Fixpoint spaces (n : nat) : string :=
  match n with
  | O => ""
  | S n' => String " " (spaces n')
  end.

(** A token: it is not empty and holds no white space. *)
Definition is_token (p : string) : bool :=
  negb (p =? "") && negb (Workload.some_char is_ws p).

End Spec.

(** * Sample sheets *)
Module Samples.
Import JS.

Definition class_list_1A : list row :=
  [ [("Form", VNum 1); ("Class", VStr "A"); ("TSSSID", VStr "S3"); ("Class no", VNum 3)];
    [("Form", VNum 1); ("Class", VStr "B"); ("TSSSID", VStr "S9"); ("Class no", VNum 1)];
    [("Form", VStr "1"); ("Class", VStr "A "); ("TSSSID", VStr "S2"); ("Class no", VStr "n/a")];
    [("Form", VNum 1); ("Class", VStr "A"); ("TSSSID", VStr "S1"); ("Class no", VStr "2")] ].

Definition user_row_1A : row := [("sub_code", VStr "CHN1"); ("class", VStr "1A CHI NEW")].

(** A deferred store with one entry, and a class list that asks for it
    twice. *)
Definition store_3MJPW4 : StudentProfile.store :=
  [ ("3MJPW4",
     [ {| StudentProfile.i_group := "3MJPW4"; StudentProfile.i_subject := "CHI";
          StudentProfile.i_teacher := "NEW"; StudentProfile.i_sub_code := VStr "CHN1" |} ]) ].

Definition class_list_3J : list row :=
  [ [("Form", VNum 3); ("Class", VStr "J"); ("TSSSID", VStr "S1"); ("CHI", VStr "NEW")];
    [("Form", VNum 3); ("Class", VStr "K"); ("TSSSID", VStr "S5"); ("CHI", VStr "NEW")];
    [("Form", VStr "3"); ("Class", VStr "J"); ("TSSSID", VStr "S2"); ("CHI", VStr "NEW")] ].

(** Two user rows that find no class in [class_list_3J]; both are
    deferred, the first before the second. *)
Definition user_rows_two_deferred : list row :=
  [ [("sub_code", VStr "CHN1"); ("class", VStr "3MJPW4 CHI NEW")];
    [("sub_code", VStr "ENN1"); ("class", VStr "3MJPW4 ENG ZED")] ].

(** A store that also holds the row Part 1 adds for an M2 group. *)
Definition store_with_M2 : StudentProfile.store :=
  (store_3MJPW4
   ++ [ ("4",
        [ {| StudentProfile.i_group := "4"; StudentProfile.i_subject := "(M2)";
             StudentProfile.i_teacher := "SUW"; StudentProfile.i_sub_code := VStr "DMA21" |} ]) ])%list.

(** A collation for [localeCompare]: the order of the code units. *)
Definition code_unit_compare (a b : string) : Z :=
  if string_ltb a b then (-1)%Z else if string_ltb b a then 1%Z else 0%Z.

(** Two user rows that both find their class, given in descending order. *)
Definition user_rows_2A_1A : list row :=
  [ [("user", VStr "ZED"); ("sub_code", VStr "ENN1"); ("class", VStr "2A ENG ZED")];
    [("user", VStr "ABE"); ("sub_code", VStr "CHN1"); ("class", VStr "1A CHI ABE")] ].

Definition class_list_2A_1A : list row :=
  [ [("Form", VNum 2); ("Class", VStr "A"); ("TSSSID", VStr "T2"); ("Class no", VNum 1)];
    [("Form", VNum 1); ("Class", VStr "A"); ("TSSSID", VStr "T1"); ("Class no", VNum 1)] ].

Definition table_ENN1_CHN1 : list row :=
  [ [("sub_code", VStr "ENN1"); ("subject_code", VStr "ENG")];
    [("sub_code", VStr "CHN1"); ("subject_code", VStr "CHI")] ].

(** A reference sheet whose column B names DSE-PE1 itself. *)
Definition sheet_with_DSE_row : UserProfile.sheet :=
  {| UserProfile.header := [Some (VStr "sub_code"); Some (VStr "subject_code")];
     UserProfile.body :=
       [ [Some (VStr "ENN1"); Some (VStr "ENG")];
         [Some (VStr "PHED"); Some (VStr "DSE-PE1")] ] |}.

(** A workload book: a MATHS sheet with a C+M2 row and a row that is no
    class, and a sheet whose name is not taken. *)
Definition workload_book : list Workload.sheet :=
  [ {| Workload.name := "MATHS";
       Workload.ref :=
         Some {| Workload.s_r := 2; Workload.s_c := 3; Workload.e_r := 4; Workload.e_c := 6 |};
       Workload.cells :=
         [ []; [];
           [None; None; None; Some (VStr "Class"); Some (VStr "Teacher"); None;
            Some (VStr "Remark")];
           [None; None; None; Some (VStr "4MJPWT5  MATHS"); Some (VStr "SUW"); None;
            Some (VStr "C+M2")];
           [None; None; None; Some (VStr "Total"); Some (VNum 12)] ] |};
    {| Workload.name := "Sheet_1";
       Workload.ref :=
         Some {| Workload.s_r := 3; Workload.s_c := 3; Workload.e_r := 3; Workload.e_c := 4 |};
       Workload.cells :=
         [ []; []; []; [None; None; None; Some (VStr "1A CHI"); Some (VStr "ABE")] ] |} ].

(** The same book with one more sheet, whose name is taken and which has
    no cell. *)
Definition workload_book_with_empty_sheet : list Workload.sheet :=
  workload_book
  ++ [ {| Workload.name := "EMPTY"; Workload.ref := None; Workload.cells := [] |} ].

End Samples.

(** * Properties *)
Local Open Scope list_scope.

(** ** Strings *)
Import JS.

Lemma is_hyphen_eq (c : ascii) : is_hyphen c = true <-> c = "-"%char.
Proof.
  unfold is_hyphen. rewrite N.eqb_eq. split.
  - intros H. rewrite <- (ascii_N_embedding c), H. reflexivity.
  - intros ->. reflexivity.
Qed.

Lemma includes_hyphen_false (s : string) :
  includes s "-" = false -> delete_chars is_hyphen s = s.
Proof.
  induction s as [|c r IH]; [reflexivity|].
  cbn [includes is_prefix delete_chars]. rewrite andb_true_r.
  destruct (Ascii.eqb_spec "-" c) as [<-|Hne]; [discriminate|].
  cbn [orb]. intros H. destruct (is_hyphen c) eqn:Hc.
  - apply is_hyphen_eq in Hc. congruence.
  - f_equal. apply IH, H.
Qed.

(** The query of [findMatches] is its argument without hyphens. *)
Lemma query_key_strips (s : string) :
  UpdateStudentProfiles.query_key s = delete_chars is_hyphen s.
Proof.
  unfold UpdateStudentProfiles.query_key.
  destruct (includes s "-") eqn:H; [reflexivity|].
  symmetry. now apply includes_hyphen_false.
Qed.

(** ** Array.prototype.sort *)
Section SortFacts.
Context {A : Type} (le : A -> A -> bool).

Lemma insert_sorted_perm (x : A) (l : list A) :
  Permutation (insert_sorted le x l) (x :: l).
Proof.
  induction l as [|y l IH]; cbn [insert_sorted]; [reflexivity|].
  destruct (le x y); [reflexivity|].
  rewrite IH. apply perm_swap.
Qed.

Lemma sort_perm (l : list A) : Permutation (sort le l) l.
Proof.
  induction l as [|x l IH]; cbn [sort fold_right]; [reflexivity|].
  fold (sort le l). rewrite insert_sorted_perm. now constructor.
Qed.

Hypothesis le_total : forall a b, le a b = true \/ le b a = true.
Hypothesis le_trans : forall a b c, le a b = true -> le b c = true -> le a c = true.

Lemma insert_sorted_sorted (x : A) (l : list A) :
  StronglySorted (fun a b => le a b = true) l ->
  StronglySorted (fun a b => le a b = true) (insert_sorted le x l).
Proof.
  induction 1 as [|y l Hs IH Hy]; cbn [insert_sorted].
  - repeat constructor.
  - destruct (le x y) eqn:Hxy.
    + constructor; [now constructor|].
      constructor; [assumption|].
      eapply List.Forall_impl; [|exact Hy]. intros z Hz. eapply le_trans; eassumption.
    + constructor; [assumption|].
      eapply Permutation_Forall; [symmetry; apply insert_sorted_perm|].
      constructor; [|assumption].
      destruct (le_total x y); congruence.
Qed.

Lemma sort_sorted (l : list A) : StronglySorted (fun a b => le a b = true) (sort le l).
Proof.
  induction l as [|x l IH]; cbn [sort fold_right]; [constructor|].
  now apply insert_sorted_sorted.
Qed.
End SortFacts.

(** ** The order of text *)
Lemma string_ltb_asym (a b : string) : string_ltb a b = true -> string_ltb b a = false.
Proof.
  revert b. induction a as [|x a IH]; intros [|y b]; cbn [string_ltb]; try easy.
  destruct (N.ltb_spec (N_of_ascii x) (N_of_ascii y)), (N.ltb_spec (N_of_ascii y) (N_of_ascii x)),
    (N.eqb_spec (N_of_ascii x) (N_of_ascii y)), (N.eqb_spec (N_of_ascii y) (N_of_ascii x));
    cbn [orb andb]; try lia; try easy.
  apply IH.
Qed.

Lemma string_nlt_trans (a b c : string) :
  string_ltb b a = false -> string_ltb c b = false -> string_ltb c a = false.
Proof.
  revert b c. induction a as [|x a IH]; intros [|y b] [|z c]; cbn [string_ltb]; try easy.
  destruct (N.ltb_spec (N_of_ascii y) (N_of_ascii x)), (N.eqb_spec (N_of_ascii y) (N_of_ascii x)),
    (N.ltb_spec (N_of_ascii z) (N_of_ascii y)), (N.eqb_spec (N_of_ascii z) (N_of_ascii y)),
    (N.ltb_spec (N_of_ascii z) (N_of_ascii x)), (N.eqb_spec (N_of_ascii z) (N_of_ascii x));
    cbn [orb andb]; try lia; try easy.
  apply IH.
Qed.

(** ** Sorting with a comparator that may throw *)
Section SortThrowingFacts.
Import Spec.
Context {A : Type} (le : A -> A -> option bool).

Lemma insert_sorted_m_perm (x : A) (l r : list A) :
  insert_sorted_m le x l = Some r -> Permutation r (x :: l).
Proof.
  revert r. induction l as [|y l IH]; intros r; cbn [insert_sorted_m].
  - intros [= <-]. reflexivity.
  - destruct (le x y) as [[|]|]; [intros [= <-]; reflexivity | | discriminate].
    destruct (insert_sorted_m le x l) as [r'|]; [|discriminate].
    intros [= <-]. rewrite (IH r' eq_refl). apply perm_swap.
Qed.

Lemma sort_m_perm (l r : list A) : sort_m le l = Some r -> Permutation r l.
Proof.
  revert r. induction l as [|x l IH]; intros r; cbn [sort_m].
  - intros [= <-]. reflexivity.
  - destruct (sort_m le l) as [r'|]; [|discriminate].
    intros H. rewrite (insert_sorted_m_perm _ _ _ H). constructor. now apply IH.
Qed.

Hypothesis le_total : forall a b, le a b = Some false -> le b a = Some true.
Hypothesis le_trans : forall a b c, not_after le a b -> not_after le b c -> not_after le a c.

Lemma insert_sorted_m_sorted (x : A) (l r : list A) :
  StronglySorted (not_after le) l -> insert_sorted_m le x l = Some r -> StronglySorted (not_after le) r.
Proof.
  intros Hs. revert r. induction Hs as [|y l Hs IH Hy]; intros r; cbn [insert_sorted_m].
  - intros [= <-]. repeat constructor.
  - destruct (le x y) as [[|]|] eqn:Hxy; [| |discriminate].
    + intros [= <-]. constructor; [now constructor|].
      constructor; [assumption|].
      eapply List.Forall_impl; [|exact Hy]. intros z Hz. eapply le_trans; eassumption.
    + destruct (insert_sorted_m le x l) as [r'|] eqn:Hins; [|discriminate].
      intros [= <-]. constructor; [now apply IH|].
      eapply Permutation_Forall; [symmetry; eapply insert_sorted_m_perm; eassumption|].
      constructor; [|assumption]. now apply le_total.
Qed.

Lemma sort_m_sorted (l r : list A) : sort_m le l = Some r -> StronglySorted (not_after le) r.
Proof.
  revert r. induction l as [|x l IH]; intros r; cbn [sort_m].
  - intros [= <-]. constructor.
  - destruct (sort_m le l) as [r'|]; [|discriminate].
    apply insert_sorted_m_sorted. now apply IH.
Qed.

(** With a comparator that answers on [l], the sort returns. *)
Lemma insert_sorted_m_returns (x : A) (l : list A) :
  Forall (fun y => le x y <> None) l -> exists r, insert_sorted_m le x l = Some r.
Proof.
  induction 1 as [|y l Hy _ IH]; cbn [insert_sorted_m]; [eauto|].
  destruct (le x y) as [[|]|]; [eauto | | congruence].
  destruct IH as [r ->]. eauto.
Qed.

Lemma sort_m_returns (l : list A) :
  (forall a b, In a l -> In b l -> le a b <> None) -> exists r, sort_m le l = Some r.
Proof.
  induction l as [|x l IH]; intros Hok; cbn [sort_m]; [eauto|].
  destruct IH as [r Hr]; [intros a b Ha Hb; apply Hok; now right|].
  rewrite Hr. apply insert_sorted_m_returns.
  apply List.Forall_forall. intros y Hy. apply Hok; [now left|].
  right. eapply Permutation_in; [apply sort_m_perm; eassumption | assumption].
Qed.
End SortThrowingFacts.

(** ** The substring matcher *)
Section FindMatches.
Import UpdateStudentProfiles Spec.

Lemma scan_fold (q : string) (l : list (string * entry)) :
  forall cnt matches set,
    fold_left (scan_step q) l (cnt, matches, set) =
    let h := List.filter (fun kv => includes (fst kv) q) l in
    ((cnt + total_count h)%N,
     (matches ++ map (fun kv => match_line (fst kv) (snd kv)) h)%list,
     fold_left set_add (flat_map (fun kv => subCodes (snd kv)) h) set).
Proof.
  induction l as [|[key e] l IH]; intros cnt matches set; simpl.
  - now rewrite N.add_0_r, app_nil_r.
  - destruct (includes key q); simpl.
    + rewrite IH. simpl. rewrite <- app_assoc. simpl.
      rewrite fold_left_app. f_equal. f_equal. lia.
    + apply IH.
Qed.

Lemma findMatches_unfold (fm : frequencyMap) (s : string) :
  findMatches fm s =
  let h := hits fm (delete_chars is_hyphen s) in
  {| m_count := total_count h;
     m_matches := map (fun kv => match_line (fst kv) (snd kv)) h;
     m_subCodes := fold_left set_add (flat_map (fun kv => subCodes (snd kv)) h) [] |}.
Proof.
  unfold findMatches. rewrite query_key_strips, scan_fold. reflexivity.
Qed.

Lemma set_add_In (x y : string) (s : list string) :
  In y (set_add s x) <-> In y s \/ y = x.
Proof.
  unfold set_add. destruct (existsb (String.eqb x) s) eqn:E.
  - apply existsb_exists in E as (z & Hz & Hxz). apply String.eqb_eq in Hxz. subst z.
    split; [tauto|]. intros [H| ->]; assumption.
  - rewrite in_app_iff. simpl. intuition congruence.
Qed.

Lemma set_add_NoDup (x : string) (s : list string) :
  List.NoDup s -> List.NoDup (set_add s x).
Proof.
  intros H. unfold set_add. destruct (existsb (String.eqb x) s) eqn:E; [assumption|].
  apply List.NoDup_app; [assumption | repeat constructor; simpl; tauto |].
  intros z Hz [Hx|[]]. subst z.
  assert (existsb (String.eqb x) s = true); [|congruence].
  apply existsb_exists. exists x. split; [assumption | apply String.eqb_refl].
Qed.

Lemma collected_In (l s : list string) (y : string) :
  In y (fold_left set_add l s) <-> In y s \/ In y l.
Proof.
  revert s. induction l as [|x l IH]; intros s; simpl; [tauto|].
  rewrite IH, set_add_In. intuition congruence.
Qed.

Lemma collected_NoDup (l s : list string) :
  List.NoDup s -> List.NoDup (fold_left set_add l s).
Proof.
  revert s. induction l as [|x l IH]; intros s H; simpl; [assumption|].
  apply IH. now apply set_add_NoDup.
Qed.

(** C3: [findMatches s] returns as count the sum of the counts of the index
    keys that contain the query without its hyphens, as matches one
    "key (count)" line per such key in scan order, and as subCodes the
    union of those keys' subCodes without duplicates; when no key matches,
    as on the empty index, it returns count 0 and two empty lists. *)
Theorem C3_findMatches_aggregates (fm : frequencyMap) (s : string) :
  let h := hits fm (delete_chars is_hyphen s) in
  let r := findMatches fm s in
  m_count r = total_count h
  /\ m_matches r
     = map (fun kv => (fst kv ++ " (" ++ string_of_N (count (snd kv)) ++ ")")%string) h
  /\ List.NoDup (m_subCodes r)
  /\ (forall sc, In sc (m_subCodes r) <-> exists kv, In kv h /\ In sc (subCodes (snd kv)))
  /\ (h = [] -> r = {| m_count := 0; m_matches := []; m_subCodes := [] |})
  /\ findMatches [] s = {| m_count := 0; m_matches := []; m_subCodes := [] |}.
Proof.
  intros h r. subst r. rewrite findMatches_unfold. fold h. cbn zeta.
  cbn [m_count m_matches m_subCodes].
  split; [reflexivity|]. split; [reflexivity|].
  split; [apply collected_NoDup; constructor|].
  split.
  - intros sc. rewrite collected_In, in_flat_map. simpl. tauto.
  - split; [|reflexivity]. intros ->. reflexivity.
Qed.

(** An index with an array-index key, a hyphenated query and a shared sub-code. *)
Lemma C3_findMatches_witness :
  findMatches [("6CHIST2 BYC", {| count := 3; subCodes := ["DCHIS2"; "DCHIS2"] |});
               ("6", {| count := 2; subCodes := ["DCHIS2"; "X"] |});
               ("5A", {| count := 1; subCodes := [] |})] "6-"
  = {| m_count := 5; m_matches := ["6 (2)"; "6CHIST2 BYC (3)"];
       m_subCodes := ["DCHIS2"; "X"] |}
  /\ findMatches [("5A", {| count := 1; subCodes := ["Y"] |})] "6"
     = {| m_count := 0; m_matches := []; m_subCodes := [] |}.
Proof.
  split; [reflexivity|].
  destruct (C3_findMatches_aggregates [("5A", {| count := 1; subCodes := ["Y"] |})] "6")
    as (_ & _ & _ & _ & none & _).
  apply none. reflexivity.
Defined.
End FindMatches.

(** ** The frequency index *)
Section FrequencyIndex.
Import UpdateStudentProfiles Spec.

Lemma fm_get_alter (f : entry -> entry) (k k' : string) (fm : frequencyMap) :
  fm_get (fm_alter f k fm) k' =
  if k =? k' then option_map f (fm_get fm k) else fm_get fm k'.
Proof.
  induction fm as [|[k0 e] fm IH]; cbn [fm_alter fm_get].
  - now destruct (k =? k').
  - destruct (String.eqb_spec k0 k) as [->|Hne]; cbn [fm_get].
    + destruct (String.eqb_spec k k') as [->|Hne']; [reflexivity|].
      reflexivity.
    + destruct (String.eqb_spec k0 k') as [->|Hne0].
      * destruct (String.eqb_spec k k') as [->|_]; [congruence|reflexivity].
      * apply IH.
Qed.

Lemma fm_get_snoc (fm : frequencyMap) (k k' : string) (e : entry) :
  fm_get (fm ++ [(k, e)]) k' =
  match fm_get fm k' with
  | Some x => Some x
  | None => if k =? k' then Some e else None
  end.
Proof.
  induction fm as [|[k0 e0] fm IH]; cbn [app fm_get]; [reflexivity|].
  destruct (k0 =? k'); [reflexivity | apply IH].
Qed.

Lemma cell_key_eq (text : string) :
  cell_key text =
  if trim text =? "" then None else Some (delete_chars is_hyphen (trim text)).
Proof.
  unfold cell_key. destruct (trim text =? ""); [reflexivity|].
  destruct (includes (trim text) "-") eqn:H; [reflexivity|].
  now rewrite includes_hyphen_false.
Qed.

Lemma sheet_row_get (r : row) (col : string) :
  sheet_row r -> row_has r col = true -> is_cell (row_get r col) = true.
Proof.
  induction 1 as [|[k v] r Hv _ IH]; cbn [row_has existsb row_get fst]; [discriminate|].
  destruct (k =? col); [intros _; exact Hv | exact IH].
Qed.

Lemma cell_toString (v : value) : is_cell v = true -> toString_method v = Some (to_string v).
Proof. destruct v; simpl; intros; congruence. Qed.
(** C7, as the code has it: a cell is entered in the index under its text
    trimmed and then without hyphens, white space inside the text being
    kept; a cell whose trimmed text is empty is not entered; the query of
    [findMatches] only loses its hyphens.  (The key is taken not to name a
    member of [Object.prototype].) *)
Theorem C7_cells_are_trimmed_and_stripped (r : row) (fm : frequencyMap) (col : string) :
  sheet_row r -> row_has r col = true ->
  let text := to_string (row_get r col) in
  let key := delete_chars is_hyphen (trim text) in
  (trim text = "" -> add_cell r fm col = Done fm)
  /\ (trim text <> "" -> inherited_name key = false ->
      exists fm', add_cell r fm col = Done fm'
                  /\ count_of fm' key = (count_of fm key + 1)%N
                  /\ forall k, k <> key -> fm_get fm' k = fm_get fm k)
  /\ forall s, query_key s = delete_chars is_hyphen s.
Proof.
  intros Hrow Hcol text key.
  assert (Hrec : exists o : option string,
             (if row_has r "sub_code" then
                match toString_method (row_get r "sub_code") with
                | None => None
                | Some sc => Some (if trim sc =? "" then None else Some (trim sc))
                end
              else Some None) = Some o).
  { destruct (row_has r "sub_code") eqn:Hsc; [|eauto].
    rewrite (cell_toString _ (sheet_row_get _ _ Hrow Hsc)). eauto. }
  destruct Hrec as [o Ho].
  unfold add_cell. rewrite (cell_toString _ (sheet_row_get _ _ Hrow Hcol)).
  fold text. rewrite cell_key_eq. fold key. rewrite Ho.
  split; [|split].
  - intros ->. reflexivity.
  - intros Hne Hinh. destruct (String.eqb_spec (trim text) "") as [|_]; [contradiction|].
    rewrite Hinh. unfold count_of.
    destruct (fm_get fm key) as [e|] eqn:Hget; destruct o as [sc|];
      eexists; (split; [reflexivity|]);
      rewrite ?fm_get_alter, ?fm_get_snoc, ?Hget, ?String.eqb_refl; cbn [option_map count];
      (split; [reflexivity|]);
      intros k Hk; rewrite ?fm_get_alter, ?fm_get_snoc;
      (destruct (String.eqb_spec key k) as [->|_]; [contradiction|]);
      now destruct (fm_get fm k).
  - apply query_key_strips.
Qed.

Lemma C7_cells_witness :
  exists fm',
    add_cell [("class", VStr " 6A  X-Y "); ("sub_code", VStr "DX")] [] "class" = Done fm'
    /\ count_of fm' "6A  XY" = (count_of [] "6A  XY" + 1)%N
    /\ forall k, k <> "6A  XY" -> fm_get fm' k = fm_get [] k.
Proof.
  refine (proj1 (proj2 (C7_cells_are_trimmed_and_stripped
                          [("class", VStr " 6A  X-Y "); ("sub_code", VStr "DX")] [] "class"
                          _ _)) _ _).
  - repeat constructor.
  - reflexivity.
  - discriminate.
  - reflexivity.
Defined.

(** C7 as stated fails: the cell "6A  X-Y" is entered under "6A  XY", its
    two spaces kept, and the query " 6A" keeps its leading space. *)
Lemma C7_counterexample :
  build [[("class", VStr "6A  X-Y")]] = Done [("6A  XY", {| count := 1; subCodes := [] |})]
  /\ "6A  XY" <> normalize "6A  X-Y"
  /\ query_key " 6A" <> normalize " 6A".
Proof. repeat split; discriminate. Qed.
End FrequencyIndex.

Lemma strongly_sorted_weaken {A : Type} (R S : A -> A -> Prop) (l : list A) :
  (forall a b, R a b -> S a b) -> StronglySorted R l -> StronglySorted S l.
Proof.
  intros HRS. induction 1 as [|x l _ IH Hx]; constructor; [assumption|].
  eapply List.Forall_impl; [|exact Hx]. intros b. apply HRS.
Qed.

(** ** The student-profile script *)
Section Main.
Import StudentProfile Spec Samples.

Lemma process_user_row_eligible (classListData : list row) (codes : gmap string value)
    (st : state) (index : nat) (r : row) :
  isEligibleClass (row_get r "class") = true ->
  let matching := matchingClassRows classListData (extractFormClass (row_get r "class")) in
  outputRows (process_user_row classListData codes st index r)
  = outputRows st ++ emitted_for codes r (sort class_no_le matching)
  /\ (matching <> [] ->
      unprocessedRows (process_user_row classListData codes st index r) = unprocessedRows st
      /\ missingInfoMap (process_user_row classListData codes st index r) = missingInfoMap st).
Proof.
  intros Hel matching. unfold process_user_row. rewrite Hel. cbn [negb]. fold matching.
  destruct matching as [|m ms] eqn:E.
  - split; [|congruence]. cbn. now rewrite app_nil_r.
  - split; [reflexivity|]. intros _. split; reflexivity.
Qed.

Lemma class_no_le_spec (a b : row) : class_no_le a b = true <-> (class_no a <= class_no b)%Z.
Proof. unfold class_no_le. rewrite Z.leb_le. lia. Qed.

Lemma sorted_by_class_no (l : list row) :
  StronglySorted (fun a b => (class_no a <= class_no b)%Z) (sort class_no_le l).
Proof.
  eapply strongly_sorted_weaken; [|apply (sort_sorted class_no_le)].
  - intros a b. apply class_no_le_spec.
  - intros a b. rewrite !class_no_le_spec. lia.
  - intros a b c. rewrite !class_no_le_spec. lia.
Qed.

(** C10: an eligible user row whose form/class token matches N class-list
    rows adds exactly N records to the output, one for each matching row,
    with the user row's sub_code, the subject_code looked up for it and
    the row's class text as grouping, in ascending order of the matching
    rows' "Class no", a "Class no" that is not a number counting as 0. *)
Theorem C10_one_record_per_matching_row (classListData : list row)
    (codes : gmap string value) (st : state) (index : nat) (r : row) :
  isEligibleClass (row_get r "class") = true ->
  let matching := matchingClassRows classListData (extractFormClass (row_get r "class")) in
  exists sorted : list row,
    Permutation sorted matching
    /\ StronglySorted (fun a b => (class_no a <= class_no b)%Z) sorted
    /\ outputRows (process_user_row classListData codes st index r)
       = outputRows st
         ++ map (fun matchRow =>
                   {| tsss_id := row_get matchRow "TSSSID";
                      a_year := "2025/2026"; terms := "Term 1";
                      sub_code := row_get r "sub_code";
                      subject_code := subject_code_of codes (row_get r "sub_code");
                      taking := "TRUE"; self_taking := "FALSE";
                      grouping := to_string (row_get r "class");
                      grouping_real := to_string (row_get r "class") |})
                sorted
    /\ length (outputRows (process_user_row classListData codes st index r))
       = (length (outputRows st) + length matching)%nat
    /\ (forall a, parseInt (to_string (row_get a "Class no")) = None -> class_no a = 0%Z).
Proof.
  intros Hel matching.
  destruct (process_user_row_eligible classListData codes st index r Hel) as [Hout _].
  fold matching in Hout.
  exists (sort class_no_le matching).
  split; [apply sort_perm|]. split; [apply sorted_by_class_no|].
  split; [exact Hout|]. split.
  - rewrite Hout, length_app. unfold emitted_for. rewrite length_map.
    now rewrite (Permutation_length (sort_perm class_no_le matching)).
  - intros a Ha. unfold class_no. now rewrite Ha.
Qed.

Lemma C10_one_record_per_matching_row_witness :
  length (outputRows (process_user_row class_list_1A ∅ initial 0 user_row_1A)) = 3%nat
  /\ map tsss_id (outputRows (process_user_row class_list_1A ∅ initial 0 user_row_1A))
     = [VStr "S2"; VStr "S1"; VStr "S3"].
Proof.
  destruct (C10_one_record_per_matching_row class_list_1A ∅ initial 0 user_row_1A)
    as (sorted & _ & _ & _ & Hlen & _).
  - reflexivity.
  - split; [exact Hlen | reflexivity].
Defined.

(** *** The deferred store *)
Lemma searchMissingInfo_criteria (m : store) (form form' cls cls' : value)
    (subject : string) (teacher : value) :
  to_string form = to_string form' -> to_string cls = to_string cls' ->
  searchMissingInfo m form cls subject teacher
  = searchMissingInfo m form' cls' subject teacher.
Proof.
  intros Hf Hc. induction m as [|[group entries] m IH]; cbn [searchMissingInfo]; [reflexivity|].
  rewrite Hf, Hc, IH. reflexivity.
Qed.

(** The record a recovery pass builds from a stored entry. *)
Lemma recover_row_spec (subject : string) (codes : gmap string value) (st : state) (r : row) :
  let st' := recover_row subject codes st r in
  missingInfoMap st' = missingInfoMap st
  /\ unprocessedRows st' = unprocessedRows st
  /\ outputRows st' = outputRows st ++ recovered subject codes (missingInfoMap st) r.
Proof.
  unfold recover_row, recovered.
  destruct (searchMissingInfo _ _ _ _ _); cbn; [|rewrite app_nil_r]; auto.
Qed.

Lemma recovery_pass_spec (subject : string) (codes : gmap string value)
    (classListData : list row) :
  forall st,
    let st' := recovery_pass subject codes st classListData in
    missingInfoMap st' = missingInfoMap st
    /\ unprocessedRows st' = unprocessedRows st
    /\ outputRows st'
       = outputRows st ++ flat_map (recovered subject codes (missingInfoMap st)) classListData.
Proof.
  unfold recovery_pass.
  induction classListData as [|r rows IH]; intros st; cbn [fold_left flat_map].
  - now rewrite app_nil_r.
  - destruct (recover_row_spec subject codes st r) as (Hm & Hu & Ho).
    destruct (IH (recover_row subject codes st r)) as (Hm' & Hu' & Ho').
    cbn zeta in *. rewrite Hm', Hu', Ho', Hm, Hu, Ho, <- app_assoc. auto.
Qed.

(** C9: a recovery pass leaves the deferred store as it found it, so every
    class-list row is searched in the same store: each row whose search
    succeeds adds one record, and two rows with the same form, class
    letter and teacher for the subject are answered with the same stored
    entry. *)
Theorem C9_search_keeps_the_store (subject : string) (codes : gmap string value)
    (st : state) (classListData : list row) :
  let st' := recovery_pass subject codes st classListData in
  let answer r :=
    searchMissingInfo (missingInfoMap st) (row_get r "Form") (row_get r "Class")
      subject (row_get r subject) in
  missingInfoMap st' = missingInfoMap st
  /\ outputRows st'
     = outputRows st
       ++ flat_map
            (fun r =>
               match answer r with
               | Some e =>
                   [ {| tsss_id := row_get r "TSSSID";
                        a_year := "2025/2026"; terms := "Term 1";
                        sub_code := i_sub_code e;
                        subject_code := subject_code_of codes (i_sub_code e);
                        taking := "TRUE"; self_taking := "FALSE";
                        grouping := i_group e ++ " " ++ i_subject e ++ " " ++ i_teacher e;
                        grouping_real := i_group e ++ " " ++ i_subject e ++ " " ++ i_teacher e |} ]
               | None => []
               end)
            classListData
  /\ length (outputRows st')
     = (length (outputRows st)
        + length (List.filter (fun r => match answer r with Some _ => true | None => false end)
                    classListData))%nat
  /\ (forall r1 r2,
        to_string (row_get r1 "Form") = to_string (row_get r2 "Form") ->
        to_string (row_get r1 "Class") = to_string (row_get r2 "Class") ->
        row_get r1 subject = row_get r2 subject ->
        answer r1 = answer r2).
Proof.
  intros st' answer.
  destruct (recovery_pass_spec subject codes classListData st) as (Hm & _ & Ho).
  fold st' in Hm, Ho.
  split; [exact Hm|]. split; [exact Ho|]. split.
  - rewrite Ho, length_app. f_equal.
    clear. induction classListData as [|r rows IH]; [reflexivity|].
    cbn [flat_map List.filter]. rewrite length_app, IH. unfold recovered. fold (answer r).
    destruct (answer r); reflexivity.
  - intros r1 r2 Hf Hc Ht. unfold answer. rewrite Ht.
    now apply searchMissingInfo_criteria.
Qed.

Lemma C9_search_keeps_the_store_witness :
  searchMissingInfo store_3MJPW4 (VNum 3) (VStr "J") "CHI" (VStr "NEW")
  = searchMissingInfo store_3MJPW4 (VStr "3") (VStr "J") "CHI" (VStr "NEW")
  /\ map tsss_id
       (outputRows
          (recovery_pass "CHI" ∅
             {| outputRows := []; unprocessedRows := []; missingInfoMap := store_3MJPW4 |}
             class_list_3J))
     = [VStr "S1"; VStr "S2"].
Proof.
  split; [|reflexivity].
  destruct (C9_search_keeps_the_store "CHI" ∅
              {| outputRows := []; unprocessedRows := []; missingInfoMap := store_3MJPW4 |}
              class_list_3J) as (_ & _ & _ & same).
  apply (same [("Form", VNum 3); ("Class", VStr "J"); ("CHI", VStr "NEW")]
              [("Form", VStr "3"); ("Class", VStr "J"); ("CHI", VStr "NEW")]);
    reflexivity.
Defined.
End Main.

(** ** What is written, and in which order *)
Section Outputs.
Import Spec Samples.

(** *** updateStudentProfiles.js *)
Lemma grouping_key_text (r : row) (k : string) :
  UpdateStudentProfiles.grouping_key r = Some k -> k = toLowerCase (grouping_text r).
Proof.
  unfold UpdateStudentProfiles.grouping_key, grouping_text.
  destruct (truthy (row_get r "grouping")); [|now intros [= <-]].
  destruct (row_get r "grouping"); try discriminate. now intros [= <-].
Qed.

Lemma grouping_le_eq (a b : row) :
  UpdateStudentProfiles.grouping_le a b =
  match UpdateStudentProfiles.grouping_key a, UpdateStudentProfiles.grouping_key b with
  | Some x, Some y => Some (negb (string_ltb y x))
  | _, _ => None
  end.
Proof.
  unfold UpdateStudentProfiles.grouping_le.
  destruct (UpdateStudentProfiles.grouping_key a) as [x|]; [|reflexivity].
  destruct (UpdateStudentProfiles.grouping_key b) as [y|]; [|reflexivity].
  destruct (string_ltb x y) eqn:E; [now rewrite (string_ltb_asym _ _ E)|].
  now destruct (string_ltb y x).
Qed.

Lemma grouping_le_total (a b : row) :
  UpdateStudentProfiles.grouping_le a b = Some false ->
  UpdateStudentProfiles.grouping_le b a = Some true.
Proof.
  rewrite !grouping_le_eq.
  destruct (UpdateStudentProfiles.grouping_key a) as [x|]; [|discriminate].
  destruct (UpdateStudentProfiles.grouping_key b) as [y|]; [|discriminate].
  destruct (string_ltb y x) eqn:E; [|discriminate]. intros _.
  now rewrite (string_ltb_asym _ _ E).
Qed.

Lemma grouping_le_trans (a b c : row) :
  UpdateStudentProfiles.grouping_le a b = Some true ->
  UpdateStudentProfiles.grouping_le b c = Some true ->
  UpdateStudentProfiles.grouping_le a c = Some true.
Proof.
  rewrite !grouping_le_eq.
  destruct (UpdateStudentProfiles.grouping_key a) as [x|]; [|discriminate].
  destruct (UpdateStudentProfiles.grouping_key b) as [y|]; [|discriminate].
  destruct (UpdateStudentProfiles.grouping_key c) as [z|]; [|discriminate].
  destruct (string_ltb y x) eqn:E1; [discriminate|].
  destruct (string_ltb z y) eqn:E2; [discriminate|]. intros _ _.
  now rewrite (string_nlt_trans _ _ _ E1 E2).
Qed.

Lemma grouping_le_ascending (a b : row) :
  UpdateStudentProfiles.grouping_le a b = Some true ->
  string_ltb (toLowerCase (grouping_text b)) (toLowerCase (grouping_text a)) = false.
Proof.
  rewrite grouping_le_eq.
  destruct (UpdateStudentProfiles.grouping_key a) as [x|] eqn:Ka; [|discriminate].
  destruct (UpdateStudentProfiles.grouping_key b) as [y|] eqn:Kb; [|discriminate].
  apply grouping_key_text in Ka, Kb. subst x y.
  now destruct (string_ltb _ _).
Qed.

Lemma sorted_studentData_spec (studentData : list row) (appended : list OutputRecord) :
  (forall out,
      UpdateStudentProfiles.sorted_studentData studentData appended = Some out ->
      Permutation out (studentData ++ map row_of_record appended)
      /\ ascending_on grouping_text out)
  /\ (Forall grouping_is_text studentData ->
      exists out, UpdateStudentProfiles.sorted_studentData studentData appended = Some out).
Proof.
  unfold UpdateStudentProfiles.sorted_studentData. split.
  - intros out H. split; [now apply sort_m_perm in H|].
    eapply strongly_sorted_weaken; [apply grouping_le_ascending|].
    eapply sort_m_sorted; [apply grouping_le_total | apply grouping_le_trans | exact H].
  - intros Hin. apply sort_m_returns. intros a b Ha Hb.
    assert (Hok : forall r, In r (studentData ++ map row_of_record appended) ->
                            UpdateStudentProfiles.grouping_key r <> None).
    { intros r Hr. apply in_app_or in Hr as [Hr|Hr].
      - rewrite List.Forall_forall in Hin. now apply Hin.
      - apply in_map_iff in Hr as (rec & <- & _).
        unfold UpdateStudentProfiles.grouping_key. cbn.
        now destruct (negb _). }
    rewrite grouping_le_eq.
    specialize (Hok a Ha) as Ka. specialize (Hok b Hb) as Kb.
    destruct (UpdateStudentProfiles.grouping_key a); [|congruence].
    destruct (UpdateStudentProfiles.grouping_key b); congruence.
Qed.

(** *** Part 4 *)
Section Part4.
Variable localeCompare : string -> string -> Z.
Hypothesis collation_total :
  forall x y, (localeCompare x y <= 0)%Z \/ (localeCompare y x <= 0)%Z.
Hypothesis collation_trans :
  forall x y z, (localeCompare x y <= 0)%Z -> (localeCompare y z <= 0)%Z ->
                (localeCompare x z <= 0)%Z.

Lemma part4_spec (t : UserProfile.sheet) (userProfileData out : list row) :
  UserProfile.part4 localeCompare t userProfileData = Some out ->
  exists rows,
    UserProfile.resolve_rows t userProfileData = Some rows
    /\ Permutation out rows
    /\ StronglySorted
         (fun a b => (localeCompare (toUpperCase (to_string (row_get a "user")))
                                    (toUpperCase (to_string (row_get b "user"))) <= 0)%Z)
         out.
Proof.
  unfold UserProfile.part4.
  destruct (UserProfile.resolve_rows t userProfileData) as [rows|]; [|discriminate].
  intros [= <-]. exists rows. split; [reflexivity|]. split; [apply sort_perm|].
  eapply strongly_sorted_weaken; [|apply (sort_sorted (UserProfile.user_le localeCompare))].
  - intros a b. unfold UserProfile.user_le, UserProfile.user_key. now rewrite Z.leb_le.
  - intros a b. unfold UserProfile.user_le. rewrite !Z.leb_le. apply collation_total.
  - intros a b c. unfold UserProfile.user_le. rewrite !Z.leb_le. apply collation_trans.
Qed.
End Part4.

(** *** main *)
Lemma process_user_row_output (classListData : list row) (codes : gmap string value)
    (st : StudentProfile.state) (index : nat) (r : row) :
  StudentProfile.outputRows (StudentProfile.process_user_row classListData codes st index r)
  = StudentProfile.outputRows st ++ user_row_records classListData codes r.
Proof.
  unfold user_row_records.
  destruct (StudentProfile.isEligibleClass (row_get r "class")) eqn:Hel.
  - now apply process_user_row_eligible.
  - unfold StudentProfile.process_user_row. rewrite Hel. cbn. now rewrite app_nil_r.
Qed.

Lemma process_user_rows_output (classListData : list row) (codes : gmap string value)
    (userData : list row) :
  forall st index,
    StudentProfile.outputRows
      (StudentProfile.process_user_rows classListData codes st index userData)
    = StudentProfile.outputRows st ++ flat_map (user_row_records classListData codes) userData.
Proof.
  induction userData as [|r rows IH]; intros st index;
    cbn [StudentProfile.process_user_rows flat_map].
  - now rewrite app_nil_r.
  - now rewrite IH, process_user_row_output, <- app_assoc.
Qed.

Lemma m2_rows_output (specific : list StudentProfile.info) (classListData : list row) :
  forall st, exists tail,
    StudentProfile.outputRows (fold_left (StudentProfile.m2_row specific) classListData st)
    = StudentProfile.outputRows st ++ tail.
Proof.
  induction classListData as [|r rows IH]; intros st; cbn [fold_left].
  - exists []. now rewrite app_nil_r.
  - destruct (IH (StudentProfile.m2_row specific st r)) as [tail ->].
    assert (exists one, StudentProfile.outputRows (StudentProfile.m2_row specific st r)
                        = StudentProfile.outputRows st ++ one) as [one ->].
    { unfold StudentProfile.m2_row.
      destruct (_ && _); [|exists []; now rewrite app_nil_r].
      destruct (find _ _); [eexists; reflexivity | exists []; now rewrite app_nil_r]. }
    exists (one ++ tail). now rewrite app_assoc.
Qed.

Lemma main_output (userData tableData classListData : list row) :
  exists tail,
    fst (StudentProfile.main userData tableData classListData)
    = flat_map (user_row_records classListData (StudentProfile.subCodeMap tableData)) userData
      ++ tail.
Proof.
  unfold StudentProfile.main. cbn [fst].
  match goal with
  | |- context [fold_left (StudentProfile.m2_row ?sp) _ ?st] =>
      destruct (m2_rows_output sp classListData st) as [t5 ->]
  end.
  repeat match goal with
  | |- context [StudentProfile.outputRows (StudentProfile.recovery_pass ?s ?c ?st ?l)] =>
      let H := fresh in
      destruct (recovery_pass_spec s c l st) as (_ & _ & H); cbn zeta in H; rewrite H; clear H
  end.
  rewrite process_user_rows_output. cbn [StudentProfile.outputRows StudentProfile.initial app].
  rewrite <- !app_assoc. eexists. reflexivity.
Qed.

(** The store after a user row. *)
Lemma process_user_row_store (classListData : list row) (codes : gmap string value)
    (st : StudentProfile.state) (index : nat) (r : row) :
  StudentProfile.missingInfoMap (StudentProfile.process_user_row classListData codes st index r)
  = if is_deferred classListData r
    then StudentProfile.store_add (StudentProfile.missingInfoMap st)
           (StudentProfile.i_group (deferred_entry r)) (deferred_entry r)
    else StudentProfile.missingInfoMap st.
Proof.
  unfold StudentProfile.process_user_row, is_deferred, finds_class.
  destruct (StudentProfile.isEligibleClass (row_get r "class")); cbn [negb andb];
    [|reflexivity].
  destruct (StudentProfile.matchingClassRows _ _); reflexivity.
Qed.

Lemma process_user_rows_store (classListData : list row) (codes : gmap string value)
    (userData : list row) :
  forall st index,
    StudentProfile.missingInfoMap
      (StudentProfile.process_user_rows classListData codes st index userData)
    = fold_left
        (fun m r =>
           if is_deferred classListData r
           then StudentProfile.store_add m (StudentProfile.i_group (deferred_entry r))
                  (deferred_entry r)
           else m)
        userData (StudentProfile.missingInfoMap st).
Proof.
  induction userData as [|r rows IH]; intros st index;
    cbn [StudentProfile.process_user_rows fold_left]; [reflexivity|].
  now rewrite IH, process_user_row_store.
Qed.

(** The record of the M2 pass for one class-list row. *)
Lemma m2_row_output (specific : list StudentProfile.info) (st : StudentProfile.state)
    (r : row) :
  StudentProfile.missingInfoMap (StudentProfile.m2_row specific st r)
  = StudentProfile.missingInfoMap st
  /\ StudentProfile.outputRows (StudentProfile.m2_row specific st r)
     = StudentProfile.outputRows st ++ m2_records specific r.
Proof.
  unfold StudentProfile.m2_row, m2_records.
  destruct (_ && _); [|now rewrite app_nil_r].
  destruct (find _ _); [now split | now rewrite app_nil_r].
Qed.

Lemma m2_pass_output (specific : list StudentProfile.info) (classListData : list row) :
  forall st,
    StudentProfile.outputRows (fold_left (StudentProfile.m2_row specific) classListData st)
    = StudentProfile.outputRows st ++ flat_map (m2_records specific) classListData.
Proof.
  induction classListData as [|r rows IH]; intros st; cbn [fold_left flat_map].
  - now rewrite app_nil_r.
  - rewrite IH. destruct (m2_row_output specific st r) as [_ ->]. now rewrite <- app_assoc.
Qed.

(** All the records of [main], pass by pass. *)
Lemma main_output_exact (userData tableData classListData : list row) :
  fst (StudentProfile.main userData tableData classListData)
  = main_records userData tableData classListData.
Proof.
  unfold StudentProfile.main, main_records. cbn [fst].
  set (codes := StudentProfile.subCodeMap tableData).
  set (st0 := StudentProfile.process_user_rows classListData codes StudentProfile.initial 0
                userData).
  assert (Hm0 : StudentProfile.missingInfoMap st0 = deferred_store classListData userData)
    by (subst st0; now rewrite process_user_rows_store).
  assert (Ho0 : StudentProfile.outputRows st0
                = flat_map (user_row_records classListData codes) userData)
    by (subst st0; now rewrite process_user_rows_output).
  destruct (recovery_pass_spec "CHI" codes classListData st0) as (Hm1 & _ & Ho1).
  set (st1 := StudentProfile.recovery_pass "CHI" codes st0 classListData) in *.
  destruct (recovery_pass_spec "MATHS" codes classListData st1) as (Hm2 & _ & Ho2).
  set (st2 := StudentProfile.recovery_pass "MATHS" codes st1 classListData) in *.
  destruct (recovery_pass_spec "RSE" codes classListData st2) as (Hm3 & _ & Ho3).
  set (st3 := StudentProfile.recovery_pass "RSE" codes st2 classListData) in *.
  destruct (recovery_pass_spec "ENG" codes classListData st3) as (Hm4 & _ & Ho4).
  set (st4 := StudentProfile.recovery_pass "ENG" codes st3 classListData) in *.
  cbn zeta in *.
  rewrite m2_pass_output, Ho4, Ho3, Ho2, Ho1, Ho0.
  rewrite Hm4, Hm3, Hm2, Hm1, Hm0. now rewrite <- !app_assoc.
Qed.
End Outputs.

Section C8.
Import Spec Samples.

Lemma code_unit_compare_le (a b : string) :
  (code_unit_compare a b <= 0)%Z <-> string_ltb b a = false.
Proof.
  unfold code_unit_compare.
  destruct (string_ltb a b) eqn:E; [rewrite (string_ltb_asym _ _ E); lia|].
  destruct (string_ltb b a); split; (lia || discriminate || reflexivity).
Qed.

Lemma code_unit_compare_total (x y : string) :
  (code_unit_compare x y <= 0)%Z \/ (code_unit_compare y x <= 0)%Z.
Proof.
  rewrite !code_unit_compare_le.
  destruct (string_ltb y x) eqn:E; [right; now apply string_ltb_asym | now left].
Qed.

Lemma code_unit_compare_trans (x y z : string) :
  (code_unit_compare x y <= 0)%Z -> (code_unit_compare y z <= 0)%Z ->
  (code_unit_compare x z <= 0)%Z.
Proof. rewrite !code_unit_compare_le. apply string_nlt_trans. Qed.

(** C8, as the code has it: the student-profile update sorts its whole
    output once, by the lowercased grouping in the order of the code units,
    before it is written; Part 4 sorts the user-profile rows once by the
    uppercased user field under the collation of [localeCompare]; [main]
    does not sort: it writes its records in the order they were emitted,
    those of the user rows first, in the order of the user rows, then those
    of the recovery passes for CHI, MATHS, RSE and ENG, each in the order
    of the class list, then those of the M2 pass, in that order too. *)
Theorem C8_written_order (localeCompare : string -> string -> Z) :
  (forall x y, (localeCompare x y <= 0)%Z \/ (localeCompare y x <= 0)%Z) ->
  (forall x y z, (localeCompare x y <= 0)%Z -> (localeCompare y z <= 0)%Z ->
                 (localeCompare x z <= 0)%Z) ->
  (forall studentData appended out,
      UpdateStudentProfiles.sorted_studentData studentData appended = Some out ->
      Permutation out (studentData ++ map row_of_record appended)
      /\ ascending_on grouping_text out)
  /\ (forall studentData appended,
         Forall grouping_is_text studentData ->
         exists out, UpdateStudentProfiles.sorted_studentData studentData appended = Some out)
  /\ (forall t userProfileData out,
         UserProfile.part4 localeCompare t userProfileData = Some out ->
         exists rows,
           UserProfile.resolve_rows t userProfileData = Some rows
           /\ Permutation out rows
           /\ StronglySorted
                (fun a b => (localeCompare (toUpperCase (to_string (row_get a "user")))
                                           (toUpperCase (to_string (row_get b "user"))) <= 0)%Z)
                out)
  /\ (forall userData tableData classListData,
         let codes := StudentProfile.subCodeMap tableData in
         let m := deferred_store classListData userData in
         fst (StudentProfile.main userData tableData classListData)
         = flat_map (user_row_records classListData codes) userData
           ++ flat_map (recovered "CHI" codes m) classListData
           ++ flat_map (recovered "MATHS" codes m) classListData
           ++ flat_map (recovered "RSE" codes m) classListData
           ++ flat_map (recovered "ENG" codes m) classListData
           ++ flat_map (m2_records (StudentProfile.missingSpecific m)) classListData).
Proof.
  intros Htotal Htrans. split; [|split; [|split]].
  - intros studentData appended. apply sorted_studentData_spec.
  - intros studentData appended. apply sorted_studentData_spec.
  - intros t userProfileData out. now apply part4_spec.
  - intros userData tableData classListData. apply main_output_exact.
Qed.

Lemma C8_written_order_witness :
  exists out,
    UpdateStudentProfiles.sorted_studentData
      [[("tsss_id", VStr "S7"); ("grouping", VStr "6chist2 BYC")];
       [("tsss_id", VStr "S8"); ("grouping", VStr "")]]
      [StudentProfile.record (VStr "S9") (VStr "ENN1") (VStr "ENG") "1A ENG ZED"]
    = Some out.
Proof.
  refine (proj1 (proj2 (C8_written_order code_unit_compare
                          code_unit_compare_total code_unit_compare_trans)) _ _ _).
  repeat constructor; discriminate.
Defined.

(** C8 as stated fails on [main]: its two records leave in the order of
    the user rows, descending in the grouping and in the identifier. *)
Lemma C8_counterexample :
  let out := fst (StudentProfile.main user_rows_2A_1A table_ENN1_CHN1 class_list_2A_1A) in
  map (fun r => (tsss_id r, grouping r)) out
  = [(VStr "T2", "2A ENG ZED"); (VStr "T1", "1A CHI ABE")]
  /\ ~ ascending_on grouping out
  /\ ~ ascending_on (fun r => to_string (tsss_id r)) out.
Proof.
  intros out.
  assert (E : out = [StudentProfile.record (VStr "T2") (VStr "ENN1") (VStr "ENG") "2A ENG ZED";
                     StudentProfile.record (VStr "T1") (VStr "CHN1") (VStr "CHI") "1A CHI ABE"])
    by (vm_compute; reflexivity).
  rewrite E. split; [reflexivity|].
  split; intros H; inversion H as [|? ? _ Hall]; inversion Hall; discriminate.
Qed.
End C8.

(** ** Emission *)
Section Emission.
Import Spec Samples.

Lemma truthy_or_else_empty (v : value) : truthy (or_else v (VStr "")) = truthy v.
Proof. unfold or_else. now destruct (truthy v) eqn:E. Qed.

(** C1, as the code has it: a record built by [processMatchForRecord], and
    so every record the student-profile update appends, has a non-empty
    sub_code and a non-empty subject_code, and a match whose converted
    sub_code is empty or has no subject_code in the table yields no record
    (nothing is logged for it); [main] logs as unprocessed the
    rows with an ineligible class and those without a class-list match,
    and for an eligible row with a match it emits the records with the
    row's sub_code and the subject_code looked up for it as they are. *)
Theorem C1_codes_of_emitted_records :
  (forall mapping tsssid m r,
      UpdateStudentProfiles.processMatchForRecord mapping tsssid m = Some r ->
      exists sc,
        sub_code r = VStr sc /\ sc <> ""
        /\ truthy (subject_code r) = true /\ subject_code r <> VStr "")
  /\ (forall fm mapping classData r,
         In r (UpdateStudentProfiles.appendedRecords fm mapping classData) ->
         exists sc,
           sub_code r = VStr sc /\ sc <> ""
           /\ truthy (subject_code r) = true /\ subject_code r <> VStr "")
  /\ (forall mapping tsssid m sc0 rest,
         UpdateStudentProfiles.m_subCodes m = sc0 :: rest ->
         UpdateStudentProfiles.convertSubCode (trim sc0) = ""
         \/ truthy (obj_get mapping (UpdateStudentProfiles.convertSubCode (trim sc0))) = false ->
         UpdateStudentProfiles.processMatchForRecord mapping tsssid m = None)
  /\ (forall classListData codes st index r,
         StudentProfile.isEligibleClass (row_get r "class") = true ->
         StudentProfile.matchingClassRows classListData
           (StudentProfile.extractFormClass (row_get r "class")) <> [] ->
         let st' := StudentProfile.process_user_row classListData codes st index r in
         StudentProfile.unprocessedRows st' = StudentProfile.unprocessedRows st
         /\ StudentProfile.outputRows st'
            = StudentProfile.outputRows st
              ++ emitted_for codes r
                   (sort StudentProfile.class_no_le
                      (StudentProfile.matchingClassRows classListData
                         (StudentProfile.extractFormClass (row_get r "class")))))
  /\ (forall classListData codes st index r,
         StudentProfile.isEligibleClass (row_get r "class") = false
         \/ StudentProfile.matchingClassRows classListData
              (StudentProfile.extractFormClass (row_get r "class")) = [] ->
         let st' := StudentProfile.process_user_row classListData codes st index r in
         StudentProfile.outputRows st' = StudentProfile.outputRows st
         /\ exists why,
             StudentProfile.unprocessedRows st'
             = StudentProfile.unprocessedRows st
               ++ [ {| StudentProfile.rowNumber := index + 2;
                       StudentProfile.reason := why |} ]).
Proof.
  assert (built : forall mapping tsssid m r,
             UpdateStudentProfiles.processMatchForRecord mapping tsssid m = Some r ->
             exists sc,
               sub_code r = VStr sc /\ sc <> ""
               /\ truthy (subject_code r) = true /\ subject_code r <> VStr "").
  { intros mapping tsssid m r. unfold UpdateStudentProfiles.processMatchForRecord.
    destruct (UpdateStudentProfiles.m_subCodes m) as [|sc0 ?]; [discriminate|].
    destruct (UpdateStudentProfiles.m_matches m) as [|m0 ?]; [discriminate|].
    destruct (_ <? _)%N; [|discriminate].
    destruct (UpdateStudentProfiles.convertSubCode (trim sc0) =? "") eqn:Hsub;
      [discriminate|].
    destruct (truthy (or_else _ _)) eqn:Hsubj; [|discriminate].
    intros [= <-]. cbn [sub_code subject_code]. eexists. split; [reflexivity|].
    apply String.eqb_neq in Hsub. split; [assumption|]. split; [assumption|].
    intros Heq. rewrite Heq in Hsubj. discriminate. }
  split; [exact built|]. split; [|split; [|split]].
  - intros fm mapping classData r Hin.
    unfold UpdateStudentProfiles.appendedRecords in Hin.
    apply in_flat_map in Hin as (row & _ & Hin).
    unfold UpdateStudentProfiles.class_row_records in Hin.
    destruct (_ && _) in Hin; [destruct Hin|].
    repeat (apply in_app_or in Hin as [Hin|Hin]);
      (match type of Hin with
       | In _ (UpdateStudentProfiles.opt_list ?o) =>
           destruct o as [r'|] eqn:Hbuilt; [|destruct Hin];
           destruct Hin as [<-|[]]; exact (built _ _ _ _ Hbuilt)
       end).
  - intros mapping tsssid m sc0 rest Hsc Hempty.
    unfold UpdateStudentProfiles.processMatchForRecord. rewrite Hsc.
    destruct (UpdateStudentProfiles.m_matches m) as [|m0 ?]; [reflexivity|].
    destruct (_ <? _)%N; [|reflexivity].
    rewrite truthy_or_else_empty.
    destruct Hempty as [-> | ->]; [reflexivity|]. now rewrite andb_false_r.
  - intros classListData codes st index r Hel Hmatch st'.
    destruct (process_user_row_eligible classListData codes st index r Hel) as [Hout Hrest].
    split; [now apply Hrest | exact Hout].
  - intros classListData codes st index r Hno st'. subst st'.
    unfold StudentProfile.process_user_row.
    destruct (StudentProfile.isEligibleClass (row_get r "class")) eqn:Hel; cbn [negb].
    + destruct Hno as [|Hno]; [discriminate|]. rewrite Hno.
      split; [reflexivity|]. eexists. reflexivity.
    + split; [reflexivity|]. eexists. reflexivity.
Qed.

Lemma C1_codes_of_emitted_records_witness :
  UpdateStudentProfiles.processMatchForRecord
    (UpdateStudentProfiles.subSubjectMapping table_ENN1_CHN1) (VStr "S1")
    {| UpdateStudentProfiles.m_count := 2;
       UpdateStudentProfiles.m_matches := ["6PHY BYC (2)"];
       UpdateStudentProfiles.m_subCodes := [" DPHY11 "] |}
  = None
  /\ StudentProfile.unprocessedRows
       (StudentProfile.process_user_row class_list_1A ∅ StudentProfile.initial 0 user_row_1A)
     = [].
Proof.
  destruct C1_codes_of_emitted_records as (_ & _ & withheld & emitted & _). split.
  - apply (withheld _ _ _ " DPHY11 " []); [reflexivity | right; reflexivity].
  - apply (emitted class_list_1A ∅ StudentProfile.initial 0 user_row_1A);
      [reflexivity | discriminate].
Defined.

(** C1 as stated fails on [main]: a user row whose sub_code is empty finds
    its class and is emitted, with an empty sub_code and a null
    subject_code, and nothing is logged. *)
Lemma C1_counterexample :
  StudentProfile.main
    [[("user", VStr "NEW"); ("sub_code", VStr ""); ("class", VStr "1A XYZ NEW")]]
    table_ENN1_CHN1
    [[("Form", VNum 1); ("Class", VStr "A"); ("TSSSID", VStr "S1"); ("Class no", VNum 1)]]
  = ([ {| tsss_id := VStr "S1"; a_year := "2025/2026"; terms := "Term 1";
          sub_code := VStr ""; subject_code := VNull;
          taking := "TRUE"; self_taking := "FALSE";
          grouping := "1A XYZ NEW"; grouping_real := "1A XYZ NEW" |} ],
     []).
Proof. vm_compute. reflexivity. Qed.
End Emission.

(** ** Lookups in the literal tables *)
Lemma upper_char_not_lower (c : ascii) : is_lower (upper_char c) = false.
Proof. destruct c as [[] [] [] [] [] [] [] []]; reflexivity. Qed.

Lemma toUpperCase_no_lower (s : string) : Spec.has_lower (toUpperCase s) = false.
Proof.
  induction s as [|c r IH]; [reflexivity|].
  cbn [toUpperCase map_string Spec.has_lower]. fold (toUpperCase r).
  now rewrite upper_char_not_lower, IH.
Qed.

Lemma inherited_name_has_lower (k : string) : inherited_name k = true -> Spec.has_lower k = true.
Proof.
  unfold inherited_name. intros H. apply existsb_exists in H as (n & Hn & Hk).
  apply String.eqb_eq in Hk. subst n.
  repeat (destruct Hn as [<-|Hn]; [reflexivity|]). destruct Hn.
Qed.

Lemma toUpperCase_not_inherited (s : string) : inherited_name (toUpperCase s) = false.
Proof.
  destruct (inherited_name (toUpperCase s)) eqn:E; [|reflexivity].
  apply inherited_name_has_lower in E. now rewrite toUpperCase_no_lower in E.
Qed.

(** A key of a literal table is one of the pairs written in it. *)
Lemma literal_lookup (kvs : list (string * string)) (k : string) (v : value) :
  literal kvs !! k = Some v -> exists s, v = VStr s /\ In (k, s) kvs.
Proof.
  unfold literal. intros H. apply elem_of_list_to_map_2 in H.
  apply list_elem_of_In, in_map_iff in H as ([k' s] & [= <- <-] & Hin). eauto.
Qed.

Lemma is_prefix_map (f : ascii -> ascii) (p s : string) :
  is_prefix p s = true -> is_prefix (map_string f p) (map_string f s) = true.
Proof.
  revert s. induction p as [|a p IH]; intros [|b s]; cbn [is_prefix map_string]; try easy.
  rewrite !andb_true_iff. intros [Hab Hps]. apply Ascii.eqb_eq in Hab. subst b.
  split; [apply Ascii.eqb_refl | now apply IH].
Qed.

Lemma includes_map (f : ascii -> ascii) (s p : string) :
  includes s p = true -> includes (map_string f s) (map_string f p) = true.
Proof.
  induction s as [|c r IH]; cbn [includes map_string]; rewrite !orb_true_iff.
  - intros [H|H]; [|discriminate]. left. now apply (is_prefix_map f p "").
  - intros [H|H]; [left; now apply (is_prefix_map f p (String c r)) | right; now apply IH].
Qed.

(** ** The verification script *)
Section Verification.
Import VerifyUserProfiles Spec.

Lemma fold_left_snoc_map {A B : Type} (f : A -> B) (l : list A) :
  forall init, fold_left (fun acc x => acc ++ [f x]) l init = init ++ map f l.
Proof.
  induction l as [|x l IH]; intros init; cbn [fold_left map].
  - now rewrite app_nil_r.
  - now rewrite IH, <- app_assoc.
Qed.

Lemma first_pass_from (data : list row) :
  forall rows n,
    fold_left
      (fun (acc : list row * nat) r =>
         let '(rows, firstLevelInvalidCount) := acc in
         let '(invalid, r') := firstLevelVerification r in
         (rows ++ [r'],
          if invalid then S firstLevelInvalidCount else firstLevelInvalidCount))
      data (rows, n)
    = (rows ++ map (fun r => snd (firstLevelVerification r)) data,
       n + length (List.filter (fun r => fst (firstLevelVerification r)) data)).
Proof.
  induction data as [|r data IH]; intros rows n; cbn [fold_left map List.filter].
  - now rewrite app_nil_r, Nat.add_0_r.
  - destruct (firstLevelVerification r) as [[|] r']; cbn [fst snd];
      rewrite IH, <- app_assoc; cbn [length app]; f_equal; lia.
Qed.

Lemma first_pass_spec (data : list row) :
  first_pass data
  = (map (fun r => snd (firstLevelVerification r)) data,
     length (List.filter (fun r => fst (firstLevelVerification r)) data)).
Proof. unfold first_pass. now rewrite first_pass_from. Qed.

Lemma second_pass_spec (data : list row) :
  second_pass data = map secondLevelVerification data.
Proof. unfold second_pass. now rewrite fold_left_snoc_map. Qed.

Lemma override_absent (r : row) (subCode : string) :
  firstLevelSubCodeMapping !! toUpperCase subCode = None ->
  first_level_override r subCode = r.
Proof.
  intros H. unfold first_level_override, obj_get.
  now rewrite H, toUpperCase_not_inherited.
Qed.

(** C5: first-level verification marks a row invalid exactly when it has no
    class number, or the class number is at most 3 and the sub_code read
    from the row starts with D or d, or the class number is above 3 and it
    does not; an invalid row whose uppercased sub_code is no key of the
    first-level table keeps its sub_code, and is counted all the same, as
    is the row of class "7Z" and sub_code "PHY1". *)
Theorem C5_first_level_invalid (r : row) :
  let subCode := read_sub_code r in
  let leadingD := startsWith subCode "D" || startsWith subCode "d" in
  (fst (firstLevelVerification r) = true <->
     extractClassNumber (row_get r "class") = None
     \/ (exists n, extractClassNumber (row_get r "class") = Some n
                   /\ (n <= 3)%Z /\ leadingD = true)
     \/ (exists n, extractClassNumber (row_get r "class") = Some n
                   /\ (n > 3)%Z /\ leadingD = false))
  /\ (fst (firstLevelVerification r) = true ->
      firstLevelSubCodeMapping !! toUpperCase subCode = None ->
      snd (firstLevelVerification r) = r)
  /\ (forall before after,
        snd (script (before ++ r :: after))
        = (snd (script (before ++ after))
           + if fst (firstLevelVerification r) then 1 else 0)%nat)
  /\ firstLevelVerification [("class", VStr "7Z"); ("sub_code", VStr "PHY1")]
     = (true, [("class", VStr "7Z"); ("sub_code", VStr "PHY1")]).
Proof.
  intros subCode leadingD. split; [|split; [|split]].
  - unfold firstLevelVerification. fold subCode. fold leadingD.
    destruct (extractClassNumber (row_get r "class")) as [n|]; cbn [fst].
    + destruct (Z.leb_spec n 3); destruct leadingD; cbn [negb fst]; split;
        try (intros _; right; eauto; fail); try discriminate;
        try (intros _; right; left; exists n; repeat split; (assumption || lia));
        try (intros _; right; right; exists n; repeat split; (assumption || lia));
        intros [H'|[(m & [= <-] & Hm & Hd)|(m & [= <-] & Hm & Hd)]];
        try discriminate; lia.
    + split; [intros _; now left | reflexivity].
  - unfold firstLevelVerification. fold subCode.
    intros Hinv Habs.
    destruct (extractClassNumber (row_get r "class")) as [n|]; cbn [snd].
    + destruct (negb _); cbn [snd]; [now apply override_absent | reflexivity].
    + now apply override_absent.
  - intros before after. unfold script.
    rewrite !first_pass_spec. cbn [snd].
    rewrite !List.filter_app, !length_app. cbn [List.filter].
    destruct (fst (firstLevelVerification r)); cbn [length]; lia.
  - reflexivity.
Qed.

Lemma C5_first_level_invalid_witness :
  snd (firstLevelVerification [("class", VStr "7Z"); ("sub_code", VStr " phy1 ")])
  = [("class", VStr "7Z"); ("sub_code", VStr " phy1 ")].
Proof.
  refine (proj1 (proj2 (C5_first_level_invalid
                          [("class", VStr "7Z"); ("sub_code", VStr " phy1 ")])) _ _);
    reflexivity.
Defined.

(** C4: the two passes run one after the other over all rows, so that for
    every row second-level verification reads, and when it is mapped
    replaces, the sub_code first-level verification left on that row,
    never the one the row came with. *)
Theorem C4_second_level_after_first (data : list row) :
  script data
  = (second_pass (fst (first_pass data)), snd (first_pass data))
  /\ fst (first_pass data) = map (fun r => snd (firstLevelVerification r)) data
  /\ fst (script data)
     = map (fun r => secondLevelVerification (snd (firstLevelVerification r))) data
  /\ (forall r,
        let left_by_first := snd (firstLevelVerification r) in
        let looked_up :=
          obj_get secondLevelSubCodeMapping (toUpperCase (read_sub_code left_by_first)) in
        secondLevelVerification left_by_first
        = if truthy looked_up then row_set left_by_first "sub_code" looked_up
          else left_by_first)
  /\ fst (script [[("class", VStr "1A"); ("sub_code", VStr "DMA11")]])
     = [[("class", VStr "1A"); ("sub_code", VStr "MATH")]]
  /\ secondLevelVerification [("class", VStr "1A"); ("sub_code", VStr "DMA11")]
     = [("class", VStr "1A"); ("sub_code", VStr "DMATH1")].
Proof.
  split; [unfold script; now destruct (first_pass data)|].
  split; [now rewrite first_pass_spec|].
  split; [unfold script; now rewrite first_pass_spec, second_pass_spec, map_map|].
  repeat split; reflexivity.
Qed.
End Verification.

(** ** The resolver of Part 4 *)
Section Resolver.
Import UserProfile Spec Samples.

Lemma dse_values_truthy (k : string) (v : value) :
  dseMapping !! k = Some v -> truthy v = true.
Proof.
  intros H. apply literal_lookup in H as (s & -> & Hin).
  repeat (destruct Hin as [[= <- <-]|Hin]; [reflexivity|]). destruct Hin.
Qed.

(** C2: when the grouping contains "DSE" and the candidate derived from it
    is a key of the DSE table, the resolver answers with the table's
    sub_code, whatever the scan of the reference sheet would find. *)
Theorem C2_dse_override_first (t : sheet) (groupingVal : string) (v : value) :
  includes groupingVal "DSE" = true ->
  dseMapping !! newSubjectCode groupingVal = Some v ->
  resolve t groupingVal = (true, v) /\ matchedSubCodeVal t groupingVal = v.
Proof.
  intros Hdse Hkey.
  assert (Hres : resolve t groupingVal = (true, v)).
  { unfold resolve.
    assert (Hup : includes (toUpperCase groupingVal) "DSE" = true)
      by apply (includes_map upper_char groupingVal "DSE" Hdse).
    assert (Hget : obj_get dseMapping (newSubjectCode groupingVal) = v)
      by (unfold obj_get; now rewrite Hkey).
    now rewrite Hup, Hget, (dse_values_truthy _ _ Hkey). }
  split; [exact Hres|]. unfold matchedSubCodeVal. now rewrite Hres.
Qed.

Lemma C2_dse_override_first_witness :
  resolve sheet_with_DSE_row "6DSE-PE1 BYC" = (true, VStr "DPED1")
  /\ scan_table (subCodeColIndex sheet_with_DSE_row) (newSubjectCode "6DSE-PE1 BYC")
       (body sheet_with_DSE_row)
     = (true, VStr "PHED").
Proof.
  split; [|reflexivity].
  apply (C2_dse_override_first sheet_with_DSE_row "6DSE-PE1 BYC" (VStr "DPED1"));
    reflexivity.
Defined.

Lemma M2_candidate (groupingVal p0 p1 : string) :
  parts_of groupingVal = [p0; p1] -> drop_leading_digits p0 = "M2" ->
  newSubjectCode groupingVal = "M2".
Proof.
  intros Hparts Hp0. unfold newSubjectCode, extracted. now rewrite Hparts, Hp0.
Qed.

(** C6, as the code has it: for a grouping of two tokens whose first token
    without its leading digits is "M2", the special case fires and the
    resolver answers sub_code "DMA21" whatever the reference sheet holds;
    it answers no subject_code: [main] looks one up under "DMA21" in the
    reference table, and has none when the table has no such row. *)
Theorem C6_M2_special_case (t : sheet) (groupingVal p0 p1 : string) :
  parts_of groupingVal = [p0; p1] ->
  drop_leading_digits p0 = "M2" ->
  resolve t groupingVal = (true, VStr "DMA21")
  /\ forall codes : gmap string value,
       StudentProfile.subject_code_of codes (matchedSubCodeVal t groupingVal)
       = match codes !! "DMA21" with Some v => v | None => VNull end.
Proof.
  intros Hparts Hp0.
  assert (Hres : resolve t groupingVal = (true, VStr "DMA21")).
  { unfold resolve. rewrite (M2_candidate _ _ _ Hparts Hp0).
    now rewrite andb_false_r. }
  split; [exact Hres|]. intros codes.
  unfold matchedSubCodeVal. rewrite Hres. cbn [snd].
  unfold StudentProfile.subject_code_of, has_own, obj_get. cbn [to_string].
  now destruct (codes !! "DMA21").
Qed.

Lemma C6_M2_special_case_witness :
  resolve sheet_with_DSE_row "4M2 SUW" = (true, VStr "DMA21").
Proof.
  refine (proj1 (C6_M2_special_case sheet_with_DSE_row "4M2 SUW" "4M2" "SUW" _ _));
    reflexivity.
Defined.

(** C6 as stated fails: the resolver answers "DMA21" alone, and the
    subject_code found for it downstream is the reference table's: none
    with the table below, which has no row for "DMA21", and "MATHX" with a
    table that says so. *)
Lemma C6_counterexample :
  resolve sheet_with_DSE_row "4M2 SUW" = (true, VStr "DMA21")
  /\ StudentProfile.subject_code_of (StudentProfile.subCodeMap table_ENN1_CHN1)
       (matchedSubCodeVal sheet_with_DSE_row "4M2 SUW") <> VStr "DMATH2"
  /\ or_else (obj_get (UpdateStudentProfiles.subSubjectMapping table_ENN1_CHN1) "DMA21")
       (VStr "") <> VStr "DMATH2"
  /\ StudentProfile.subject_code_of
       (StudentProfile.subCodeMap [[("sub_code", VStr "DMA21"); ("subject_code", VStr "MATHX")]])
       (matchedSubCodeVal sheet_with_DSE_row "4M2 SUW") = VStr "MATHX".
Proof. repeat split; vm_compute; discriminate. Qed.
End Resolver.

(** ** More on rows and text *)
Lemma row_get_set_same (r : row) (col : string) (v : value) :
  row_get (row_set r col v) col = v.
Proof.
  induction r as [|[k w] r IH]; cbn [row_set row_get].
  - now rewrite String.eqb_refl.
  - destruct (k =? col) eqn:E; cbn [row_get]; rewrite E; [reflexivity | exact IH].
Qed.

Lemma row_get_set_other (r : row) (col col' : string) (v : value) :
  col' <> col -> row_get (row_set r col v) col' = row_get r col'.
Proof.
  intros Hne. induction r as [|[k w] r IH]; cbn [row_set row_get].
  - destruct (String.eqb_spec col col'); [congruence | reflexivity].
  - destruct (String.eqb_spec k col) as [->|Hk]; cbn [row_get].
    + destruct (String.eqb_spec col col'); [congruence | reflexivity].
    + destruct (k =? col'); [reflexivity | exact IH].
Qed.

Lemma starts_with_D (s : string) :
  startsWith s "D" || startsWith s "d" = startsWith (toUpperCase s) "D".
Proof.
  destruct s as [|c r]; [reflexivity|].
  unfold startsWith. cbn [toUpperCase map_string is_prefix]. rewrite !andb_true_r.
  destruct c as [[] [] [] [] [] [] [] []]; reflexivity.
Qed.

Section VerificationMore.
Import VerifyUserProfiles Spec.

Lemma table_absent (m : gmap string value) (k : string) :
  m !! toUpperCase k = None -> truthy (obj_get m (toUpperCase k)) = false.
Proof. intros H. unfold obj_get. now rewrite H, toUpperCase_not_inherited. Qed.

(** What first-level verification can do to a row. *)
Lemma first_level_cases (r : row) :
  snd (firstLevelVerification r) = r
  \/ exists v, firstLevelSubCodeMapping !! toUpperCase (read_sub_code r) = Some v
               /\ fst (firstLevelVerification r) = true
               /\ snd (firstLevelVerification r) = row_set r "sub_code" v.
Proof.
  unfold firstLevelVerification, first_level_override, obj_get.
  destruct (firstLevelSubCodeMapping !! toUpperCase (read_sub_code r)) as [v|] eqn:E.
  - assert (Hv : truthy v = true).
    { apply literal_lookup in E as (s & -> & Hin).
      repeat (destruct Hin as [[= _ <-]|Hin]; [reflexivity|]). destruct Hin. }
    rewrite Hv.
    destruct (extractClassNumber _); [destruct (negb _)|]; cbn [fst snd];
      solve [now left | right; exists v; repeat split].
  - rewrite toUpperCase_not_inherited. cbn [truthy].
    destruct (extractClassNumber _); [destruct (negb _)|]; cbn [snd]; auto.
Qed.

Lemma second_level_cases (r : row) :
  (secondLevelVerification r = r
   /\ secondLevelSubCodeMapping !! toUpperCase (read_sub_code r) = None)
  \/ exists v, secondLevelSubCodeMapping !! toUpperCase (read_sub_code r) = Some v
               /\ secondLevelVerification r = row_set r "sub_code" v.
Proof.
  unfold secondLevelVerification, obj_get.
  destruct (secondLevelSubCodeMapping !! toUpperCase (read_sub_code r)) as [v|] eqn:E.
  - assert (Hv : truthy v = true).
    { apply literal_lookup in E as (s & -> & Hin).
      repeat (destruct Hin as [[= _ <-]|Hin]; [reflexivity|]). destruct Hin. }
    rewrite Hv. right. exists v. now split.
  - rewrite toUpperCase_not_inherited. cbn [truthy]. now left.
Qed.

Lemma read_after_set (r : row) (s : string) :
  read_sub_code (row_set r "sub_code" (VStr s)) = trim (if s =? "" then "" else s).
Proof.
  unfold read_sub_code. rewrite row_get_set_same. unfold or_else. cbn [truthy].
  now destruct (s =? "").
Qed.

Lemma script_rows (data : list row) :
  fst (script data)
  = map (fun r => secondLevelVerification (snd (firstLevelVerification r))) data.
Proof. unfold script. now rewrite first_pass_spec, second_pass_spec, map_map. Qed.

Lemma first_level_frame (r : row) (col : string) :
  col <> "sub_code" -> row_get (snd (firstLevelVerification r)) col = row_get r col.
Proof.
  intros Hne. destruct (first_level_cases r) as [->|(v & _ & _ & ->)]; [reflexivity|].
  now apply row_get_set_other.
Qed.

Lemma second_level_frame (r : row) (col : string) :
  col <> "sub_code" -> row_get (secondLevelVerification r) col = row_get r col.
Proof.
  intros Hne. destruct (second_level_cases r) as [[-> _]|(v & _ & ->)]; [reflexivity|].
  now apply row_get_set_other.
Qed.

(** X1. The verification script writes as many rows as it read, and no cell of
    a row but its sub_code is changed by either pass. *)
Theorem X1_verification_changes_sub_code_only (data : list row) :
  length (fst (script data)) = length data
  /\ Forall2
       (fun r r' => forall col, col <> "sub_code" -> row_get r' col = row_get r col)
       data (fst (script data)).
Proof.
  rewrite script_rows. split; [apply length_map|].
  induction data as [|r data IH]; cbn [map]; constructor; [|exact IH].
  intros col Hne. now rewrite second_level_frame, first_level_frame.
Qed.

Lemma X1_verification_changes_sub_code_only_witness :
  row_get (hd [] (fst (script [[("user", VStr "ABE"); ("sub_code", VStr "dma11");
                                ("class", VStr "2B MATHS ABE")]]))) "class"
  = VStr "2B MATHS ABE".
Proof.
  destruct (X1_verification_changes_sub_code_only
              [[("user", VStr "ABE"); ("sub_code", VStr "dma11");
                ("class", VStr "2B MATHS ABE")]]) as [_ Hframe].
  inversion Hframe as [|r r' ? ? Hrow]; subst.
  apply (Hrow "class"). discriminate.
Defined.

(** X2. A row with a class number that first-level verification finds invalid
    and whose sub_code is a key of the first-level table passes the check
    once the override has been applied. *)
Theorem X2_override_makes_the_row_valid (r : row) (n : Z) :
  extractClassNumber (row_get r "class") = Some n ->
  fst (firstLevelVerification r) = true ->
  firstLevelSubCodeMapping !! toUpperCase (read_sub_code r) <> None ->
  fst (firstLevelVerification (snd (firstLevelVerification r))) = false.
Proof.
  intros Hclass Hinv Hkey.
  destruct (firstLevelSubCodeMapping !! toUpperCase (read_sub_code r)) as [v|] eqn:E;
    [clear Hkey | congruence].
  assert (Hleft : snd (firstLevelVerification r) = row_set r "sub_code" v).
  { unfold firstLevelVerification in *. rewrite Hclass in *.
    destruct (negb _); [|discriminate]. cbn [snd].
    unfold first_level_override, obj_get. rewrite E.
    apply literal_lookup in E as (s & -> & Hin).
    repeat (destruct Hin as [[= _ <-]|Hin]; [reflexivity|]). destruct Hin. }
  rewrite Hleft.
  assert (HD : startsWith (read_sub_code r) "D" || startsWith (read_sub_code r) "d"
               = startsWith (toUpperCase (read_sub_code r)) "D") by apply starts_with_D.
  unfold firstLevelVerification in Hinv |- *.
  rewrite row_get_set_other by discriminate. rewrite Hclass in *.
  apply literal_lookup in E as (s & -> & Hin).
  rewrite read_after_set.
  repeat (destruct Hin as [[= Hk <-]|Hin];
          [rewrite <- Hk in HD; rewrite HD in Hinv; cbn in Hinv |- *;
           destruct (n <=? 3)%Z; cbn in Hinv |- *; solve [reflexivity | discriminate] |]).
  destruct Hin.
Qed.

Lemma X2_override_makes_the_row_valid_witness :
  fst (firstLevelVerification
         (snd (firstLevelVerification [("class", VStr "5C"); ("sub_code", VStr " chn1 ")])))
  = false.
Proof.
  apply (X2_override_makes_the_row_valid
           [("class", VStr "5C"); ("sub_code", VStr " chn1 ")] 5); [reflexivity.. | discriminate].
Defined.

(** A sub_code written by either table is a key of neither. *)
Lemma written_is_no_key (m : gmap string value) (k : string) (v : value) (r : row) :
  m = firstLevelSubCodeMapping \/ m = secondLevelSubCodeMapping ->
  m !! k = Some v ->
  firstLevelSubCodeMapping !! toUpperCase (read_sub_code (row_set r "sub_code" v)) = None
  /\ secondLevelSubCodeMapping !! toUpperCase (read_sub_code (row_set r "sub_code" v)) = None.
Proof.
  intros [-> | ->] E; apply literal_lookup in E as (s & -> & Hin); rewrite read_after_set;
    repeat (destruct Hin as [[= _ <-]|Hin]; [split; reflexivity|]); destruct Hin.
Qed.

Lemma first_level_no_key (r : row) :
  firstLevelSubCodeMapping !! toUpperCase (read_sub_code r) = None ->
  snd (firstLevelVerification r) = r.
Proof.
  intros H. destruct (first_level_cases r) as [E|(v & E & _)]; [exact E | congruence].
Qed.

Lemma second_level_no_key (r : row) :
  secondLevelSubCodeMapping !! toUpperCase (read_sub_code r) = None ->
  secondLevelVerification r = r.
Proof.
  intros H. destruct (second_level_cases r) as [[E _]|(v & E & _)]; [exact E | congruence].
Qed.

(** X3. Running the verification script on the rows it wrote changes none of
    them: no sub_code either table writes is a key of either table. *)
Theorem X3_verification_is_idempotent (data : list row) :
  fst (script (fst (script data))) = fst (script data).
Proof.
  rewrite !script_rows, map_map. apply map_ext. intros r.
  set (r1 := snd (firstLevelVerification r)).
  destruct (second_level_cases r1) as [[E2 N2]|(v2 & K2 & E2)]; rewrite E2.
  - assert (E1 : snd (firstLevelVerification r1) = r1).
    { subst r1. destruct (first_level_cases r) as [E|(v1 & K1 & _ & E)].
      - rewrite E. exact E.
      - rewrite E. apply first_level_no_key.
        now apply (written_is_no_key _ _ _ r (or_introl eq_refl) K1). }
    rewrite E1. exact E2.
  - destruct (written_is_no_key _ _ _ r1 (or_intror eq_refl) K2) as [N1 N2'].
    rewrite (first_level_no_key _ N1). now apply second_level_no_key.
Qed.
End VerificationMore.

(** ** More on the deferred store *)
Section StoreMore.
Import StudentProfile Spec.

Lemma strict_eq_text (t : string) (v : value) : strict_eq (VStr t) v = true <-> v = VStr t.
Proof.
  destruct v; cbn [strict_eq]; try (split; [discriminate | intros [=]]).
  rewrite String.eqb_eq. split; [now intros -> | now intros [= ->]].
Qed.

Lemma search_entries_some (entries : list info) (subject : string) (teacher : value) (e : info) :
  search_entries entries subject teacher = Some e ->
  In e entries /\ i_subject e = subject /\ teacher = VStr (i_teacher e).
Proof.
  induction entries as [|x entries IH]; cbn [search_entries]; [discriminate|].
  destruct (_ && _) eqn:E.
  - intros [= <-]. apply andb_true_iff in E as [Hs Ht].
    apply String.eqb_eq in Hs. apply strict_eq_text in Ht. repeat split; auto. now left.
  - intros H. destruct (IH H) as (Hin & Hs & Ht). repeat split; auto. now right.
Qed.

Lemma search_entries_none (entries : list info) (subject : string) (teacher : value) :
  search_entries entries subject teacher = None ->
  forall e, In e entries -> i_subject e = subject -> teacher <> VStr (i_teacher e).
Proof.
  induction entries as [|x entries IH]; cbn [search_entries]; [intros _ e []|].
  destruct (_ && _) eqn:E; [discriminate|].
  intros H e [<-|Hin] Hs Ht.
  - rewrite Hs, String.eqb_refl in E. cbn [andb] in E.
    apply (proj2 (strict_eq_text _ _)) in Ht. congruence.
  - exact (IH H e Hin Hs Ht).
Qed.

Lemma searchMissingInfo_spec (m : store) (form cls : value)
    (subject : string) (teacher : value) :
  let qualifies (group : string) (e : info) :=
    charAt0 group = to_string form /\ includes group (to_string cls) = true
    /\ i_subject e = subject /\ teacher = VStr (i_teacher e) in
  (forall e, searchMissingInfo m form cls subject teacher = Some e ->
             exists group entries, In (group, entries) m /\ In e entries /\ qualifies group e)
  /\ (searchMissingInfo m form cls subject teacher = None <->
      forall group entries e, In (group, entries) m -> In e entries -> ~ qualifies group e).
Proof.
  intros qualifies. subst qualifies. cbn beta.
  induction m as [|[group entries] m [IHs IHn]]; cbn [searchMissingInfo].
  - split; [discriminate|]. split; [intros _ ? ? ? [] | reflexivity].
  - destruct (_ && _) eqn:Hb.
    + apply andb_true_iff in Hb as [Hf Hc]. apply String.eqb_eq in Hf.
      destruct (search_entries entries subject teacher) as [e0|] eqn:Hs.
      * split.
        -- intros e [= <-]. apply search_entries_some in Hs as (Hin & Hsub & Ht).
           exists group, entries. repeat split; auto. now left.
        -- split; [discriminate|]. intros Hno. exfalso.
           apply search_entries_some in Hs as (Hin & Hsub & Ht).
           apply (Hno group entries e0); [now left | assumption | repeat split; auto].
      * split.
        -- intros e He. destruct (IHs e He) as (g & es & Hin & Hrest).
           exists g, es. split; [now right | exact Hrest].
        -- rewrite IHn. split.
           ++ intros Hno g es e [[= <- <-]|Hin] He Hq.
              ** destruct Hq as (_ & _ & Hsub & Ht).
                 exact (search_entries_none _ _ _ Hs e He Hsub Ht).
              ** exact (Hno g es e Hin He Hq).
           ++ intros Hno g es e Hin. apply Hno. now right.
    + split.
      * intros e He. destruct (IHs e He) as (g & es & Hin & Hrest).
        exists g, es. split; [now right | exact Hrest].
      * rewrite IHn. split.
        -- intros Hno g es e [[= <- <-]|Hin] He Hq.
           ++ destruct Hq as (Hf & Hc & _).
              apply String.eqb_eq in Hf. rewrite Hf, Hc in Hb. discriminate.
           ++ exact (Hno g es e Hin He Hq).
        -- intros Hno g es e Hin. apply Hno. now right.
Qed.

(** X4. [searchMissingInfo] answers with a stored entry of a bucket whose key
    begins with the form and contains the class letter, and whose subject
    and teacher are those asked for; it answers nothing only when the store
    holds no such entry. *)
Theorem X4_search_finds_a_qualifying_entry (m : store) (form cls : value)
    (subject : string) (teacher : value) :
  let qualifies (group : string) (e : info) :=
    charAt0 group = to_string form /\ includes group (to_string cls) = true
    /\ i_subject e = subject /\ teacher = VStr (i_teacher e) in
  (forall e, searchMissingInfo m form cls subject teacher = Some e ->
             exists group entries, In (group, entries) m /\ In e entries /\ qualifies group e)
  /\ (searchMissingInfo m form cls subject teacher = None <->
      forall group entries e, In (group, entries) m -> In e entries -> ~ qualifies group e).
Proof. exact (searchMissingInfo_spec m form cls subject teacher). Qed.

Lemma X4_search_finds_a_qualifying_entry_witness :
  exists group entries,
    In (group, entries) Samples.store_3MJPW4
    /\ In {| i_group := "3MJPW4"; i_subject := "CHI"; i_teacher := "NEW";
             i_sub_code := VStr "CHN1" |} entries
    /\ charAt0 group = "3" /\ includes group "J" = true
    /\ "CHI" = "CHI" /\ VStr "NEW" = VStr "NEW".
Proof.
  apply (proj1 (X4_search_finds_a_qualifying_entry Samples.store_3MJPW4
                  (VNum 3) (VStr "J") "CHI" (VStr "NEW"))).
  reflexivity.
Defined.

(** *** Adding to the store *)
Lemma store_get_push (m : store) (g g' : string) (e : info) :
  store_get (store_push m g e) g'
  = if (g =? g') && store_has m g then store_get m g' ++ [e] else store_get m g'.
Proof.
  induction m as [|[k es] m IH]; cbn [store_push store_get store_has].
  - now rewrite andb_false_r.
  - destruct (String.eqb_spec k g) as [->|Hk]; cbn [store_get orb].
    + rewrite andb_true_r. destruct (String.eqb_spec g g') as [->|Hg]; [reflexivity|].
      reflexivity.
    + destruct (String.eqb_spec k g') as [->|Hk'].
      * destruct (String.eqb_spec g g') as [->|_]; [congruence | reflexivity].
      * exact IH.
Qed.

Lemma store_has_snoc (m : store) (g g' : string) (es : list info) :
  store_has (m ++ [(g, es)]) g' = store_has m g' || (g =? g').
Proof.
  induction m as [|[k es'] m IH]; cbn [app store_has]; [now rewrite orb_false_r|].
  now rewrite IH, orb_assoc.
Qed.

Lemma store_get_snoc (m : store) (g g' : string) :
  store_get (m ++ [(g, [])]) g' = store_get m g'.
Proof.
  induction m as [|[k es'] m IH]; cbn [app store_get].
  - now destruct (g =? g').
  - destruct (k =? g'); [reflexivity | exact IH].
Qed.

Lemma store_keys_push (m : store) (g : string) (e : info) :
  map fst (store_push m g e) = map fst m.
Proof.
  induction m as [|[k es] m IH]; cbn [store_push map fst]; [reflexivity|].
  destruct (k =? g); cbn [map fst]; [reflexivity | now rewrite IH].
Qed.

Lemma store_has_keys (m : store) (g : string) : store_has m g = true <-> In g (map fst m).
Proof.
  induction m as [|[k es] m IH]; cbn [store_has map fst In]; [easy|].
  rewrite orb_true_iff, String.eqb_eq, IH. tauto.
Qed.

(** X5. [store_add] appends the entry to the bucket of its group, making the
    bucket when the group is new, and touches no other bucket; the keys
    stay distinct and keep the order in which they were first added. *)
Theorem X5_store_add_appends (m : store) (g : string) (e : info) :
  store_get (store_add m g e) g = store_get m g ++ [e]
  /\ (forall g', g' <> g -> store_get (store_add m g e) g' = store_get m g')
  /\ map fst (store_add m g e) = (if store_has m g then map fst m else map fst m ++ [g])
  /\ (List.NoDup (map fst m) -> List.NoDup (map fst (store_add m g e))).
Proof.
  unfold store_add. split; [|split; [|split]].
  - rewrite store_get_push, String.eqb_refl. cbn [andb].
    destruct (store_has m g) eqn:H; cbn [negb]; [now rewrite H|].
    now rewrite store_has_snoc, String.eqb_refl, orb_true_r, store_get_snoc.
  - intros g' Hne. rewrite store_get_push.
    destruct (String.eqb_spec g g') as [->|_]; [congruence|]. cbn [andb].
    destruct (store_has m g); cbn [negb]; [reflexivity | apply store_get_snoc].
  - rewrite store_keys_push. destruct (store_has m g); cbn [negb]; [reflexivity|].
    now rewrite map_app.
  - intros Hnd. rewrite store_keys_push. destruct (store_has m g) eqn:H; cbn [negb]; [exact Hnd|].
    rewrite map_app. apply List.NoDup_app; [exact Hnd | repeat constructor; cbn; tauto |].
    intros k Hk [Hgk|[]]. subst k. apply (proj2 (store_has_keys m g)) in Hk. congruence.
Qed.

Lemma X5_store_add_appends_witness :
  List.NoDup
    (map fst (store_add Samples.store_3MJPW4 "4MJPWT5"
                {| i_group := "4MJPWT5"; i_subject := "MATHS"; i_teacher := "SUW";
                   i_sub_code := VStr "DMA11" |})).
Proof.
  apply (X5_store_add_appends Samples.store_3MJPW4 "4MJPWT5").
  repeat constructor; cbn; tauto.
Defined.

Lemma store_push_In (m : store) (g : string) (e : info) :
  store_has m g = true ->
  exists entries, In (g, entries) (store_push m g e) /\ In e entries.
Proof.
  induction m as [|[k es] m IH]; cbn [store_has store_push]; [discriminate|].
  destruct (String.eqb_spec k g) as [->|Hk]; cbn [orb].
  - intros _. exists (es ++ [e]). split; [now left | apply in_or_app; right; now left].
  - intros H. destruct (IH H) as (entries & Hin & He). exists entries. split; [now right | exact He].
Qed.

Lemma store_add_In (m : store) (g : string) (e : info) :
  exists entries, In (g, entries) (store_add m g e) /\ In e entries.
Proof.
  unfold store_add. apply store_push_In.
  destruct (store_has m g) eqn:H; cbn [negb]; [exact H|].
  now rewrite store_has_snoc, String.eqb_refl, orb_true_r.
Qed.

Lemma store_push_keeps (m : store) (g : string) (e : info) (g0 : string)
    (es0 : list info) (e0 : info) :
  In (g0, es0) m -> In e0 es0 ->
  exists es, In (g0, es) (store_push m g e) /\ In e0 es.
Proof.
  induction m as [|[k es] m IH]; cbn [store_push]; [intros []|].
  intros [[= -> ->]|Hin] He.
  - destruct (g0 =? g).
    + exists (es0 ++ [e]). split; [now left | apply in_or_app; now left].
    + exists es0. split; [now left | exact He].
  - destruct (k =? g).
    + exists es0. split; [now right | exact He].
    + destruct (IH Hin He) as (es' & Hin' & He'). exists es'. split; [now right | exact He'].
Qed.

Lemma store_add_keeps (m : store) (g : string) (e : info) (g0 : string)
    (es0 : list info) (e0 : info) :
  In (g0, es0) m -> In e0 es0 ->
  exists es, In (g0, es) (store_add m g e) /\ In e0 es.
Proof.
  intros Hin He. unfold store_add. apply (store_push_keeps _ g e g0 es0 e0); [|exact He].
  destruct (negb (store_has m g)); [apply in_or_app; now left | exact Hin].
Qed.

(** What is stored stays stored while the user rows are read. *)
Lemma deferring_keeps (classListData userData : list row) :
  forall (m : store) (g0 : string) (es0 : list info) (e0 : info),
    In (g0, es0) m -> In e0 es0 ->
    exists es,
      In (g0, es)
        (fold_left
           (fun m r =>
              if is_deferred classListData r
              then store_add m (i_group (deferred_entry r)) (deferred_entry r)
              else m)
           userData m)
      /\ In e0 es.
Proof.
  induction userData as [|r rows IH]; intros m g0 es0 e0 Hin He; cbn [fold_left].
  - now exists es0.
  - destruct (is_deferred classListData r); [|now apply (IH m g0 es0 e0)].
    destruct (store_add_keeps m (i_group (deferred_entry r)) (deferred_entry r) g0 es0 e0
                Hin He) as (es1 & Hin1 & He1).
    now apply (IH _ g0 es1 e0).
Qed.

(** The entry of a deferred row is in the store the passes search. *)
Lemma deferred_store_In (classListData userData : list row) (r : row) :
  In r userData -> is_deferred classListData r = true ->
  exists es,
    In (i_group (deferred_entry r), es) (deferred_store classListData userData)
    /\ In (deferred_entry r) es.
Proof.
  unfold deferred_store. generalize (@nil (string * list info)).
  induction userData as [|x rows IH]; intros m; [intros []|].
  intros [<-|Hin] Hdef; cbn [fold_left].
  - rewrite Hdef.
    destruct (store_add_In m (i_group (deferred_entry x)) (deferred_entry x))
      as (es & Hes & He).
    exact (deferring_keeps classListData rows _ _ es _ Hes He).
  - now apply IH.
Qed.

(** The record a recovery pass builds from the entry [e] for the row [cr]. *)
Lemma recovered_found (subject : string) (codes : gmap string value) (m : store)
    (cr : row) (group : string) (entries : list info) (e0 : info) :
  In (group, entries) m -> In e0 entries ->
  charAt0 group = to_string (row_get cr "Form") ->
  includes group (to_string (row_get cr "Class")) = true ->
  i_subject e0 = subject ->
  row_get cr subject = VStr (i_teacher e0) ->
  exists e,
    searchMissingInfo m (row_get cr "Form") (row_get cr "Class") subject
      (VStr (i_teacher e0)) = Some e
    /\ (exists g es, In (g, es) m /\ In e es)
    /\ i_subject e = subject /\ i_teacher e = i_teacher e0
    /\ recovered subject codes m cr
       = [ {| tsss_id := row_get cr "TSSSID";
              a_year := "2025/2026"; terms := "Term 1";
              sub_code := i_sub_code e;
              subject_code := subject_code_of codes (i_sub_code e);
              taking := "TRUE"; self_taking := "FALSE";
              grouping := i_group e ++ " " ++ subject ++ " " ++ i_teacher e0;
              grouping_real := i_group e ++ " " ++ subject ++ " " ++ i_teacher e0 |} ].
Proof.
  intros Hin He Hform Hcls Hsubj Hcol.
  destruct (searchMissingInfo m (row_get cr "Form") (row_get cr "Class") subject
              (VStr (i_teacher e0))) as [e|] eqn:Hs.
  - destruct (proj1 (searchMissingInfo_spec _ _ _ _ _) e Hs)
      as (g & es & Hg & Hes & _ & _ & Hsub & Ht).
    injection Ht as Ht. exists e. split; [reflexivity|]. split; [now exists g, es|].
    split; [exact Hsub|]. split; [now symmetry|].
    unfold recovered. rewrite Hcol, Hs, Hsub, <- Ht. reflexivity.
  - exfalso.
    apply (proj1 (proj2 (searchMissingInfo_spec _ _ _ _ _)) Hs group entries e0 Hin He).
    repeat split; assumption.
Qed.

(** X6. A stored entry is recovered.  In any state whose store holds an
    entry under a group, a class-list row whose Form is the first character
    of the group, whose Class occurs in the group and whose column for the
    subject of the entry holds its teacher gets one record from
    [recover_row], built from a stored entry with that subject and teacher.
    And in [main]: a user row that is eligible and finds no class is still
    stored when all user rows are read, and for such a class-list row and
    one of the subjects CHI, MATHS, RSE and ENG the records written hold
    the record of that row, with the grouping made of the stored group,
    the subject and the teacher. *)
Theorem X6_deferred_row_is_recovered :
  (forall (codes : gmap string value) (st : state) (cr : row) (group : string)
          (entries : list info) (e0 : info),
      In (group, entries) (missingInfoMap st) -> In e0 entries ->
      charAt0 group = to_string (row_get cr "Form") ->
      includes group (to_string (row_get cr "Class")) = true ->
      row_get cr (i_subject e0) = VStr (i_teacher e0) ->
      exists e,
        searchMissingInfo (missingInfoMap st) (row_get cr "Form") (row_get cr "Class")
          (i_subject e0) (VStr (i_teacher e0)) = Some e
        /\ i_subject e = i_subject e0 /\ i_teacher e = i_teacher e0
        /\ missingInfoMap (recover_row (i_subject e0) codes st cr) = missingInfoMap st
        /\ outputRows (recover_row (i_subject e0) codes st cr)
           = outputRows st
             ++ [ {| tsss_id := row_get cr "TSSSID";
                     a_year := "2025/2026"; terms := "Term 1";
                     sub_code := i_sub_code e;
                     subject_code := subject_code_of codes (i_sub_code e);
                     taking := "TRUE"; self_taking := "FALSE";
                     grouping := i_group e ++ " " ++ i_subject e0 ++ " " ++ i_teacher e0;
                     grouping_real :=
                       i_group e ++ " " ++ i_subject e0 ++ " " ++ i_teacher e0 |} ])
  /\ (forall (userData tableData classListData : list row) (r cr : row)
             (text subject : string),
         In r userData ->
         row_get r "class" = VStr text ->
         isEligibleClass (VStr text) = true ->
         matchingClassRows classListData (extractFormClass (VStr text)) = [] ->
         let group := token (split_ws (trim text)) 0 in
         let teacher := token (split_ws (trim text)) 2 in
         token (split_ws (trim text)) 1 = subject ->
         In subject ["CHI"; "MATHS"; "RSE"; "ENG"] ->
         In cr classListData ->
         charAt0 group = to_string (row_get cr "Form") ->
         includes group (to_string (row_get cr "Class")) = true ->
         row_get cr subject = VStr teacher ->
         (exists es,
             In (group, es) (deferred_store classListData userData)
             /\ In {| i_group := group; i_subject := subject; i_teacher := teacher;
                      i_sub_code := row_get r "sub_code" |} es)
         /\ exists e,
             (exists g es, In (g, es) (deferred_store classListData userData) /\ In e es)
             /\ i_subject e = subject /\ i_teacher e = teacher
             /\ In {| tsss_id := row_get cr "TSSSID";
                      a_year := "2025/2026"; terms := "Term 1";
                      sub_code := i_sub_code e;
                      subject_code := subject_code_of (subCodeMap tableData) (i_sub_code e);
                      taking := "TRUE"; self_taking := "FALSE";
                      grouping := i_group e ++ " " ++ subject ++ " " ++ teacher;
                      grouping_real := i_group e ++ " " ++ subject ++ " " ++ teacher |}
                  (fst (main userData tableData classListData))).
Proof.
  split.
  - intros codes st cr group entries e0 Hin He Hform Hcls Hcol.
    destruct (recovered_found (i_subject e0) codes (missingInfoMap st) cr group entries e0
                Hin He Hform Hcls eq_refl Hcol) as (e & Hs & _ & Hsub & Ht & Hrec).
    exists e. split; [exact Hs|]. split; [exact Hsub|]. split; [exact Ht|].
    destruct (recover_row_spec (i_subject e0) codes st cr) as (Hm & _ & Ho).
    cbn zeta in Hm, Ho. split; [exact Hm|]. now rewrite Ho, Hrec.
  - intros userData tableData classListData r cr text subject Hr Hclass Hel Hnone
           group teacher Hsubj Hsubject Hcr Hform Hcls Hcol.
    assert (Hdef : is_deferred classListData r = true).
    { unfold is_deferred, finds_class. now rewrite Hclass, Hel, Hnone. }
    assert (Hentry : deferred_entry r
                     = {| i_group := group; i_subject := subject; i_teacher := teacher;
                          i_sub_code := row_get r "sub_code" |}).
    { unfold deferred_entry. rewrite Hclass. cbn [to_string]. now rewrite Hsubj. }
    destruct (deferred_store_In classListData userData r Hr Hdef) as (es & Hes & He).
    rewrite Hentry in Hes, He. cbn [i_group] in Hes.
    split; [now exists es|].
    destruct (recovered_found subject (subCodeMap tableData)
                (deferred_store classListData userData) cr group es _ Hes He Hform Hcls
                eq_refl Hcol) as (e & _ & Hstored & Hsub & Ht & Hrec).
    cbn [i_teacher] in Ht, Hrec.
    exists e. split; [exact Hstored|]. split; [exact Hsub|]. split; [exact Ht|].
    rewrite main_output_exact. unfold main_records.
    assert (Hone : In {| tsss_id := row_get cr "TSSSID";
                         a_year := "2025/2026"; terms := "Term 1";
                         sub_code := i_sub_code e;
                         subject_code := subject_code_of (subCodeMap tableData) (i_sub_code e);
                         taking := "TRUE"; self_taking := "FALSE";
                         grouping := i_group e ++ " " ++ subject ++ " " ++ teacher;
                         grouping_real := i_group e ++ " " ++ subject ++ " " ++ teacher |}
                     (flat_map (recovered subject (subCodeMap tableData)
                                  (deferred_store classListData userData)) classListData)).
    { apply in_flat_map. exists cr. split; [exact Hcr|]. rewrite Hrec. now left. }
    apply in_or_app. right.
    destruct Hsubject as [<-|[<-|[<-|[<-|[]]]]].
    + apply in_or_app. now left.
    + apply in_or_app. right. apply in_or_app. now left.
    + do 2 (apply in_or_app; right). apply in_or_app. now left.
    + do 3 (apply in_or_app; right). apply in_or_app. now left.
Qed.

Lemma X6_deferred_row_is_recovered_witness :
  exists e,
    i_subject e = "CHI" /\ i_teacher e = "NEW"
    /\ In {| tsss_id := VStr "S1";
             a_year := "2025/2026"; terms := "Term 1";
             sub_code := i_sub_code e;
             subject_code := subject_code_of (subCodeMap Samples.table_ENN1_CHN1) (i_sub_code e);
             taking := "TRUE"; self_taking := "FALSE";
             grouping := i_group e ++ " CHI NEW";
             grouping_real := i_group e ++ " CHI NEW" |}
         (fst (main Samples.user_rows_two_deferred Samples.table_ENN1_CHN1
                 Samples.class_list_3J)).
Proof.
  destruct (proj2 X6_deferred_row_is_recovered
              Samples.user_rows_two_deferred Samples.table_ENN1_CHN1 Samples.class_list_3J
              [("sub_code", VStr "CHN1"); ("class", VStr "3MJPW4 CHI NEW")]
              [("Form", VNum 3); ("Class", VStr "J"); ("TSSSID", VStr "S1"); ("CHI", VStr "NEW")]
              "3MJPW4 CHI NEW" "CHI")
    as (_ & e & _ & Hsub & Ht & Hin);
    try reflexivity; try (now left).
  exists e. split; [exact Hsub|]. split; [exact Ht|]. exact Hin.
Defined.
End StoreMore.

(** ** More on main *)
Section MainMore.
Import StudentProfile Spec.

Lemma record_fixed (a b c : value) (g : string) : fixed_fields (record a b c g).
Proof. repeat split. Qed.

Lemma process_user_row_fixed (classListData : list row) (codes : gmap string value)
    (st : state) (index : nat) (r : row) :
  Forall fixed_fields (outputRows st) ->
  Forall fixed_fields (outputRows (process_user_row classListData codes st index r)).
Proof.
  intros H. rewrite process_user_row_output. apply Forall_app. split; [exact H|].
  unfold user_row_records. destruct (isEligibleClass _); [|constructor].
  unfold emitted_for. apply List.Forall_forall. intros rec Hin.
  apply in_map_iff in Hin as (x & <- & _). repeat split.
Qed.

Lemma recover_row_fixed (subject : string) (codes : gmap string value) (st : state) (r : row) :
  Forall fixed_fields (outputRows st) ->
  Forall fixed_fields (outputRows (recover_row subject codes st r)).
Proof.
  intros H. unfold recover_row. destruct (searchMissingInfo _ _ _ _ _); [|exact H].
  cbn [push_output outputRows]. apply Forall_app. split; [exact H|].
  repeat constructor.
Qed.

Lemma m2_row_fixed (specific : list info) (st : state) (r : row) :
  Forall fixed_fields (outputRows st) ->
  Forall fixed_fields (outputRows (m2_row specific st r)).
Proof.
  intros H. unfold m2_row.
  destruct (_ && _); [|exact H]. destruct (find _ _); [|exact H].
  cbn [push_output outputRows]. apply Forall_app. split; [exact H|].
  repeat constructor.
Qed.

Lemma fold_left_invariant {S A : Type} (P : S -> Prop) (f : S -> A -> S) (l : list A) :
  (forall s a, P s -> P (f s a)) -> forall s, P s -> P (fold_left f l s).
Proof.
  intros Hf. induction l as [|a l IH]; intros s Hs; cbn [fold_left]; [exact Hs|].
  apply IH, Hf, Hs.
Qed.

Lemma process_user_rows_invariant (P : state -> Prop) (classListData : list row)
    (codes : gmap string value) (userData : list row) :
  (forall st index r, P st -> P (process_user_row classListData codes st index r)) ->
  forall st index, P st -> P (process_user_rows classListData codes st index userData).
Proof.
  intros Hf. induction userData as [|r rows IH]; intros st index Hs;
    cbn [process_user_rows]; [exact Hs|].
  apply IH, Hf, Hs.
Qed.

(** X7. Every record [main] writes has the year "2025/2026", the term
    "Term 1", taking "TRUE", self_taking "FALSE" and a grouping_real equal
    to its grouping, whichever pass emitted it. *)
Theorem X7_main_records_have_the_fixed_fields (userData tableData classListData : list row) :
  Forall fixed_fields (fst (main userData tableData classListData)).
Proof.
  unfold main. cbn [fst].
  apply (fold_left_invariant (fun st => Forall fixed_fields (outputRows st)));
    [intros; now apply m2_row_fixed|].
  do 4 (apply (fold_left_invariant (fun st => Forall fixed_fields (outputRows st)));
        [intros; now apply recover_row_fixed|]).
  apply (process_user_rows_invariant (fun st => Forall fixed_fields (outputRows st)));
    [intros; now apply process_user_row_fixed | constructor].
Qed.

(** *** The log of unprocessed rows *)
Lemma process_user_row_log (classListData : list row) (codes : gmap string value)
    (st : state) (index : nat) (r : row) :
  map rowNumber (unprocessedRows (process_user_row classListData codes st index r))
  = map rowNumber (unprocessedRows st)
    ++ (if finds_class classListData r then [] else [index + 2]).
Proof.
  unfold process_user_row, finds_class.
  destruct (isEligibleClass (row_get r "class")); cbn [negb andb].
  - destruct (matchingClassRows _ _); cbn [push_unprocessed push_output set_store unprocessedRows].
    + now rewrite map_app.
    + now rewrite app_nil_r.
  - cbn [push_unprocessed unprocessedRows]. now rewrite map_app.
Qed.

Lemma process_user_rows_log (classListData : list row) (codes : gmap string value)
    (userData : list row) :
  forall st index,
    map rowNumber (unprocessedRows (process_user_rows classListData codes st index userData))
    = map rowNumber (unprocessedRows st) ++ rows_left_out classListData index userData.
Proof.
  induction userData as [|r rows IH]; intros st index;
    cbn [process_user_rows rows_left_out].
  - now rewrite app_nil_r.
  - now rewrite IH, process_user_row_log, <- app_assoc.
Qed.

Lemma m2_row_log (specific : list info) (st : state) (r : row) :
  unprocessedRows (m2_row specific st r) = unprocessedRows st.
Proof.
  unfold m2_row.
  destruct (_ && _); [|reflexivity]. now destruct (find _ _).
Qed.

Lemma finds_class_records (classListData : list row) (codes : gmap string value) (r : row) :
  finds_class classListData r = true <-> user_row_records classListData codes r <> [].
Proof.
  unfold finds_class, user_row_records, emitted_for.
  destruct (isEligibleClass _); cbn [andb]; [|split; [discriminate | congruence]].
  destruct (matchingClassRows _ _) as [|x l] eqn:E; [split; [discriminate | now cbn]|].
  split; [|reflexivity]. intros _ H. apply map_eq_nil in H.
  apply (f_equal (@length row)) in H.
  rewrite (Permutation_length (sort_perm class_no_le (x :: l))) in H. discriminate.
Qed.

(** X8. The log [main] prints holds, in the order of the user rows, one entry
    with the sheet row number (position + 2) for each user row that is
    ineligible or finds no class, and nothing else: the recovery passes and
    the M2 pass log nothing, and a user row is logged exactly when it
    yields no record of its own. *)
Theorem X8_main_logs_the_rows_left_out (userData tableData classListData : list row) :
  map rowNumber (snd (main userData tableData classListData))
  = rows_left_out classListData 0 userData
  /\ forall r, finds_class classListData r = false
               <-> user_row_records classListData (subCodeMap tableData) r = [].
Proof.
  split.
  - unfold main. cbn [snd].
    match goal with
    | |- map rowNumber (unprocessedRows (fold_left ?f ?l ?s)) = _ =>
        assert (Hlog : unprocessedRows (fold_left f l s)
                       = unprocessedRows
                           (process_user_rows classListData (subCodeMap tableData)
                              initial 0 userData))
    end.
    { apply (fold_left_invariant
               (fun st => unprocessedRows st
                          = unprocessedRows
                              (process_user_rows classListData (subCodeMap tableData)
                                 initial 0 userData))).
      - intros st r Hst. now rewrite m2_row_log.
      - do 4 (match goal with
              | |- unprocessedRows (recovery_pass ?s ?c ?st ?l) = _ =>
                  destruct (recovery_pass_spec s c l st) as (_ & -> & _)
              end).
        reflexivity. }
    rewrite Hlog. now rewrite process_user_rows_log.
  - intros r. destruct (finds_class_records classListData (subCodeMap tableData) r) as [H1 H2].
    destruct (finds_class classListData r); split; intros H; try reflexivity.
    + discriminate.
    + exfalso. apply H1; [reflexivity | exact H].
    + destruct (user_row_records _ _ r); [reflexivity|]. discriminate H2. discriminate.
Qed.

Lemma X8_main_logs_the_rows_left_out_witness :
  user_row_records Samples.class_list_1A (subCodeMap Samples.table_ENN1_CHN1)
    [("sub_code", VStr "CHN1"); ("class", VStr "7A CHI NEW")] = [].
Proof.
  apply (proj2 (X8_main_logs_the_rows_left_out [] Samples.table_ENN1_CHN1 Samples.class_list_1A)).
  reflexivity.
Defined.

(** *** The M2 pass *)
Lemma missingSpecific_In (m : store) (e : info) :
  In e (missingSpecific m) <->
  exists group entries, In (group, entries) m /\ In e entries
                        /\ count_digits (i_group e) = 1%nat /\ i_subject e = "(M2)".
Proof.
  unfold missingSpecific. rewrite in_flat_map. split.
  - intros ([g es] & Hin & He). apply filter_In in He as [He Hb].
    apply andb_true_iff in Hb as [Hd Hs].
    apply Nat.eqb_eq in Hd. apply String.eqb_eq in Hs. exists g, es. auto.
  - intros (g & es & Hin & He & Hd & Hs). exists (g, es). split; [exact Hin|].
    apply filter_In. split; [exact He|].
    apply andb_true_iff. split; [now apply Nat.eqb_eq | now apply String.eqb_eq].
Qed.

(** X9. For a class-list row whose Form is the number [n], the M2 pass adds at
    most one record, and adds one exactly when [n] is above 3, the "M1&2"
    cell contains "M2" and the store holds an entry of subject "(M2)" with
    one digit in its group that begins with [n]; the record carries the
    fixed pair DMA21 / DMATH2 and the teacher of such an entry. *)
Theorem X9_m2_pass_record (m : store) (st : state) (r : row) (n : Z) :
  row_get r "Form" = VNum n ->
  let st' := m2_row (missingSpecific m) st r in
  let wanted (e : info) :=
    (exists group entries, In (group, entries) m /\ In e entries)
    /\ count_digits (i_group e) = 1%nat /\ i_subject e = "(M2)"
    /\ startsWith (i_group e) (string_of_Z n) = true in
  let asked :=
    (3 < n)%Z /\ truthy (row_get r "M1&2") = true
    /\ includes (to_string (row_get r "M1&2")) "M2" = true in
  (asked /\ (exists e, wanted e) ->
   exists e, wanted e
     /\ outputRows st'
        = outputRows st
          ++ [ {| tsss_id := row_get r "TSSSID";
                  a_year := "2025/2026"; terms := "Term 1";
                  sub_code := VStr "DMA21"; subject_code := VStr "DMATH2";
                  taking := "TRUE"; self_taking := "FALSE";
                  grouping := string_of_Z n ++ " (M2) " ++ i_teacher e;
                  grouping_real := string_of_Z n ++ " (M2) " ++ i_teacher e |} ])
  /\ (~ (asked /\ exists e, wanted e) -> outputRows st' = outputRows st).
Proof.
  intros Hform st' wanted asked. subst st'. unfold m2_row. rewrite Hform.
  cbn [to_number number_gtb number_to_string].
  destruct (find (fun e => startsWith (i_group e) (string_of_Z n)) (missingSpecific m))
    as [found|] eqn:Hfind.
  - apply find_some in Hfind as [Hin Hstart]. apply missingSpecific_In in Hin.
    assert (Hw : wanted found).
    { destruct Hin as (g & es & Hin & He & Hd & Hs). repeat split; eauto. }
    destruct ((3 <? n)%Z && truthy (row_get r "M1&2")
              && includes (to_string (row_get r "M1&2")) "M2") eqn:Hb.
    + split; [intros _; exists found; split; [exact Hw | reflexivity]|].
      intros Hno. exfalso. apply Hno.
      apply andb_true_iff in Hb as [Hb H3]. apply andb_true_iff in Hb as [H1 H2].
      apply Z.ltb_lt in H1. repeat split; eauto.
    + split; [|reflexivity]. intros [(H1 & H2 & H3) _].
      apply Z.ltb_lt in H1. now rewrite H1, H2, H3 in Hb.
  - split.
    + intros [_ (e & (g & es & Hin & He) & Hd & Hs & Hstart)]. exfalso.
      assert (Hnot : startsWith (i_group e) (string_of_Z n) = false).
      { apply (find_none _ _ Hfind e). apply missingSpecific_In. exists g, es. auto. }
      congruence.
    + intros _. now destruct (_ && _).
Qed.

Lemma X9_m2_pass_record_witness :
  outputRows
    (m2_row (missingSpecific Samples.store_with_M2) initial
       [("Form", VNum 4); ("Class", VStr "B"); ("TSSSID", VStr "S4"); ("M1&2", VStr "M2")])
  = [record (VStr "S4") (VStr "DMA21") (VStr "DMATH2") "4 (M2) SUW"].
Proof.
  destruct (X9_m2_pass_record Samples.store_with_M2 initial
              [("Form", VNum 4); ("Class", VStr "B"); ("TSSSID", VStr "S4"); ("M1&2", VStr "M2")]
              4 eq_refl) as [Hadd _].
  destruct Hadd as (e & _ & Hout).
  - split; [repeat split; reflexivity || lia|].
    exists {| i_group := "4"; i_subject := "(M2)"; i_teacher := "SUW"; i_sub_code := VStr "DMA21" |}.
    repeat split; try reflexivity. exists "4". eexists. split; [right; left; reflexivity | now left].
  - reflexivity.
Defined.
End MainMore.

(** ** What [Number] and [String] make of a Form cell *)
Lemma number_of_text_examples :
  map (fun s => number_to_string (string_to_number s))
    ["4"; " 4.0 "; "4e0"; "0x5"; ".4e1"; "4.5"; "1e21"; "1e23"; "3.0000000000000001";
     "1e400"; "-Infinity"; ""; "4,0"; "0x"]
  = ["4"; "4"; "4"; "5"; "4"; "4.5"; "1e+21"; "1e+23"; "3"; "Infinity"; "-Infinity"; "0";
     "NaN"; "NaN"]
  /\ map (fun s => number_gtb (string_to_number s) 3)
       ["4.0"; "3.0000000000000001"; "3.0000000000000005"; "1e400"; "-4"; "four"]
     = [true; false; true; true; false; false].
Proof. split; vm_compute; reflexivity. Qed.

(** The M2 pass reads a Form that is text as [Number] does: "4.0" and "0x4"
    are the form 4, "4.5" is not. *)
Lemma m2_pass_reads_text_forms :
  map grouping
    (flat_map (Spec.m2_records (StudentProfile.missingSpecific Samples.store_with_M2))
       [ [("Form", VStr " 4.0 "); ("TSSSID", VStr "S4"); ("M1&2", VStr "M2")];
         [("Form", VStr "0x4"); ("TSSSID", VStr "S5"); ("M1&2", VStr "M1 M2")];
         [("Form", VStr "4.5"); ("TSSSID", VStr "S6"); ("M1&2", VStr "M2")];
         [("Form", VStr "3"); ("TSSSID", VStr "S7"); ("M1&2", VStr "M2")] ])
  = ["4 (M2) SUW"; "4 (M2) SUW"].
Proof. vm_compute. reflexivity. Qed.

(** ** More on the resolver *)
Lemma is_prefix_refl (s : string) : is_prefix s s = true.
Proof. induction s as [|c s IH]; cbn [is_prefix]; [reflexivity|]. now rewrite Ascii.eqb_refl. Qed.

Lemma includes_refl (s : string) : includes s s = true.
Proof. destruct s; cbn [includes]; now rewrite is_prefix_refl. Qed.

Section ResolverMore.
Import UserProfile Spec.

Lemma scan_table_false (col : option nat) (code : string) (rows : list (list (option value))) :
  fst (scan_table col code rows) = false -> snd (scan_table col code rows) = VStr "".
Proof.
  induction rows as [|r rows IH]; cbn [scan_table]; [reflexivity|].
  destruct (strict_eq _ _); [discriminate|].
  destruct (cell_at r 1); try exact IH. destruct (includes _ _); [discriminate | exact IH].
Qed.

(** X10. A grouping that does not split into two or three tokens gives no
    candidate: nothing is matched and the sub_code written is empty; and
    whenever the resolver reports no match, the sub_code it writes is
    empty. *)
Theorem X10_no_candidate_no_sub_code (t : sheet) (groupingVal : string) :
  (length (parts_of groupingVal) <> 2%nat -> length (parts_of groupingVal) <> 3%nat ->
   resolve t groupingVal = (false, VStr ""))
  /\ (fst (resolve t groupingVal) = false -> matchedSubCodeVal t groupingVal = VStr "").
Proof.
  split.
  - intros H2 H3.
    assert (Hcode : newSubjectCode groupingVal = "").
    { unfold newSubjectCode, extracted.
      destruct (parts_of groupingVal) as [|a [|b [|c [|d l]]]]; cbn in H2, H3;
        try reflexivity; congruence. }
    unfold resolve. rewrite Hcode. now rewrite andb_false_r.
  - unfold matchedSubCodeVal, resolve.
    repeat match goal with
           | |- context [if ?b then _ else _] => destruct b; cbn [fst snd]; try discriminate
           end; try reflexivity.
    apply scan_table_false.
Qed.

Lemma X10_no_candidate_no_sub_code_witness :
  resolve Samples.sheet_with_DSE_row "6MJPWT2 MATHS SUW extra" = (false, VStr "").
Proof.
  apply (proj1 (X10_no_candidate_no_sub_code Samples.sheet_with_DSE_row
                  "6MJPWT2 MATHS SUW extra")); discriminate.
Defined.

(** X11. The scan of the reference sheet stops at the first row whose column B
    is text containing the candidate and takes that row's sub_code cell: a
    row that only contains the candidate wins over a later row that equals
    it. *)
Theorem X11_scan_takes_first_containing_row (col : option nat) (code : string)
    (rows : list (list (option value))) :
  scan_table col code rows
  = match find (names_code code) rows with
    | Some r => (true, match col with Some c => cell_at r c | None => VStr "" end)
    | None => (false, VStr "")
    end.
Proof.
  induction rows as [|r rows IH]; cbn [scan_table find]; [reflexivity|].
  unfold names_code at 1.
  destruct (cell_at r 1) as [| |b|n|k] eqn:Hb; cbn [strict_eq]; try exact IH.
  destruct (String.eqb_spec b code) as [->|Hne].
  - now rewrite includes_refl.
  - destruct (includes b code); [reflexivity | exact IH].
Qed.

Lemma sheet_row_cell (r : row) (col : string) :
  sheet_row r -> row_get r col = VUndefined \/ is_cell (row_get r col) = true.
Proof.
  induction 1 as [|[k v] r Hv _ IH]; cbn [row_get]; [now left|].
  destruct (k =? col); [now right | exact IH].
Qed.

Lemma resolve_row_throws (t : sheet) (r : row) :
  sheet_row r ->
  (resolve_row t r = None <-> exists n, n <> 0%Z /\ row_get r "grouping" = VNum n).
Proof.
  intros Hr. unfold resolve_row, or_else.
  destruct (sheet_row_cell r "grouping" Hr) as [->|Hc].
  - cbn. split; [discriminate | intros (n & _ & [=])].
  - destruct (row_get r "grouping") as [| |g|n|k]; try discriminate; cbn [truthy].
    + destruct (negb (g =? "")); (split; [discriminate | intros (n & _ & [=])]).
    + destruct (Z.eqb_spec n 0) as [->|Hn]; cbn [negb].
      * split; [discriminate | intros (n & Hn & [= <-]); congruence].
      * split; [intros _; now exists n | reflexivity].
Qed.

Lemma resolve_rows_length (t : sheet) (data rows : list row) :
  resolve_rows t data = Some rows -> length rows = length data.
Proof.
  revert rows. induction data as [|r data IH]; intros rows; cbn [resolve_rows].
  - now intros [= <-].
  - destruct (resolve_row t r); [|discriminate].
    destruct (resolve_rows t data) as [rest|]; [|discriminate].
    intros [= <-]. cbn [length]. now rewrite (IH rest eq_refl).
Qed.

(** X12. Part 4 fails, writing nothing, exactly when the grouping cell of some
    user-profile row is a number other than 0; otherwise it writes as many
    rows as it read. *)
Theorem X12_part4_fails_on_numeric_grouping (localeCompare : string -> string -> Z)
    (t : sheet) (userProfileData : list row) :
  Forall sheet_row userProfileData ->
  (part4 localeCompare t userProfileData = None <->
   Exists (fun r => exists n, n <> 0%Z /\ row_get r "grouping" = VNum n) userProfileData)
  /\ (forall out, part4 localeCompare t userProfileData = Some out ->
                  length out = length userProfileData).
Proof.
  intros Hrows. split.
  - unfold part4.
    assert (H : resolve_rows t userProfileData = None <->
                Exists (fun r => exists n, n <> 0%Z /\ row_get r "grouping" = VNum n)
                  userProfileData).
    { induction Hrows as [|r data Hr _ IH]; cbn [resolve_rows].
      - split; [discriminate | intros H; inversion H].
      - destruct (resolve_row t r) as [r'|] eqn:E.
        + destruct (resolve_rows t data) as [rest|].
          * split; [discriminate|]. intros H. inversion H as [? ? Hx|? ? Hx]; subst.
            -- apply (resolve_row_throws t r Hr) in Hx. congruence.
            -- apply IH in Hx. discriminate.
          * split; [intros _; apply Exists_cons_tl; now apply IH | reflexivity].
        + split; [intros _; apply Exists_cons_hd; now apply (resolve_row_throws t r Hr)
                 | reflexivity]. }
    destruct (resolve_rows t userProfileData); [|exact H].
    split; [discriminate|]. intros Hx. apply H in Hx. discriminate.
  - intros out. unfold part4.
    destruct (resolve_rows t userProfileData) as [rows|] eqn:E; [|discriminate].
    intros [= <-]. rewrite (Permutation_length (sort_perm _ rows)).
    exact (resolve_rows_length t _ _ E).
Qed.

Lemma X12_part4_fails_on_numeric_grouping_witness :
  part4 Samples.code_unit_compare Samples.sheet_with_DSE_row
    [[("user", VStr "ABE"); ("grouping", VStr "1A CHI ABE")];
     [("user", VStr "ZED"); ("grouping", VNum 7)]] = None.
Proof.
  refine (proj2 (proj1 (X12_part4_fails_on_numeric_grouping Samples.code_unit_compare
                          Samples.sheet_with_DSE_row
                          [[("user", VStr "ABE"); ("grouping", VStr "1A CHI ABE")];
                           [("user", VStr "ZED"); ("grouping", VNum 7)]] _)) _).
  - repeat constructor.
  - apply Exists_cons_tl, Exists_cons_hd. exists 7%Z. split; [discriminate | reflexivity].
Defined.
End ResolverMore.

(** ** More on the frequency index *)
Section IndexMore.
Import UpdateStudentProfiles Spec.

Lemma delete_hyphens_clean (s : string) : includes (delete_chars is_hyphen s) "-" = false.
Proof.
  induction s as [|c r IH]; [reflexivity|]. cbn [delete_chars].
  destruct (is_hyphen c) eqn:Hc; [exact IH|].
  cbn [includes is_prefix]. rewrite IH, andb_true_r, orb_false_r.
  destruct (Ascii.eqb_spec "-" c) as [<-|]; [discriminate | reflexivity].
Qed.

Lemma cell_key_clean (text key : string) :
  cell_key text = Some key -> includes key "-" = false.
Proof.
  rewrite cell_key_eq. destruct (trim text =? ""); [discriminate|].
  intros [= <-]. apply delete_hyphens_clean.
Qed.

Lemma fm_alter_keys (f : entry -> entry) (k : string) (fm : frequencyMap) :
  map fst (fm_alter f k fm) = map fst fm.
Proof.
  induction fm as [|[k' e] fm IH]; cbn [fm_alter map fst]; [reflexivity|].
  destruct (k' =? k); cbn [map fst]; [reflexivity | now rewrite IH].
Qed.

Lemma fm_alter_ok (f : entry -> entry) (k : string) (fm : frequencyMap) :
  (forall e, entry_ok (k, e) -> entry_ok (k, f e)) ->
  Forall entry_ok fm -> Forall entry_ok (fm_alter f k fm).
Proof.
  intros Hf. induction 1 as [|[k' e] fm He Hfm IH]; cbn [fm_alter]; [constructor|].
  destruct (String.eqb_spec k' k) as [->|_]; constructor; auto.
Qed.

Lemma fm_get_keys (fm : frequencyMap) (k : string) :
  fm_get fm k = None <-> ~ In k (map fst fm).
Proof.
  induction fm as [|[k' e] fm IH]; cbn [fm_get map fst In]; [tauto|].
  destruct (String.eqb_spec k' k) as [->|Hne]; [split; [discriminate | tauto]|].
  rewrite IH. tauto.
Qed.

Lemma fm_alter_compose (f g : entry -> entry) (k : string) (fm : frequencyMap) :
  fm_alter g k (fm_alter f k fm) = fm_alter (fun e => g (f e)) k fm.
Proof.
  induction fm as [|[k' e] fm IH]; cbn [fm_alter]; [reflexivity|].
  destruct (k' =? k) eqn:E; cbn [fm_alter]; rewrite E; [reflexivity | now rewrite IH].
Qed.

Lemma fm_alter_snoc (f : entry -> entry) (k : string) (e : entry) (fm : frequencyMap) :
  fm_get fm k = None -> fm_alter f k (fm ++ [(k, e)]) = fm ++ [(k, f e)].
Proof.
  induction fm as [|[k' e'] fm IH]; cbn [fm_get app fm_alter].
  - now rewrite String.eqb_refl.
  - destruct (k' =? k); [discriminate|]. intros H. now rewrite IH.
Qed.

Lemma bump_ok (key : string) (sc : list string) (fm : frequencyMap) :
  length sc <= 1 ->
  includes key "-" = false -> inherited_name key = false ->
  index_ok fm ->
  index_ok (fm_alter (fun e => {| count := count e + 1; subCodes := subCodes e ++ sc |}) key
              (match fm_get fm key with
               | Some _ => fm
               | None => fm ++ [(key, {| count := 0; subCodes := [] |})]
               end)).
Proof.
  intros Hsc Hclean Hinh [Hnd Hok].
  assert (Hstep : forall e, entry_ok (key, e) ->
                            entry_ok (key, {| count := count e + 1; subCodes := subCodes e ++ sc |})).
  { intros e (H1 & H2 & H3 & H4). unfold entry_ok in *. cbn [fst snd count subCodes] in *.
    rewrite length_app. repeat split; auto; lia. }
  destruct (fm_get fm key) eqn:Hget.
  - split; [now rewrite fm_alter_keys | now apply fm_alter_ok].
  - rewrite (fm_alter_snoc _ _ _ _ Hget). split.
    + rewrite map_app. apply List.NoDup_app; [exact Hnd | repeat constructor; cbn; tauto |].
      intros k Hk [Hkey|[]]. subst k. now apply fm_get_keys in Hget.
    + apply Forall_app. split; [exact Hok|]. constructor; [|constructor].
      unfold entry_ok. cbn [fst snd count subCodes app]. repeat split; auto; lia.
Qed.

Lemma add_cell_ok (r : row) (fm fm' : frequencyMap) (col : string) :
  index_ok fm -> add_cell r fm col = Done fm' -> index_ok fm'.
Proof.
  intros Hok. unfold add_cell. destruct (toString_method _) as [text|]; [|discriminate].
  destruct (cell_key text) as [key|] eqn:Hkey; [|now intros [= <-]].
  apply cell_key_clean in Hkey.
  assert (Hown : fm_get fm key <> None -> inherited_name key = false).
  { intros Hget. destruct Hok as [_ Hall]. rewrite List.Forall_forall in Hall.
    destruct (fm_get fm key) as [e|] eqn:E; [|congruence].
    assert (Hin : exists e', In (key, e') fm).
    { clear -E. induction fm as [|[k' e'] fm IH]; cbn [fm_get] in E; [discriminate|].
      destruct (String.eqb_spec k' key) as [->|_]; [exists e'; now left|].
      destruct (IH E) as [x Hx]. exists x. now right. }
    destruct Hin as [e' He']. now destruct (Hall _ He') as (_ & _ & _ & H). }
  match goal with |- context [if row_has r "sub_code" then ?a else ?b] =>
    destruct (if row_has r "sub_code" then a else b) as [[sc|]|] end.
  - pose proof (bump_ok key [sc] fm (le_n 1) Hkey) as Hb.
    destruct (fm_get fm key) eqn:Hget.
    + intros [= <-]. rewrite fm_alter_compose.
      apply Hb; [apply Hown; congruence | exact Hok].
    + destruct (inherited_name key); [discriminate|]. intros [= <-].
      rewrite fm_alter_compose. now apply Hb.
  - pose proof (bump_ok key [] fm (Nat.le_0_l 1) Hkey) as Hb.
    assert (Hid : forall fm0,
               fm_alter (fun e => {| count := count e + 1; subCodes := subCodes e ++ [] |}) key fm0
               = fm_alter (fun e => {| count := count e + 1; subCodes := subCodes e |}) key fm0).
    { intros fm0. induction fm0 as [|[k' e'] fm0 IH]; cbn [fm_alter]; [reflexivity|].
      destruct (k' =? key); [now rewrite app_nil_r | now rewrite IH]. }
    rewrite Hid in Hb.
    destruct (fm_get fm key) eqn:Hget.
    + intros [= <-]. apply Hb; [apply Hown; congruence | exact Hok].
    + destruct (inherited_name key) eqn:Hinh.
      * destruct (key =? "__proto__"); [discriminate | now intros [= <-]].
      * intros [= <-]. now apply Hb.
  - destruct (fm_get fm key); [discriminate|].
    destruct (inherited_name key); discriminate.
Qed.

Lemma add_cells_ok (r : row) (cols : list string) :
  forall fm fm', index_ok fm -> add_cells r fm cols = Done fm' -> index_ok fm'.
Proof.
  induction cols as [|c cols IH]; intros fm fm' Hok; cbn [add_cells]; [now intros [= <-]|].
  destruct (add_cell r fm c) as [fm1| |] eqn:E; try discriminate.
  apply IH. exact (add_cell_ok _ _ _ _ Hok E).
Qed.

Lemma build_from_ok (userJsonData : list row) :
  forall fm fm', index_ok fm -> build_from fm userJsonData = Done fm' -> index_ok fm'.
Proof.
  induction userJsonData as [|r rows IH]; intros fm fm' Hok; cbn [build_from];
    [now intros [= <-]|].
  destruct (add_cells r fm (map fst r)) as [fm1| |] eqn:E; try discriminate.
  apply IH. exact (add_cells_ok _ _ _ _ Hok E).
Qed.

(** X13. The index a completed build returns has distinct keys, and every entry
    was counted at least once, holds at most as many sub-codes as its
    count, and has a key without hyphen. *)
Theorem X13_built_index_is_well_formed (userJsonData : list row) (fm : frequencyMap) :
  build userJsonData = Done fm ->
  List.NoDup (map fst fm)
  /\ Forall (fun kv => (1 <= count (snd kv))%N
                       /\ (N.of_nat (length (subCodes (snd kv))) <= count (snd kv))%N
                       /\ includes (fst kv) "-" = false) fm.
Proof.
  intros H. apply build_from_ok in H; [|split; constructor].
  destruct H as [Hnd Hall]. split; [exact Hnd|].
  eapply List.Forall_impl; [|exact Hall]. intros kv (H1 & H2 & H3 & _). auto.
Qed.

Lemma X13_built_index_is_well_formed_witness :
  List.NoDup (map fst [("NEW", {| count := 1; subCodes := ["CHN1"] |});
                       ("CHN1", {| count := 1; subCodes := ["CHN1"] |});
                       ("6A CHI NEW", {| count := 2; subCodes := ["CHN1"; "CHN1"] |});
                       ("6ACHI NEW", {| count := 1; subCodes := ["CHN1"] |})]).
Proof.
  apply (X13_built_index_is_well_formed
           [[("user", VStr "NEW"); ("sub_code", VStr "CHN1"); ("class", VStr "6A CHI NEW");
             ("grouping", VStr "6A-CHI NEW"); ("grouping_real", VStr " 6A CHI NEW")]]).
  reflexivity.
Defined.

(** What one cell does to the index, when the run goes on. *)
Lemma add_cell_done (r : row) (fm fm' : frequencyMap) (col : string) :
  add_cell r fm col = Done fm' ->
  fm' = fm
  \/ exists key sc,
       fm' = fm_alter (fun e => {| count := count e + 1; subCodes := subCodes e ++ sc |}) key
               (match fm_get fm key with
                | Some _ => fm
                | None => fm ++ [(key, {| count := 0; subCodes := [] |})]
                end).
Proof.
  unfold add_cell. destruct (toString_method _) as [text|]; [|discriminate].
  destruct (cell_key text) as [key|]; [|intros [= <-]; now left].
  assert (Hid : forall fm0,
             fm_alter (fun e => {| count := count e + 1; subCodes := subCodes e |}) key fm0
             = fm_alter (fun e => {| count := count e + 1; subCodes := subCodes e ++ [] |})
                 key fm0).
  { intros fm0. induction fm0 as [|[k' e'] fm0 IH]; cbn [fm_alter]; [reflexivity|].
    destruct (k' =? key); [now rewrite app_nil_r | now rewrite IH]. }
  match goal with |- context [if row_has r "sub_code" then ?a else ?b] =>
    destruct (if row_has r "sub_code" then a else b) as [[sc|]|] end.
  - destruct (fm_get fm key) eqn:Hget.
    + intros [= <-]. right. exists key, [sc]. now rewrite fm_alter_compose, Hget.
    + destruct (inherited_name key); [discriminate|]. intros [= <-].
      right. exists key, [sc]. now rewrite fm_alter_compose, Hget.
  - destruct (fm_get fm key) eqn:Hget.
    + intros [= <-]. right. exists key, []. now rewrite Hid, Hget.
    + destruct (inherited_name key).
      * destruct (key =? "__proto__"); [discriminate | intros [= <-]; now left].
      * intros [= <-]. right. exists key, []. now rewrite Hid, Hget.
  - destruct (fm_get fm key); [discriminate|]. destruct (inherited_name key); discriminate.
Qed.

Lemma add_cell_grows (r : row) (fm fm' : frequencyMap) (col : string) :
  add_cell r fm col = Done fm' ->
  (exists later, map fst fm' = map fst fm ++ later)
  /\ forall k, (count_of fm k <= count_of fm' k)%N.
Proof.
  intros H. apply add_cell_done in H as [->|(key & sc & ->)].
  - split; [exists []; now rewrite app_nil_r | intros; lia].
  - split.
    + rewrite fm_alter_keys. destruct (fm_get fm key).
      * exists []. now rewrite app_nil_r.
      * rewrite map_app. now eexists.
    + intros k. unfold count_of. rewrite fm_get_alter.
      destruct (fm_get fm key) as [e|] eqn:Hget.
      * destruct (String.eqb_spec key k) as [->|_]; [|lia].
        rewrite Hget. cbn [option_map count]. lia.
      * rewrite !fm_get_snoc, Hget.
        destruct (String.eqb_spec key k) as [->|Hne].
        -- rewrite String.eqb_refl, Hget. cbn [option_map count]. lia.
        -- destruct (fm_get fm k); [lia|].
           destruct (String.eqb_spec key k); [congruence | lia].
Qed.

Lemma grows_trans (a b c : frequencyMap) :
  ((exists later, map fst b = map fst a ++ later)
   /\ forall k, (count_of a k <= count_of b k)%N) ->
  ((exists later, map fst c = map fst b ++ later)
   /\ forall k, (count_of b k <= count_of c k)%N) ->
  (exists later, map fst c = map fst a ++ later)
  /\ forall k, (count_of a k <= count_of c k)%N.
Proof.
  intros [[l1 H1] C1] [[l2 H2] C2]. split.
  - exists (l1 ++ l2). now rewrite H2, H1, app_assoc.
  - intros k. specialize (C1 k). specialize (C2 k). lia.
Qed.

Lemma add_cells_grows (r : row) (cols : list string) :
  forall fm fm',
    add_cells r fm cols = Done fm' ->
    (exists later, map fst fm' = map fst fm ++ later)
    /\ forall k, (count_of fm k <= count_of fm' k)%N.
Proof.
  induction cols as [|c cols IH]; intros fm fm'; cbn [add_cells].
  - intros [= <-]. split; [exists []; now rewrite app_nil_r | intros; lia].
  - destruct (add_cell r fm c) as [fm1| |] eqn:E; try discriminate.
    intros H. exact (grows_trans _ _ _ (add_cell_grows _ _ _ _ E) (IH _ _ H)).
Qed.

Lemma build_from_grows (userJsonData : list row) :
  forall fm fm',
    build_from fm userJsonData = Done fm' ->
    (exists later, map fst fm' = map fst fm ++ later)
    /\ forall k, (count_of fm k <= count_of fm' k)%N.
Proof.
  induction userJsonData as [|r rows IH]; intros fm fm'; cbn [build_from].
  - intros [= <-]. split; [exists []; now rewrite app_nil_r | intros; lia].
  - destruct (add_cells r fm (map fst r)) as [fm1| |] eqn:E; try discriminate.
    intros H. exact (grows_trans _ _ _ (add_cells_grows _ _ _ _ E) (IH _ _ H)).
Qed.

(** X14. Building on never loses ground: the keys an index had stay, in the
    same order and before any new key, and no count goes down. *)
Theorem X14_index_only_grows (userJsonData : list row) (fm fm' : frequencyMap) :
  build_from fm userJsonData = Done fm' ->
  (exists later, map fst fm' = map fst fm ++ later)
  /\ forall k, (count_of fm k <= count_of fm' k)%N.
Proof. apply build_from_grows. Qed.

Lemma X14_index_only_grows_witness :
  (count_of [("NEW", {| count := 4; subCodes := [] |})] "NEW"
   <= count_of [("NEW", {| count := 5; subCodes := [] |});
                ("6A", {| count := 1; subCodes := [] |})] "NEW")%N.
Proof.
  apply (X14_index_only_grows [[("user", VStr "NEW"); ("class", VStr "6A")]]
           [("NEW", {| count := 4; subCodes := [] |})]).
  reflexivity.
Defined.

(** *** The scan visits every entry once *)
Lemma filter_split_perm {A : Type} (p : A -> bool) (l : list A) :
  Permutation (List.filter p l ++ List.filter (fun x => negb (p x)) l) l.
Proof.
  induction l as [|x l IH]; cbn [List.filter]; [reflexivity|].
  destruct (p x); cbn [negb app].
  - now constructor.
  - rewrite <- Permutation_middle. now constructor.
Qed.

Lemma for_in_perm (fm : frequencyMap) : Permutation (for_in fm) fm.
Proof.
  unfold for_in. rewrite (sort_perm index_le). apply filter_split_perm.
Qed.

Lemma total_count_In (l : list (string * entry)) (kv : string * entry) :
  In kv l -> (count (snd kv) <= total_count l)%N.
Proof.
  induction l as [|x l IH]; cbn [In total_count fold_right]; [tauto|].
  intros [->|H]; [lia|]. specialize (IH H). unfold total_count in IH. lia.
Qed.

Lemma fm_get_In (fm : frequencyMap) (k : string) (e : entry) :
  fm_get fm k = Some e -> In (k, e) fm.
Proof.
  induction fm as [|[k' e'] fm IH]; cbn [fm_get]; [discriminate|].
  destruct (String.eqb_spec k' k) as [->|_]; [intros [= ->]; now left | right; auto].
Qed.

Lemma key_kept (fm fm' : frequencyMap) (k : string) :
  (exists later, map fst fm' = map fst fm ++ later) ->
  fm_get fm k <> None -> fm_get fm' k <> None.
Proof.
  intros [later H] Hk Hnone. apply fm_get_keys in Hnone. apply Hk, fm_get_keys.
  intros Hin. apply Hnone. rewrite H. apply in_or_app. now left.
Qed.

Lemma add_cell_enters (r : row) (fm fm' : frequencyMap) (col : string) :
  add_cell r fm col = Done fm' ->
  let key := delete_chars is_hyphen (trim (to_string (row_get r col))) in
  trim (to_string (row_get r col)) <> "" -> inherited_name key = false ->
  fm_get fm' key <> None.
Proof.
  intros H key Hne Hinh. revert H. unfold add_cell.
  destruct (toString_method (row_get r col)) as [text|] eqn:Htext; [|discriminate].
  assert (text = to_string (row_get r col)) as ->
      by (destruct (row_get r col); cbn [toString_method] in Htext; congruence).
  rewrite cell_key_eq. fold key.
  destruct (String.eqb_spec (trim (to_string (row_get r col))) ""); [contradiction|].
  rewrite Hinh.
  match goal with |- context [if row_has r "sub_code" then ?a else ?b] =>
    destruct (if row_has r "sub_code" then a else b) as [[sc|]|] end;
    destruct (fm_get fm key) eqn:Hget; try discriminate; intros [= <-];
    rewrite ?fm_get_alter, ?String.eqb_refl, ?fm_get_snoc, ?Hget, ?String.eqb_refl;
    cbn; discriminate.
Qed.

Lemma add_cells_enters (r : row) (col : string) (cols : list string) :
  forall fm fm',
    add_cells r fm cols = Done fm' -> In col cols ->
    let key := delete_chars is_hyphen (trim (to_string (row_get r col))) in
    trim (to_string (row_get r col)) <> "" -> inherited_name key = false ->
    fm_get fm' key <> None.
Proof.
  induction cols as [|c cols IH]; intros fm fm' H Hin key Hne Hinh; [destruct Hin|].
  cbn [add_cells] in H. destruct (add_cell r fm c) as [fm1| |] eqn:E; try discriminate.
  destruct (in_dec string_dec col cols) as [Hlater|Hnot].
  - exact (IH _ _ H Hlater Hne Hinh).
  - destruct Hin as [->|Hin]; [|contradiction].
    apply (key_kept fm1 fm'); [exact (proj1 (add_cells_grows _ _ _ _ H))|].
    exact (add_cell_enters _ _ _ _ E Hne Hinh).
Qed.

Lemma build_from_enters (r : row) (col : string) (userJsonData : list row) :
  forall fm fm',
    build_from fm userJsonData = Done fm' -> In r userJsonData -> In col (map fst r) ->
    let key := delete_chars is_hyphen (trim (to_string (row_get r col))) in
    trim (to_string (row_get r col)) <> "" -> inherited_name key = false ->
    fm_get fm' key <> None.
Proof.
  induction userJsonData as [|r0 rows IH]; intros fm fm' H Hin Hcol key Hne Hinh;
    [destruct Hin|].
  cbn [build_from] in H.
  destruct (add_cells r0 fm (map fst r0)) as [fm1| |] eqn:E; try discriminate.
  destruct Hin as [->|Hin].
  - apply (key_kept fm1 fm'); [exact (proj1 (build_from_grows _ _ _ H))|].
    exact (add_cells_enters _ _ _ _ _ E Hcol Hne Hinh).
  - exact (IH _ _ H Hin Hcol Hne Hinh).
Qed.

(** X15. A cell that went into the index is found again: after a completed
    build, asking [findMatches] for the trimmed text of any non-blank cell
    of the sheet answers with a count of at least 1 and with the line of
    that cell's key among the matches.  (The key is taken not to name a
    member of [Object.prototype].) *)
Theorem X15_entered_cell_is_found (userJsonData : list row) (fm : frequencyMap)
    (r : row) (col : string) :
  build userJsonData = Done fm ->
  In r userJsonData -> In col (map fst r) ->
  let text := trim (to_string (row_get r col)) in
  let key := delete_chars is_hyphen text in
  text <> "" -> inherited_name key = false ->
  (1 <= m_count (findMatches fm text))%N
  /\ exists e, fm_get fm key = Some e
               /\ In (match_line key e) (m_matches (findMatches fm text)).
Proof.
  intros Hbuild Hr Hcol text key Hne Hinh.
  pose proof (build_from_enters r col userJsonData [] fm Hbuild Hr Hcol Hne Hinh) as Hkey.
  fold text in Hkey. fold key in Hkey.
  destruct (fm_get fm key) as [e|] eqn:Hget; [clear Hkey | congruence].
  assert (Hhit : In (key, e) (hits fm (delete_chars is_hyphen text))).
  { unfold hits. apply filter_In. split.
    - apply (Permutation_in _ (Permutation_sym (for_in_perm fm))). now apply fm_get_In.
    - cbn [fst]. fold key. apply includes_refl. }
  rewrite findMatches_unfold. cbn zeta. cbn [m_count m_matches]. split.
  - apply N.le_trans with (count e); [|exact (total_count_In _ _ Hhit)].
    assert (Hok : index_ok fm) by (apply (build_from_ok userJsonData []); [split; constructor | exact Hbuild]).
    destruct Hok as [_ Hall]. rewrite List.Forall_forall in Hall.
    now destruct (Hall _ (fm_get_In _ _ _ Hget)) as [H1 _].
  - exists e. split; [reflexivity|].
    apply in_map_iff. exists (key, e). split; [reflexivity | exact Hhit].
Qed.
End IndexMore.

(** ** More on the matcher and the records of the update *)
Section MatcherMore.
Import UpdateStudentProfiles Spec.

Lemma X15_entered_cell_is_found_witness :
  (1 <= m_count (findMatches
                   [("NEW", {| count := 1; subCodes := [] |});
                    ("6ACHI NEW", {| count := 1; subCodes := [] |})] "6A-CHI NEW"))%N.
Proof.
  refine (proj1 (X15_entered_cell_is_found
                   [[("user", VStr "NEW"); ("class", VStr " 6A-CHI NEW ")]]
                   [("NEW", {| count := 1; subCodes := [] |});
                    ("6ACHI NEW", {| count := 1; subCodes := [] |})]
                   [("user", VStr "NEW"); ("class", VStr " 6A-CHI NEW ")] "class"
                   _ _ _ _ _)).
  - reflexivity.
  - now left.
  - right. now left.
  - discriminate.
  - reflexivity.
Defined.

Lemma includes_empty (s : string) : includes s "" = true.
Proof. destruct s; reflexivity. Qed.

Lemma total_count_perm (l l' : list (string * entry)) :
  Permutation l l' -> total_count l = total_count l'.
Proof.
  unfold total_count. induction 1; cbn [fold_right]; try lia.
Qed.

Lemma filter_all {A : Type} (p : A -> bool) (l : list A) :
  (forall x, p x = true) -> List.filter p l = l.
Proof.
  intros Hp. induction l as [|x l IH]; cbn [List.filter]; [reflexivity|].
  now rewrite Hp, IH.
Qed.

(** X16. A query that is empty once its hyphens are removed matches every key:
    the count is the sum of all counts and there is one line for each
    entry of the index. *)
Theorem X16_empty_query_matches_all (fm : frequencyMap) (s : string) :
  delete_chars is_hyphen s = "" ->
  m_count (findMatches fm s) = total_count fm
  /\ length (m_matches (findMatches fm s)) = length fm
  /\ forall k e, In (k, e) fm -> In (match_line k e) (m_matches (findMatches fm s)).
Proof.
  intros Hs. rewrite findMatches_unfold, Hs. cbn zeta. cbn [m_count m_matches].
  assert (Hall : hits fm "" = for_in fm).
  { unfold hits. apply filter_all. intros kv. apply includes_empty. }
  rewrite Hall. split; [|split].
  - apply total_count_perm, for_in_perm.
  - rewrite length_map. apply Permutation_length, for_in_perm.
  - intros k e Hin. apply in_map_iff. exists (k, e). split; [reflexivity|].
    now apply (Permutation_in _ (Permutation_sym (for_in_perm fm))).
Qed.

Lemma X16_empty_query_matches_all_witness :
  m_count (findMatches [("NEW", {| count := 1; subCodes := [] |});
                        ("6ACHI NEW", {| count := 2; subCodes := [] |})] "-")
  = 3%N.
Proof.
  apply (X16_empty_query_matches_all
           [("NEW", {| count := 1; subCodes := [] |});
            ("6ACHI NEW", {| count := 2; subCodes := [] |})] "-").
  reflexivity.
Defined.

(** *** The grouping of a record *)
Lemma append_nil (s : string) : ("" ++ s)%string = s.
Proof. reflexivity. Qed.

Lemma append_cons (x : ascii) (a s : string) :
  (String x a ++ s)%string = String x (a ++ s).
Proof. reflexivity. Qed.

Lemma before_cons (c x : ascii) (s : string) :
  before c (String x s) = if Ascii.eqb x c then "" else String x (before c s).
Proof.
  unfold before. cbn [split_char]. destruct (Ascii.eqb x c); [reflexivity|].
  now destruct (split_char c s).
Qed.

Lemma before_app (c : ascii) (a b : string) :
  before c (a ++ String c b) = before c a.
Proof.
  induction a as [|x a IH]; rewrite ?append_nil, ?append_cons.
  - rewrite before_cons, Ascii.eqb_refl. reflexivity.
  - rewrite !before_cons, IH. reflexivity.
Qed.

Lemma before_space (c : ascii) (a : string) :
  Ascii.eqb " " c = false ->
  before c (a ++ " ") = before c a \/ before c (a ++ " ") = (before c a ++ " ")%string.
Proof.
  intros Hc. induction a as [|x a IH]; rewrite ?append_nil, ?append_cons.
  - right. rewrite before_cons, Hc. reflexivity.
  - rewrite !before_cons. destruct (Ascii.eqb x c); [now left|].
    destruct IH as [->| ->]; [now left | now right].
Qed.

Lemma trimEnd_app_space (s : string) : trimEnd (s ++ " ") = trimEnd s.
Proof.
  induction s as [|c s IH]; [reflexivity|]. rewrite append_cons. cbn [trimEnd]. now rewrite IH.
Qed.

Lemma trimStart_app_space (s : string) :
  trimStart (s ++ " ") = (trimStart s ++ " ")%string
  \/ (trimStart (s ++ " ") = "" /\ trimStart s = "").
Proof.
  induction s as [|c s IH]; rewrite ?append_nil, ?append_cons; cbn [trimStart];
    [now right|].
  destruct (is_ws c); [exact IH | now left].
Qed.

Lemma trim_app_space (s : string) : trim (s ++ " ") = trim s.
Proof.
  unfold trim. destruct (trimStart_app_space s) as [->|[-> ->]]; [|reflexivity].
  apply trimEnd_app_space.
Qed.

Lemma append_assoc (a b c : string) : ((a ++ b) ++ c)%string = (a ++ (b ++ c))%string.
Proof.
  induction a as [|x a IH]; rewrite ?append_nil, ?append_cons; [reflexivity | now rewrite IH].
Qed.

Lemma grouping_of_line (key : string) (e : entry) :
  trim (before "(" (match_line key e)) = trim (before "(" key).
Proof.
  unfold match_line.
  change (key ++ " (" ++ string_of_N (count e) ++ ")")%string
    with (key ++ (" " ++ String "(" (string_of_N (count e) ++ ")")))%string.
  rewrite <- append_assoc, before_app.
  destruct (before_space "(" key eq_refl) as [->| ->]; [reflexivity | apply trim_app_space].
Qed.

(** X17. The record built for a query takes its grouping from the first key the
    query matches in scan order: the key up to its first parenthesis,
    trimmed; its sub_code is the first sub-code collected, trimmed and
    converted. *)
Theorem X17_record_of_first_match (fm : frequencyMap) (mapping : gmap string value)
    (tsssid : value) (s : string) (rec : OutputRecord) :
  processMatchForRecord mapping tsssid (findMatches fm s) = Some rec ->
  exists k e rest sc0 scs,
    hits fm (delete_chars is_hyphen s) = (k, e) :: rest
    /\ m_subCodes (findMatches fm s) = sc0 :: scs
    /\ grouping rec = trim (before "(" k)
    /\ grouping_real rec = grouping rec
    /\ sub_code rec = VStr (convertSubCode (trim sc0))
    /\ subject_code rec = obj_get mapping (convertSubCode (trim sc0))
    /\ tsss_id rec = tsssid.
Proof.
  unfold processMatchForRecord. rewrite findMatches_unfold. cbn zeta.
  cbn [m_count m_matches m_subCodes].
  destruct (fold_left set_add _ []) as [|sc0 scs]; [discriminate|].
  destruct (hits fm (delete_chars is_hyphen s)) as [|[k e] rest]; [discriminate|].
  cbn [map fst snd]. destruct (_ <? _)%N; [|discriminate].
  destruct (negb _ && _) eqn:Hb; [|discriminate]. intros [= <-].
  exists k, e, rest, sc0, scs. cbn [grouping grouping_real sub_code subject_code tsss_id].
  repeat split; try reflexivity.
  - apply grouping_of_line.
  - apply andb_true_iff in Hb as [_ Ht]. unfold or_else in *.
    now destruct (truthy (obj_get mapping (convertSubCode (trim sc0)))).
Qed.

Lemma X17_record_of_first_match_witness :
  exists k,
    grouping {| tsss_id := VStr "S6"; a_year := "2025/2026"; terms := "Term 1";
                sub_code := VStr "DMA21"; subject_code := VStr "DMATH2";
                taking := "TRUE"; self_taking := "FALSE";
                grouping := "6"; grouping_real := "6" |}
    = trim (before "(" k).
Proof.
  destruct (X17_record_of_first_match
              [("6 (M2) SUW", {| count := 1; subCodes := ["DMA21"] |})]
              (subSubjectMapping [[("sub_code", VStr "DMA21"); ("subject_code", VStr "DMATH2")]])
              (VStr "S6") "6"
              {| tsss_id := VStr "S6"; a_year := "2025/2026"; terms := "Term 1";
                 sub_code := VStr "DMA21"; subject_code := VStr "DMATH2";
                 taking := "TRUE"; self_taking := "FALSE";
                 grouping := "6"; grouping_real := "6" |})
    as (k & _ & _ & _ & _ & _ & _ & Hg & _).
  - reflexivity.
  - exists k. exact Hg.
Defined.

Lemma processMatch_shape (mapping : gmap string value) (tsssid : value) (m : matchObj)
    (rec : OutputRecord) :
  processMatchForRecord mapping tsssid m = Some rec ->
  tsss_id rec = tsssid /\ fixed_fields rec.
Proof.
  unfold processMatchForRecord.
  destruct (m_subCodes m); [discriminate|]. destruct (m_matches m); [discriminate|].
  destruct (_ <? _)%N; [|discriminate]. destruct (_ && _); [|discriminate].
  intros [= <-]. repeat split.
Qed.

(** X18. A class-list row appends at most three records, one for each of its
    X1, X2 and X3 queries that yields one, and none when the three cells
    are all empty; each carries the row's TSSSID (empty text when the cell
    is empty) and the fixed year, term and flags. *)
Theorem X18_records_of_a_class_row (fm : frequencyMap) (mapping : gmap string value)
    (r : row) :
  length (class_row_records fm mapping r) <= 3
  /\ Forall (fun rec => tsss_id rec = or_else (row_get r "TSSSID") (VStr "")
                        /\ fixed_fields rec)
       (class_row_records fm mapping r)
  /\ (truthy (row_get r "X1") = false -> truthy (row_get r "X2") = false ->
      truthy (row_get r "X3") = false -> class_row_records fm mapping r = []).
Proof.
  unfold class_row_records. split; [|split].
  - destruct (_ && _); [cbn; lia|]. rewrite !length_app.
    repeat match goal with
           | |- context [opt_list ?o] => destruct o; cbn [opt_list length]
           end; lia.
  - destruct (_ && _); [constructor|].
    repeat (apply Forall_app; split);
      match goal with
      | |- Forall _ (opt_list ?o) =>
          destruct o as [rec|] eqn:E; cbn [opt_list]; constructor;
          [exact (processMatch_shape _ _ _ _ E) | constructor]
      end.
  - intros -> -> ->. reflexivity.
Qed.

Lemma X18_records_of_a_class_row_witness :
  class_row_records [("6CHIST2 BYC", {| count := 3; subCodes := ["DCHIS2"] |})] ∅
    [("TSSSID", VStr "S1"); ("Form", VNum 6); ("X1", VStr ""); ("X2", VNum 0)] = [].
Proof.
  apply (X18_records_of_a_class_row
           [("6CHIST2 BYC", {| count := 3; subCodes := ["DCHIS2"] |})] ∅
           [("TSSSID", VStr "S1"); ("Form", VNum 6); ("X1", VStr ""); ("X2", VNum 0)]);
    reflexivity.
Defined.

Lemma convertSubCode_never (subCode : string) :
  convertSubCode subCode <> "DCHIS1" /\ convertSubCode subCode <> "DCHIS3".
Proof.
  unfold convertSubCode.
  destruct (String.eqb_spec subCode "DCHIS1"); [split; discriminate|].
  destruct (String.eqb_spec subCode "DCHIS3"); [split; discriminate|].
  split; assumption.
Qed.

(** X19. [convertSubCode] rewrites DCHIS1 and DCHIS3 and nothing else, converting
    twice is converting once, and so no record the update appends carries
    DCHIS1 or DCHIS3 as its sub_code. *)
Theorem X19_appended_codes_are_converted (fm : frequencyMap) (mapping : gmap string value)
    (classData : list row) (subCode : string) :
  convertSubCode (convertSubCode subCode) = convertSubCode subCode
  /\ (subCode <> "DCHIS1" -> subCode <> "DCHIS3" -> convertSubCode subCode = subCode)
  /\ Forall (fun rec => sub_code rec <> VStr "DCHIS1" /\ sub_code rec <> VStr "DCHIS3")
       (appendedRecords fm mapping classData).
Proof.
  split; [|split].
  - unfold convertSubCode.
    destruct (String.eqb_spec subCode "DCHIS1") as [->|H1]; [reflexivity|].
    destruct (String.eqb_spec subCode "DCHIS3") as [->|H3]; [reflexivity|].
    apply String.eqb_neq in H1, H3. now rewrite H1, H3.
  - intros H1 H3. unfold convertSubCode.
    apply String.eqb_neq in H1, H3. now rewrite H1, H3.
  - apply List.Forall_forall. intros rec Hin.
    unfold appendedRecords in Hin. apply in_flat_map in Hin as (r & _ & Hin).
    unfold class_row_records in Hin. destruct (_ && _) in Hin; [destruct Hin|].
    assert (Hone : forall m, processMatchForRecord mapping
                               (or_else (row_get r "TSSSID") (VStr "")) m = Some rec ->
                             sub_code rec <> VStr "DCHIS1" /\ sub_code rec <> VStr "DCHIS3").
    { intros m. unfold processMatchForRecord.
      destruct (m_subCodes m) as [|sc0 ?]; [discriminate|].
      destruct (m_matches m); [discriminate|].
      destruct (_ <? _)%N; [|discriminate]. destruct (_ && _); [|discriminate].
      intros [= <-]. cbn [sub_code].
      destruct (convertSubCode_never (trim sc0)) as [N1 N3]. split; congruence. }
    repeat (apply in_app_or in Hin as [Hin|Hin]);
      (match type of Hin with
       | In _ (opt_list ?o) =>
           destruct o as [rec'|] eqn:E; [|destruct Hin];
           destruct Hin as [<-|[]]; exact (Hone _ E)
       end).
Qed.

Lemma X19_appended_codes_are_converted_witness : convertSubCode "DCHIS2" = "DCHIS2".
Proof.
  apply (X19_appended_codes_are_converted [] ∅ [] "DCHIS2"); discriminate.
Defined.

(** *** The sub_code tables *)
Lemma fold_left_snoc {A B : Type} (f : A -> B -> A) (l : list B) (x : B) (a : A) :
  fold_left f (l ++ [x]) a = f (fold_left f l a) x.
Proof. now rewrite fold_left_app. Qed.

(** X20. In both tables built from the reference sheet a later row replaces an
    earlier one with the same sub_code, and a sub_code no row has gives
    null in [main] and nothing in the update.  [main] keys the table by the
    sub_code cell as it is; the update trims both cells and skips a row
    with either of them empty. *)
Theorem X20_later_table_row_wins (tableData : list row) (r : row) (k : value) (s : string) :
  StudentProfile.subject_code_of (StudentProfile.subCodeMap []) k = VNull
  /\ StudentProfile.subject_code_of (StudentProfile.subCodeMap (tableData ++ [r])) k
     = (if (to_string (row_get r "sub_code") =? to_string k)
           && negb (to_string k =? "__proto__")
        then row_get r "subject_code"
        else StudentProfile.subject_code_of (StudentProfile.subCodeMap tableData) k)
  /\ subSubjectMapping [] !! s = None
  /\ subSubjectMapping (tableData ++ [r]) !! s
     = (if (cell_text (row_get r "sub_code") =? s) && negb (s =? "")
           && negb (s =? "__proto__") && negb (cell_text (row_get r "subject_code") =? "")
        then Some (VStr (cell_text (row_get r "subject_code")))
        else subSubjectMapping tableData !! s).
Proof.
  split; [reflexivity|]. split; [|split; [reflexivity|]].
  - unfold StudentProfile.subCodeMap. rewrite fold_left_snoc.
    fold (StudentProfile.subCodeMap tableData).
    unfold StudentProfile.subject_code_of, has_own, obj_get, obj_set.
    destruct (String.eqb_spec (to_string (row_get r "sub_code")) (to_string k)) as [E|Hne].
    + rewrite E. destruct (String.eqb_spec (to_string k) "__proto__"); cbn [negb andb].
      * reflexivity.
      * now rewrite lookup_insert_eq.
    + cbn [andb]. destruct (to_string (row_get r "sub_code") =? "__proto__"); [reflexivity|].
      now rewrite lookup_insert_ne.
  - unfold subSubjectMapping. rewrite fold_left_snoc. fold (subSubjectMapping tableData).
    unfold obj_set.
    destruct (String.eqb_spec (cell_text (row_get r "sub_code")) s) as [E|Hne].
    + rewrite E. destruct (String.eqb_spec s ""); cbn [negb andb]; [reflexivity|].
      destruct (s =? "__proto__"); cbn [negb andb];
        destruct (cell_text (row_get r "subject_code") =? ""); cbn [negb andb];
        try reflexivity.
      now rewrite lookup_insert_eq.
    + cbn [andb].
      destruct (negb _ && negb _); [|reflexivity].
      destruct (cell_text (row_get r "sub_code") =? "__proto__"); [reflexivity|].
      now rewrite lookup_insert_ne.
Qed.
End MatcherMore.

(** ** Part 1 of the user-profile script *)
Section WorkloadMore.
Import Workload UserProfile Spec.

Lemma some_char_app (p : ascii -> bool) (a b : string) :
  some_char p (a ++ b) = some_char p a || some_char p b.
Proof.
  induction a as [|c a IH]; rewrite ?append_nil, ?append_cons; cbn [some_char];
    [reflexivity|]. rewrite IH. now destruct (p c).
Qed.

Lemma some_char_trimStart (p : ascii -> bool) (s : string) :
  some_char p (trimStart s) = true -> some_char p s = true.
Proof.
  induction s as [|c s IH]; cbn [trimStart]; [easy|].
  destruct (is_ws c); [|easy]. intros H. cbn [some_char]. rewrite (IH H).
  now destruct (p c).
Qed.

Lemma some_char_trimEnd (p : ascii -> bool) (s : string) :
  some_char p (trimEnd s) = true -> some_char p s = true.
Proof.
  induction s as [|c s IH]; cbn [trimEnd]; [easy|].
  destruct (is_ws c && (trimEnd s =? "")); [discriminate|].
  cbn [some_char]. destruct (p c); [reflexivity|]. exact IH.
Qed.

Lemma some_char_trim (p : ascii -> bool) (s : string) :
  some_char p (trim s) = true -> some_char p s = true.
Proof. intros H. now apply some_char_trimStart, some_char_trimEnd. Qed.

Lemma upper_is_no_ws (c : ascii) : is_upper c = true -> is_ws c = false.
Proof.
  unfold is_upper, is_ws. intros H. apply andb_prop in H as [H1 H2].
  apply N.leb_le in H1.
  destruct (N_of_ascii c) as [|q]; [reflexivity|].
  do 6 (destruct q as [q|q|]; try reflexivity; try lia).
Qed.

Lemma trimEnd_keeps (c : ascii) (r : string) :
  is_ws c = false -> trimEnd (String c r) = String c (trimEnd r).
Proof. intros H. cbn [trimEnd]. now rewrite H. Qed.

Lemma trim_not_empty (s : string) :
  some_char (fun c => negb (is_ws c)) s = true -> trim s <> "".
Proof.
  unfold trim. induction s as [|c s IH]; cbn [some_char trimStart]; [discriminate|].
  destruct (is_ws c) eqn:E; cbn [negb orb]; [exact IH|].
  intros _. now rewrite (trimEnd_keeps c s E).
Qed.

Lemma split_char_cons (sep c : ascii) (r : string) :
  Ascii.eqb c sep = false ->
  exists h t, split_char sep r = h :: t /\ split_char sep (String c r) = String c h :: t.
Proof.
  intros H. cbn [split_char]. rewrite H.
  destruct r as [|x r]; [now exists "", []|].
  cbn [split_char]. destruct (Ascii.eqb x sep); [now eexists _, _|].
  destruct (split_char sep r); now eexists _, _.
Qed.

Lemma split_char_not_nil (sep : ascii) (s : string) : split_char sep s <> [].
Proof.
  destruct s as [|c r]; [discriminate|]. cbn [split_char].
  destruct (Ascii.eqb c sep); [discriminate|]. now destruct (split_char sep r).
Qed.

(** A string with a character that is no white space has a part. *)
Lemma parts_not_nil (s : string) :
  some_char (fun c => negb (is_ws c)) s = true -> parts_of s <> [].
Proof.
  intros H.
  assert (Hp : exists p, In p (split_char " " s) /\ trim p <> "").
  { induction s as [|c s IH]; [discriminate|].
    destruct (Ascii.eqb c " ") eqn:E.
    - apply Ascii.eqb_eq in E. subst c. cbn [some_char is_ws N_of_ascii negb orb] in H.
      destruct (IH H) as (p & Hin & Hp). exists p. split; [|exact Hp].
      cbn [split_char]. rewrite Ascii.eqb_refl. now right.
    - destruct (split_char_cons " " c s E) as (h & t & Hs & ->).
      destruct (is_ws c) eqn:W.
      + cbn [some_char] in H. rewrite W in H. cbn [negb orb] in H.
        destruct (IH H) as (p & Hin & Hp). rewrite Hs in Hin. destruct Hin as [<-|Hin].
        * exists (String c h). split; [now left|].
          unfold trim in *. cbn [trimStart]. now rewrite W.
        * exists p. split; [now right | exact Hp].
      + exists (String c h). split; [now left|].
        apply trim_not_empty. cbn [some_char]. now rewrite W. }
  destruct Hp as (p & Hin & Hp). unfold parts_of. intros Hnil.
  assert (Hf : In p (List.filter (fun p => negb (trim p =? "")) (split_char " " s))).
  { apply List.filter_In. split; [exact Hin|]. now destruct (String.eqb_spec (trim p) ""). }
  rewrite Hnil in Hf. exact Hf.
Qed.

Lemma some_char_weaken (p q : ascii -> bool) (s : string) :
  (forall c, p c = true -> q c = true) -> some_char p s = true -> some_char q s = true.
Proof.
  intros Hpq. induction s as [|c s IH]; cbn [some_char]; [easy|].
  destruct (p c) eqn:E; [now rewrite (Hpq c E)|]. cbn [orb]. intros H.
  rewrite (IH H). now destruct (q c).
Qed.

Lemma valid_has_upper_digit (str : string) :
  isValidConcatenation str = true ->
  some_char is_upper (trim str) = true /\ some_char is_digit (trim str) = true.
Proof.
  unfold isValidConcatenation. destruct (trim str =? ""); [discriminate|].
  destruct (some_char is_upper (trim str)); [|discriminate].
  destruct (some_char is_digit (trim str)); [|discriminate]. easy.
Qed.

Lemma valid_parts (str : string) :
  isValidConcatenation str = true -> parts_of str <> [].
Proof.
  intros H. apply parts_not_nil. destruct (valid_has_upper_digit str H) as [Hu _].
  apply some_char_trim in Hu. revert Hu. apply some_char_weaken.
  intros c Hc. now rewrite (upper_is_no_ws c Hc).
Qed.

(** The shape of a row Part 1 writes. *)
Lemma rows_of_shape (sheetName : string) (valCol4 valCol5 valCol7 : value) :
  exists rows, rows_of sheetName valCol4 valCol5 valCol7 = Some rows
    /\ Forall (fun r => exists user text, r = profile_row user text
                 /\ some_char is_upper text = true /\ some_char is_digit text = true) rows.
Proof.
  unfold rows_of.
  set (concatenated := trim _).
  destruct (isValidConcatenation concatenated) eqn:V; [|now exists []].
  destruct (valid_has_upper_digit _ V) as [Hu Hd].
  apply some_char_trim in Hu, Hd.
  assert (Hrow : exists user text, profile_row (staff_code_of concatenated) concatenated
                   = profile_row user text
                   /\ some_char is_upper text = true /\ some_char is_digit text = true)
    by now eexists _, _.
  destruct ((sheetName =? "MATHS") && includes (trim (to_string valCol7)) "C+M2").
  - pose proof (valid_parts _ V) as Hp. unfold extraConcatenated.
    destruct (parts_of concatenated) as [|p0 rest]; [congruence|].
    eexists. split; [reflexivity|]. constructor; [exact Hrow|]. constructor; [|constructor].
    eexists _, _. split; [reflexivity|].
    rewrite !some_char_app. split.
    + replace (some_char is_upper " (M2) ") with true by reflexivity.
      now rewrite orb_true_r.
    + replace (some_char is_digit " (M2) ") with true by reflexivity.
      now rewrite orb_true_r.
  - eexists. split; [reflexivity|]. now constructor.
Qed.

(** A loop fails exactly when one of its rounds does. *)
Lemma collect_none {A : Type} (body : A -> option (list row)) (l : list A) :
  collect body l = None <-> Exists (fun a => body a = None) l.
Proof.
  induction l as [|a l IH]; cbn [collect].
  - split; [discriminate | intros H; inversion H].
  - destruct (body a) as [rows|] eqn:E.
    + destruct (collect body l) as [rest|].
      * split; [discriminate|]. intros H. inversion H as [? ? Hx|? ? Hx]; subst.
        -- congruence.
        -- apply IH in Hx. discriminate.
      * split; [intros _; apply Exists_cons_tl; now apply IH | reflexivity].
    + split; [intros _; now apply Exists_cons_hd | reflexivity].
Qed.

Lemma collect_all {A : Type} (P : row -> Prop) (body : A -> option (list row)) (l : list A) :
  (forall a rows, body a = Some rows -> Forall P rows) ->
  forall rows, collect body l = Some rows -> Forall P rows.
Proof.
  intros Hb. induction l as [|a l IH]; cbn [collect]; intros rows.
  - intros [= <-]. constructor.
  - destruct (body a) as [one|] eqn:E; [|discriminate].
    destruct (collect body l) as [rest|]; [|discriminate].
    intros [= <-]. apply Forall_app. split; [exact (Hb a one E) | now apply IH].
Qed.

Lemma rows_of_returns (sheetName : string) (valCol4 valCol5 valCol7 : value) :
  rows_of sheetName valCol4 valCol5 valCol7 <> None.
Proof.
  destruct (rows_of_shape sheetName valCol4 valCol5 valCol7) as (rows & -> & _). discriminate.
Qed.

(** A sheet fails exactly when its name is taken and it has no ['!ref']. *)
Lemma sheet_rows_none (s : Workload.sheet) :
  sheet_rows s = None <-> isValidSheetName (name s) = true /\ ref s = None.
Proof.
  unfold sheet_rows. destruct (isValidSheetName (name s)).
  - destruct (ref s) as [rg|].
    + split; [|now intros [_ H]]. intros H. apply collect_none in H.
      apply Exists_exists in H as (r & _ & H). now apply rows_of_returns in H.
    + now split.
  - split; [discriminate | now intros [H _]].
Qed.

Lemma outputRows_shape (book : list Workload.sheet) (rows : list row) :
  outputRows book = Some rows ->
  Forall (fun r => exists user text, r = profile_row user text
            /\ some_char is_upper text = true /\ some_char is_digit text = true) rows.
Proof.
  unfold outputRows. apply collect_all. intros s one. unfold sheet_rows.
  destruct (isValidSheetName (name s)); [|intros [= <-]; constructor].
  destruct (ref s) as [rg|]; [|discriminate].
  apply collect_all. intros r two H.
  destruct (rows_of_shape (name s) (cell_of s r 3) (cell_of s r 4) (cell_of s r 6))
    as (rows' & E & Hshape).
  rewrite E in H. now injection H as <-.
Qed.

(** X21. Part 1 fails, writing nothing, exactly when a sheet whose name is
    taken has no ['!ref'], which [decode_range] needs; it never fails on
    [parts[0]].  Each row it writes has an empty sub_code and one text in
    its class, grouping and grouping_real columns, a text with a capital
    letter and a digit. *)
Theorem X21_part1_writes_uniform_rows (book : list Workload.sheet) :
  (outputRows book = None
   <-> Exists (fun s => isValidSheetName (name s) = true /\ ref s = None) book)
  /\ (forall rows, outputRows book = Some rows ->
        Forall (fun r => exists user text, r = profile_row user text
                  /\ some_char is_upper text = true /\ some_char is_digit text = true)
          rows).
Proof.
  split; [|exact (outputRows_shape book)].
  unfold outputRows. rewrite collect_none. split; intros H; apply Exists_exists in H;
    apply Exists_exists; destruct H as (s & Hin & H); exists s; (split; [exact Hin|]);
    now apply sheet_rows_none.
Qed.

Lemma X21_part1_writes_uniform_rows_witness :
  outputRows Samples.workload_book_with_empty_sheet = None.
Proof.
  apply (proj2 (proj1 (X21_part1_writes_uniform_rows
                         Samples.workload_book_with_empty_sheet))).
  apply Exists_cons_tl, Exists_cons_tl, Exists_cons_hd. split; reflexivity.
Defined.

(** X22. Part 4 does not fail on what Part 1 wrote: a row whose grouping
    cell is that of a row of Part 1 gets its sub_code set, and rows that
    all are rows of Part 1 are resolved one for one. *)
Theorem X22_part4_takes_part1_rows (book : list Workload.sheet) (rows : list row)
    (t : UserProfile.sheet) :
  outputRows book = Some rows ->
  (forall r r', In r rows -> row_get r' "grouping" = row_get r "grouping" ->
     exists text, row_get r "grouping" = VStr text
       /\ resolve_row t r' = Some (row_set r' "sub_code" (matchedSubCodeVal t text)))
  /\ exists out, resolve_rows t rows = Some out /\ length out = length rows.
Proof.
  intros Hout. pose proof (outputRows_shape book rows Hout) as Hshape.
  assert (Hone : forall r r', In r rows -> row_get r' "grouping" = row_get r "grouping" ->
     exists text, row_get r "grouping" = VStr text
       /\ resolve_row t r' = Some (row_set r' "sub_code" (matchedSubCodeVal t text))).
  { intros r r' Hin Hg. rewrite List.Forall_forall in Hshape.
    destruct (Hshape r Hin) as (user & text & -> & _ & _).
    exists text. split; [reflexivity|]. unfold resolve_row. rewrite Hg.
    change (row_get (profile_row user text) "grouping") with (VStr text).
    unfold or_else. cbn [truthy]. destruct (String.eqb_spec text "") as [->|]; reflexivity. }
  split; [exact Hone|].
  assert (Hall : forall r, In r rows -> resolve_row t r <> None).
  { intros r Hin. destruct (Hone r r Hin eq_refl) as (text & _ & ->). discriminate. }
  clear - Hall. induction rows as [|r rows IH]; cbn [resolve_rows]; [now exists []|].
  destruct (resolve_row t r) as [r'|] eqn:E; [|now destruct (Hall r (or_introl eq_refl))].
  destruct IH as (out & -> & Hlen); [intros x Hx; apply Hall; now right|].
  exists (r' :: out). split; [reflexivity|]. cbn [length]. now rewrite Hlen.
Qed.

Lemma X22_part4_takes_part1_rows_witness :
  exists out,
    resolve_rows Samples.sheet_with_DSE_row
      [profile_row "SUW" "4MJPWT5 MATHS SUW"; profile_row "SUW" "4 (M2) SUW";
       profile_row "12" "Total 12"] = Some out
    /\ length out = 3%nat.
Proof.
  refine (proj2 (X22_part4_takes_part1_rows Samples.workload_book _
                   Samples.sheet_with_DSE_row _)).
  vm_compute. reflexivity.
Defined.

Lemma no_space_cons (c : ascii) (p : string) :
  after_first_space (String c p) = None <->
  Ascii.eqb c " " = false /\ after_first_space p = None.
Proof.
  cbn [after_first_space]. destruct (Ascii.eqb c " "); split; try easy; now intros [_ H].
Qed.

Lemma split_char_no_space (s : string) :
  Forall (fun p => after_first_space p = None) (split_char " " s).
Proof.
  induction s as [|c s IH]; [now repeat constructor|].
  destruct (Ascii.eqb c " ") eqn:E.
  - cbn [split_char]. rewrite E. now constructor.
  - destruct (split_char_cons " " c s E) as (h & t & Hs & ->). rewrite Hs in IH.
    inversion IH as [|? ? Hh Ht]; subst. constructor; [|exact Ht].
    now apply no_space_cons.
Qed.

Lemma split_char_single (a : string) :
  after_first_space a = None -> split_char " " a = [a].
Proof.
  induction a as [|c a IH]; [reflexivity|]. intros H. apply no_space_cons in H as [E H].
  cbn [split_char]. now rewrite E, (IH H).
Qed.

Lemma split_char_app (a r : string) :
  after_first_space a = None -> split_char " " (a ++ String " " r) = a :: split_char " " r.
Proof.
  induction a as [|c a IH]; rewrite ?append_nil, ?append_cons.
  - reflexivity.
  - intros H. apply no_space_cons in H as [E H]. cbn [split_char]. now rewrite E, (IH H).
Qed.

Lemma split_char_concat (l : list string) :
  Forall (fun p => after_first_space p = None) l -> l <> [] ->
  split_char " " (String.concat " " l) = l.
Proof.
  induction 1 as [|x l Hx Hl IH]; [congruence|]. intros _.
  destruct l as [|y l]; [now apply split_char_single|].
  change (String.concat " " (x :: y :: l))
    with (x ++ String " " (String.concat " " (y :: l)))%string.
  rewrite (split_char_app _ _ Hx), IH; [reflexivity | discriminate].
Qed.

(** The parts of a text hold no space and are not blank. *)
Lemma parts_are_tokens (s : string) :
  Forall (fun p => after_first_space p = None /\ trim p <> "") (parts_of s).
Proof.
  unfold parts_of. apply List.Forall_forall. intros p Hp. apply List.filter_In in Hp as [Hin Hp].
  split.
  - pose proof (split_char_no_space s) as H. rewrite List.Forall_forall in H. now apply H.
  - intros E. rewrite E in Hp. discriminate.
Qed.

Lemma digit_is_no_ws (c : ascii) : is_digit c = true -> is_ws c = false.
Proof.
  unfold is_digit, is_ws. intros H. apply andb_prop in H as [H1 H2].
  apply N.leb_le in H1.
  destruct (N_of_ascii c) as [|q]; [reflexivity|].
  do 6 (destruct q as [q|q|]; try reflexivity; try lia).
Qed.

Lemma ws_of_space (c : ascii) : Ascii.eqb c " " = true -> is_ws c = true.
Proof. intros H. apply Ascii.eqb_eq in H. now subst c. Qed.

Lemma leading_digits_no_space (s : string) : after_first_space (leading_digits s) = None.
Proof.
  induction s as [|c s IH]; cbn [leading_digits]; [reflexivity|].
  destruct (is_digit c) eqn:D; [|reflexivity]. apply no_space_cons. split; [|exact IH].
  destruct (Ascii.eqb c " ") eqn:E; [|reflexivity].
  apply ws_of_space in E. rewrite (digit_is_no_ws c D) in E. discriminate.
Qed.

Lemma firstNumber_token (p0 : string) :
  after_first_space p0 = None -> trim p0 <> "" ->
  after_first_space (firstNumber p0) = None /\ trim (firstNumber p0) <> "".
Proof.
  intros Hs Ht. unfold firstNumber.
  destruct (String.eqb_spec (leading_digits p0) "") as [_|Hd]; [now split|].
  split; [apply leading_digits_no_space|].
  destruct p0 as [|c r]; [now cbn in Hd|]. cbn [leading_digits] in *.
  destruct (is_digit c) eqn:D; [|congruence].
  apply trim_not_empty. cbn [some_char]. now rewrite (digit_is_no_ws c D).
Qed.

(** The parts of the extra text. *)
Lemma parts_of_extra (p0 : string) (rest : list string) :
  after_first_space p0 = None -> trim p0 <> "" ->
  Forall (fun p => after_first_space p = None /\ trim p <> "") rest ->
  parts_of (firstNumber p0 ++ " (M2) " ++ String.concat " " rest)
  = firstNumber p0 :: "(M2)" :: rest.
Proof.
  intros Hs Ht Hrest. destruct (firstNumber_token p0 Hs Ht) as [Hfs Hft].
  unfold parts_of.
  change (firstNumber p0 ++ " (M2) " ++ String.concat " " rest)%string
    with (firstNumber p0 ++ String " " ("(M2)" ++ String " " (String.concat " " rest)))%string.
  rewrite (split_char_app _ _ Hfs), (split_char_app "(M2)" _ eq_refl).
  cbn [List.filter]. destruct (String.eqb_spec (trim (firstNumber p0)) ""); [contradiction|].
  cbn [negb]. f_equal. replace (trim "(M2)" =? "") with false by reflexivity. cbn [negb].
  f_equal. destruct rest as [|x rest]; [reflexivity|].
  rewrite split_char_concat; [| |discriminate].
  - clear - Hrest. induction Hrest as [|y l [_ Hy] _ IH]; cbn [List.filter]; [reflexivity|].
    destruct (String.eqb_spec (trim y) ""); [contradiction|]. cbn [negb]. now rewrite IH.
  - revert Hrest. apply List.Forall_impl. now intros a [Ha _].
Qed.

(** X23. The extra row of the MATHS sheet: its text has the leading number
    (or the whole first token), then (M2), then the tokens after the
    second. Part 4 gives it DMA21 when the text it was made from has three
    tokens, and no sub_code when that text has more than three. *)
Theorem X23_extra_row_resolves_to_DMA21 (t : UserProfile.sheet)
    (concatenated extra : string) :
  extraConcatenated (parts_of concatenated) = Some extra ->
  parts_of extra
  = firstNumber (hd "" (parts_of concatenated)) :: "(M2)" :: skipn 2 (parts_of concatenated)
  /\ (length (parts_of concatenated) = 3%nat -> resolve t extra = (true, VStr "DMA21"))
  /\ ((3 < length (parts_of concatenated))%nat -> resolve t extra = (false, VStr "")).
Proof.
  pose proof (parts_are_tokens concatenated) as Htok.
  unfold extraConcatenated. destruct (parts_of concatenated) as [|p0 tl] eqn:Ep; [discriminate|].
  intros [= <-]. inversion Htok as [|? ? [Hs Ht] Htl]; subst.
  assert (Hrest : Forall (fun p => after_first_space p = None /\ trim p <> "")
                    (skipn 2 (p0 :: tl))).
  { destruct tl as [|p1 rest]; [constructor|]. now inversion Htl. }
  pose proof (parts_of_extra p0 (skipn 2 (p0 :: tl)) Hs Ht Hrest) as Hparts.
  cbn [hd]. split; [exact Hparts|].
  assert (Hdse : forall b code, code = "M2" \/ code = "" ->
                   b && truthy (obj_get dseMapping code) = false).
  { intros b code [->| ->]; (replace (truthy (obj_get dseMapping _)) with false
                               by (vm_compute; reflexivity)); apply andb_false_r. }
  split; intros Hlen.
  - destruct tl as [|p1 [|p2 [|? ?]]]; try discriminate. cbn [skipn] in *.
    assert (Hcode : newSubjectCode (firstNumber p0 ++ " (M2) " ++ String.concat " " [p2])
                    = "M2").
    { unfold newSubjectCode, extracted. rewrite Hparts. reflexivity. }
    unfold resolve. rewrite Hcode. rewrite Hdse by now left. reflexivity.
  - destruct tl as [|p1 [|p2 [|p3 rest]]]; cbn [length] in Hlen; try lia. cbn [skipn] in *.
    assert (Hcode : newSubjectCode
                      (firstNumber p0 ++ " (M2) " ++ String.concat " " (p2 :: p3 :: rest))
                    = "").
    { unfold newSubjectCode, extracted. rewrite Hparts. now destruct rest. }
    unfold resolve. rewrite Hcode. rewrite Hdse by now right. reflexivity.
Qed.

Lemma X23_extra_row_resolves_to_DMA21_witness :
  resolve Samples.sheet_with_DSE_row "4 (M2) SUW" = (true, VStr "DMA21").
Proof.
  refine (proj1 (proj2 (X23_extra_row_resolves_to_DMA21 Samples.sheet_with_DSE_row
                          "4MJPWT5 MATHS SUW" "4 (M2) SUW" _)) _); reflexivity.
Defined.

Lemma append_empty_r (s : string) : (s ++ "")%string = s.
Proof. induction s as [|c s IH]; rewrite ?append_nil, ?append_cons; now rewrite ?IH. Qed.

Lemma spaces_succ (n : nat) (x : string) :
  (spaces (S n) ++ x)%string = String " " (spaces n ++ x).
Proof. reflexivity. Qed.

Lemma token_inv (p : string) :
  is_token p = true ->
  some_char is_ws p = false /\ exists c r, p = String c r /\ is_ws c = false.
Proof.
  unfold is_token. intros H. apply andb_prop in H as [Hne Hws].
  apply negb_true_iff in Hws. split; [exact Hws|].
  destruct p as [|c r]; [discriminate|]. exists c, r. split; [reflexivity|].
  cbn [some_char] in Hws. now apply orb_false_elim in Hws.
Qed.

Lemma no_ws_no_space (p : string) :
  some_char is_ws p = false -> after_first_space p = None.
Proof.
  induction p as [|c p IH]; [reflexivity|]. cbn [some_char]. intros H.
  apply orb_false_elim in H as [Hc Hp]. apply no_space_cons. split; [|now apply IH].
  destruct (Ascii.eqb c " ") eqn:E; [|reflexivity].
  apply ws_of_space in E. congruence.
Qed.

Lemma after_first_space_app (a r : string) :
  after_first_space a = None -> after_first_space (a ++ String " " r) = Some r.
Proof.
  induction a as [|c a IH]; rewrite ?append_nil, ?append_cons; [reflexivity|].
  intros H. apply no_space_cons in H as [E H]. cbn [after_first_space]. rewrite E. now apply IH.
Qed.

Lemma trimStart_spaces (n : nat) (x : string) : trimStart (spaces n ++ x) = trimStart x.
Proof. induction n as [|n IH]; [reflexivity|]. rewrite spaces_succ. exact IH. Qed.

Lemma trimEnd_no_ws (q : string) : some_char is_ws q = false -> trimEnd q = q.
Proof.
  induction q as [|c q IH]; [reflexivity|]. cbn [some_char]. intros H.
  apply orb_false_elim in H as [Hc Hq]. rewrite (trimEnd_keeps c q Hc). now rewrite IH.
Qed.

Lemma trimEnd_app_token (a q : string) : is_token q = true -> trimEnd (a ++ q) = (a ++ q)%string.
Proof.
  intros Hq. destruct (token_inv q Hq) as (Hws & c & r & -> & Hc).
  induction a as [|x a IH]; rewrite ?append_nil, ?append_cons.
  - now apply trimEnd_no_ws.
  - cbn [trimEnd]. rewrite IH.
    replace ((a ++ String c r)%string =? "") with false by now destruct a.
    now rewrite andb_false_r.
Qed.

(** Trimming a text that starts with spaces then a token, and ends with a
    token, removes the spaces. *)
Lemma trim_between_tokens (n : nat) (p a q : string) :
  is_token p = true -> is_token q = true ->
  trim (spaces n ++ p ++ a ++ q) = (p ++ a ++ q)%string.
Proof.
  intros Hp Hq. unfold trim. rewrite trimStart_spaces.
  destruct (token_inv p Hp) as (_ & c & r & -> & Hc).
  rewrite append_cons. cbn [trimStart]. rewrite Hc. rewrite <- append_cons.
  rewrite <- append_assoc. now apply trimEnd_app_token.
Qed.

Lemma trim_spaces_token (n : nat) (p : string) :
  is_token p = true -> trim (spaces n ++ p) = p.
Proof.
  intros Hp. unfold trim. rewrite trimStart_spaces.
  destruct (token_inv p Hp) as (Hws & c & r & -> & Hc).
  cbn [trimStart]. rewrite Hc. now apply trimEnd_no_ws.
Qed.

Lemma split_ws_from_token (cur p r : string) :
  some_char is_ws p = false ->
  split_ws_from cur false (p ++ r) = split_ws_from (cur ++ p) false r.
Proof.
  revert cur. induction p as [|c p IH]; intros cur; rewrite ?append_nil, ?append_cons.
  - now rewrite append_empty_r.
  - cbn [some_char]. intros H. apply orb_false_elim in H as [Hc Hp].
    cbn [split_ws_from]. rewrite Hc, (IH _ Hp), append_assoc. reflexivity.
Qed.

Lemma split_ws_from_spaces (n : nat) (x : string) :
  split_ws_from "" true (spaces n ++ x) = split_ws_from "" true x.
Proof. induction n as [|n IH]; [reflexivity|]. rewrite spaces_succ. exact IH. Qed.

Lemma split_ws_from_run (p r : string) :
  is_token p = true -> split_ws_from "" true (p ++ r) = split_ws_from "" false (p ++ r).
Proof.
  intros Hp. destruct (token_inv p Hp) as (_ & c & q & -> & Hc).
  rewrite append_cons. cbn [split_ws_from]. now rewrite Hc.
Qed.

(** A token, a run of spaces, and a text that starts with a token. *)
Lemma split_ws_from_step (p q r : string) (n : nat) :
  is_token p = true -> is_token q = true ->
  split_ws_from "" false (p ++ spaces (S n) ++ q ++ r)
  = p :: split_ws_from "" false (q ++ r).
Proof.
  intros Hp Hq. destruct (token_inv p Hp) as (Hws & _).
  rewrite (split_ws_from_token "" p _ Hws), append_nil, spaces_succ.
  cbn [split_ws_from is_ws N_of_ascii]. f_equal.
  now rewrite split_ws_from_spaces, split_ws_from_run.
Qed.

Lemma split_ws_from_last (p : string) :
  is_token p = true -> split_ws_from "" false p = [p].
Proof.
  intros Hp. destruct (token_inv p Hp) as (Hws & _).
  rewrite <- (append_empty_r p) at 1. now rewrite (split_ws_from_token "" p "" Hws).
Qed.

(** X24. The user column of Part 1 is the last of up to three tokens: for
    three tokens set apart by spaces it is the third, which is also the
    teacher the student-profile script reads from the class column; for two
    tokens it is the second; for one token it is empty. *)
Theorem X24_user_is_the_teacher_token (p0 p1 p2 : string) (n1 n2 : nat) :
  is_token p0 = true -> is_token p1 = true -> is_token p2 = true ->
  staff_code_of (p0 ++ spaces (S n1) ++ p1 ++ spaces (S n2) ++ p2) = p2
  /\ split_ws (trim (p0 ++ spaces (S n1) ++ p1 ++ spaces (S n2) ++ p2)) = [p0; p1; p2]
  /\ staff_code_of (p0 ++ spaces (S n1) ++ p1) = p1
  /\ staff_code_of p0 = "".
Proof.
  intros H0 H1 H2.
  destruct (token_inv p0 H0) as (Hw0 & _). destruct (token_inv p1 H1) as (Hw1 & _).
  destruct (token_inv p2 H2) as (Hw2 & _).
  pose proof (no_ws_no_space p0 Hw0) as Hs0. pose proof (no_ws_no_space p1 Hw1) as Hs1.
  pose proof (no_ws_no_space p2 Hw2) as Hs2.
  repeat split.
  - unfold staff_code_of. rewrite spaces_succ, (after_first_space_app _ _ Hs0).
    rewrite (trim_between_tokens n1 p1 (spaces (S n2)) p2 H1 H2).
    rewrite spaces_succ, (after_first_space_app _ _ Hs1).
    now apply trim_spaces_token.
  - replace (p0 ++ spaces (S n1) ++ p1 ++ spaces (S n2) ++ p2)%string
      with (p0 ++ (spaces (S n1) ++ p1 ++ spaces (S n2)) ++ p2)%string
      by (now rewrite !append_assoc).
    rewrite (trim_between_tokens 0 p0 _ p2 H0 H2 : trim (p0 ++ _ ++ p2) = _).
    rewrite !append_assoc. unfold split_ws.
    rewrite (split_ws_from_step p0 p1 _ n1 H0 H1).
    rewrite <- (append_empty_r p2) at 1.
    rewrite (split_ws_from_step p1 p2 "" n2 H1 H2), append_empty_r.
    now rewrite (split_ws_from_last p2 H2).
  - unfold staff_code_of. rewrite spaces_succ, (after_first_space_app _ _ Hs0).
    rewrite (trim_spaces_token n1 p1 H1). now rewrite Hs1.
  - unfold staff_code_of. now rewrite Hs0.
Qed.

Lemma X24_user_is_the_teacher_token_witness :
  staff_code_of "3A  CHI NEW" = "NEW" /\ split_ws (trim "3A  CHI NEW") = ["3A"; "CHI"; "NEW"].
Proof.
  pose proof (X24_user_is_the_teacher_token "3A" "CHI" "NEW" 1 0 eq_refl eq_refl eq_refl)
    as (H1 & H2 & _).
  split; [exact H1 | exact H2].
Defined.
End WorkloadMore.
